(* Verification of the stock, work-order and sequencing logic of the
   inventory management application (lib/database.ts, lib/orders-utils.ts,
   database-setup.sql).  Quantities are JavaScript numbers holding integers
   (INTEGER columns in the schema), modelled as Z. *)

From Stdlib Require Import ZArith List String Ascii Bool Lia.
From Stdlib Require Import Permutation.
Import ListNotations.
Open Scope Z_scope.

(* ------------------------------------------------------------------ *)
(** * Item status *)

Inductive Status := InStock | LowStock | OutOfStock.

Definition Status_eqb (a b : Status) : bool :=
  match a, b with
  | InStock, InStock | LowStock, LowStock | OutOfStock, OutOfStock => true
  | _, _ => false
  end.

(** The rule of the specification (section 4.1), used only to compare the
    call sites of the source against it. *)
Definition classify_spec (quantity reorderLevel : Z) : Status :=
  if quantity =? 0 then OutOfStock
  else if quantity <=? reorderLevel then LowStock
  else InStock.

(** addInventoryItem: [if (item.stock === 0) ... else if (item.stock <= 10)] *)
Definition addInventoryItem_status (stock : Z) : Status :=
  if stock =? 0 then OutOfStock
  else if stock <=? 10 then LowStock
  else InStock.

(** updateInventoryItem, branch [updates.stock !== undefined] *)
Definition updateInventoryItem_status (stock : Z) : Status :=
  if stock =? 0 then OutOfStock
  else if stock <=? 10 then LowStock
  else InStock.

(** database-setup.sql, trigger function update_inventory_status *)
Definition update_inventory_status_trigger (stock : Z) : Status :=
  if stock =? 0 then OutOfStock
  else if stock <=? 20 then LowStock
  else InStock.

(** addRawMaterial: [const reorder_level = 10], stored with the row. *)
Definition addRawMaterial_reorder_level : Z := 10.
Definition addRawMaterial_status (quantity : Z) : Status :=
  if quantity =? 0 then OutOfStock
  else if quantity <=? addRawMaterial_reorder_level then LowStock
  else InStock.

(** A nullable INTEGER column read back by the client.  In a JavaScript
    comparison [n <= null] the null converts to 0. *)
Definition js_num_of_null (v : option Z) : Z :=
  match v with Some n => n | None => 0 end.

(** updateRawMaterial: [newQuantity = updates.quantity ?? current.quantity],
    [newReorderLevel = updates.reorder_level ?? current.reorder_level].  An
    update field is [None] when undefined and [Some None] when null; [??]
    falls back to the current value in both cases. *)
Definition updateRawMaterial_status
    (upd_quantity : option Z) (upd_reorder_level : option (option Z))
    (cur_quantity : Z) (cur_reorder_level : option Z) : Status :=
  let newQuantity := match upd_quantity with Some q => q | None => cur_quantity end in
  let newReorderLevel :=
    match upd_reorder_level with Some (Some r) => Some r | _ => cur_reorder_level end in
  if newQuantity =? 0 then OutOfStock
  else if newQuantity <=? js_num_of_null newReorderLevel then LowStock
  else InStock.

(** database-setup.sql, trigger function update_raw_materials_status:
    [COALESCE(NEW.reorder_level, 10)] *)
Definition update_raw_materials_status_trigger (quantity : Z) (reorder_level : option Z) : Status :=
  if quantity =? 0 then OutOfStock
  else if quantity <=? match reorder_level with Some r => r | None => 10 end then LowStock
  else InStock.

(* ------------------------------------------------------------------ *)
(** * Reorder quantities *)

(** JavaScript [x || d] on a number that may be missing: 0 and undefined
    are falsy. *)
Definition js_or_default (v : option Z) (d : Z) : Z :=
  match v with Some n => if n =? 0 then d else n | None => d end.

(** The policy of the specification (section 4.2). *)
Definition ReorderQuantity_spec (currentQuantity reorderLevel : Z) : Z :=
  Z.max (2 * reorderLevel - currentQuantity) reorderLevel.

(** generatePurchaseOrdersForLowStock, per item:
    [reorderLevel = item.reorder_level || 20],
    [currentQuantity = item.quantity || 0],
    [Math.max(reorderLevel * 2 - currentQuantity, reorderLevel)] *)
Definition po_quantityNeeded (reorder_level : option Z) (quantity : option Z) : Z :=
  let reorderLevel := js_or_default reorder_level 20 in
  let currentQuantity := js_or_default quantity 0 in
  Z.max (reorderLevel * 2 - currentQuantity) reorderLevel.

(** generateLowStockReport (orders-utils.ts), raw materials:
    [Math.max((item.reorder_level || 10) * 2 - item.quantity, 0)] *)
Definition report_raw_reorder_needed (reorder_level : option Z) (quantity : Z) : Z :=
  Z.max (js_or_default reorder_level 10 * 2 - quantity) 0.

(** generateLowStockReport (orders-utils.ts), products:
    [Math.max(40 - item.stock, 0)] *)
Definition report_product_reorder_needed (stock : Z) : Z :=
  Z.max (40 - stock) 0.

(* ------------------------------------------------------------------ *)
(** * JavaScript number formatting *)

Definition digit_char (d : Z) : ascii := ascii_of_nat (48 + Z.to_nat d).

Fixpoint digits_aux (fuel : nat) (n : Z) (acc : string) : string :=
  match fuel with
  | O => acc
  | S f =>
      let acc' := String (digit_char (n mod 10)) acc in
      if n <? 10 then acc' else digits_aux f (n / 10) acc'
  end.

(** [n.toString()] for an integer [n]; the fuel (bit length) bounds the
    number of decimal digits. *)
Definition js_number_to_string (n : Z) : string :=
  let a := Z.abs n in
  let s := digits_aux (S (Z.to_nat (Z.log2 a))) a EmptyString in
  if n <? 0 then String "-" s else s.

Fixpoint zeros (k : nat) : string :=
  match k with O => EmptyString | S k' => String "0" (zeros k') end.

(** [s.padStart(4, "0")] *)
Definition padStart4 (s : string) : string :=
  if (4 <=? String.length s)%nat then s else zeros (4 - String.length s) ++ s.

(* ------------------------------------------------------------------ *)
(** * Store and in-memory order lists *)

Record RawMaterial := mkRawMaterial {
  rm_id : Z;
  rm_name : string;
  rm_quantity : Z;
  rm_reorder_level : option Z;
  rm_status : Status
}.

Record InventoryItem := mkInventoryItem {
  inv_id : Z;
  inv_name : string;
  inv_stock : Z;
  inv_status : Status
}.

Record ProductOrder := mkProductOrder {
  po_id : string;
  po_productId : Z;
  po_productName : string;
  po_quantity : Z;
  po_materials : list (Z * Z);   (* (materialId, quantity) *)
  po_status : string;
  po_createdAt : string;
  po_updatedAt : string;
  po_completedAt : option string
}.

(** The tables [raw_materials] and [inventory_items] of the hosted store,
    and the module-level state of orders-utils.ts. *)
Record World := mkWorld {
  raw_materials : list RawMaterial;
  inventory_items : list InventoryItem;
  productOrders : list ProductOrder;
  productOrderHistory : list ProductOrder;
  nextOrderId : Z
}.

Definition set_raw_materials (t : list RawMaterial) (w : World) : World :=
  mkWorld t (inventory_items w) (productOrders w) (productOrderHistory w) (nextOrderId w).
Definition set_inventory_items (t : list InventoryItem) (w : World) : World :=
  mkWorld (raw_materials w) t (productOrders w) (productOrderHistory w) (nextOrderId w).
Definition set_orders (a h : list ProductOrder) (w : World) : World :=
  mkWorld (raw_materials w) (inventory_items w) a h (nextOrderId w).

(** Errors thrown by the functions of orders-utils.ts. *)
Inductive Error :=
  | InsufficientStock (name : string) (available required : Z)
  | FailedToUpdateRawMaterial (name : string)
  | RawMaterialNotFound (id : Z)
  | FailedToDeductRawMaterial (inner : Error)
  | FailedToUpdateProductInventoryResult
  | ProductNotFoundInInventory
  | FailedToUpdateProductInventory (inner : Error).

(** State and exception monad: an async function that may throw. *)
Definition M (A : Type) : Type := World -> ((Error + A) * World).

Definition ret {A} (a : A) : M A := fun w => (inr a, w).
Definition bind {A B} (m : M A) (k : A -> M B) : M B :=
  fun w => match m w with
           | (inl e, w') => (inl e, w')
           | (inr a, w') => k a w'
           end.
Definition throw {A} (e : Error) : M A := fun w => (inl e, w).
Definition catch {A} (m : M A) (h : Error -> M A) : M A :=
  fun w => match m w with
           | (inl e, w') => h e w'
           | r => r
           end.
Definition get : M World := fun w => (inr w, w).
Definition put (w : World) : M unit := fun _ => (inr tt, w).

Notation "x <- m ;; k" := (bind m (fun x => k)) (at level 61, m at next level, right associativity).

Fixpoint find_index {A} (p : A -> bool) (l : list A) : option nat :=
  match l with
  | [] => None
  | x :: r => if p x then Some O else option_map S (find_index p r)
  end.

(** [arr.splice(i, 1)] *)
Fixpoint remove_nth {A} (i : nat) (l : list A) : list A :=
  match l, i with
  | [], _ => []
  | _ :: r, O => r
  | x :: r, S i' => x :: remove_nth i' r
  end.

(** [arr[i] = v] for an index returned by findIndex *)
Fixpoint replace_nth {A} (i : nat) (v : A) (l : list A) : list A :=
  match l, i with
  | [], _ => []
  | _ :: r, O => v :: r
  | x :: r, S i' => x :: replace_nth i' v r
  end.

(* ------------------------------------------------------------------ *)
(** * Database operations (lib/database.ts) and work orders (orders-utils.ts) *)

Section Operations.

(** The hosted store may fail any call; whether a call succeeds is left
    open as a function of the table it is made against. *)
Variable raw_read_ok : list RawMaterial -> bool.
Variable raw_write_ok : Z -> list RawMaterial -> bool.
Variable inv_read_ok : list InventoryItem -> bool.
Variable inv_write_ok : Z -> list InventoryItem -> bool.

Definition find_raw (id : Z) (t : list RawMaterial) : option RawMaterial :=
  find (fun m => rm_id m =? id) t.

Definition find_inv (id : Z) (t : list InventoryItem) : option InventoryItem :=
  find (fun p => inv_id p =? id) t.

(** getRawMaterials: on a store error the function returns []. *)
Definition getRawMaterials : M (list RawMaterial) :=
  fun w => let t := raw_materials w in
           (inr (if raw_read_ok t then t else []), w).

(** getInventoryItems: on a store error the function returns []. *)
Definition getInventoryItems : M (list InventoryItem) :=
  fun w => let t := inventory_items w in
           (inr (if inv_read_ok t then t else []), w).

Definition set_raw_row (id q : Z) (st : Status) (t : list RawMaterial) : list RawMaterial :=
  map (fun m => if rm_id m =? id
                then mkRawMaterial (rm_id m) (rm_name m) q (rm_reorder_level m) st
                else m) t.

Definition set_inv_row (id s : Z) (st : Status) (t : list InventoryItem) : list InventoryItem :=
  map (fun p => if inv_id p =? id
                then mkInventoryItem (inv_id p) (inv_name p) s st
                else p) t.

(** updateRawMaterial(id, { quantity: newQuantity }): the update is refused
    by the store when it fails or when it violates [CHECK (quantity >= 0)],
    and [.single()] needs the row to exist.  The client derives a status
    ([updateRawMaterial_status (Some newQuantity) None ...]) and sends it,
    but the trigger update_raw_materials_status, [BEFORE ... UPDATE OF
    quantity], overwrites it from the new quantity and the stored reorder
    level.  Returns whether a record came back (null otherwise). *)
Definition updateRawMaterial_quantity (id newQuantity : Z) : M bool :=
  fun w =>
    let t := raw_materials w in
    match find_raw id t with
    | None => (inr false, w)
    | Some cur =>
        let st := update_raw_materials_status_trigger newQuantity (rm_reorder_level cur) in
        if raw_write_ok id t && (0 <=? newQuantity)
        then (inr true, set_raw_materials (set_raw_row id newQuantity st t) w)
        else (inr false, w)
    end.

(** updateInventoryItem(id, { stock: newQuantity }), with
    [CHECK (stock >= 0)].  The client sets [updates.status] to
    [updateInventoryItem_status newStock], but the trigger
    update_inventory_status, [BEFORE INSERT OR UPDATE OF stock],
    overwrites it. *)
Definition updateInventoryItem_stock (id newStock : Z) : M bool :=
  fun w =>
    let t := inventory_items w in
    match find_inv id t with
    | None => (inr false, w)
    | Some _ =>
        let st := update_inventory_status_trigger newStock in
        if inv_write_ok id t && (0 <=? newStock)
        then (inr true, set_inventory_items (set_inv_row id newStock st t) w)
        else (inr false, w)
    end.

(** One iteration of the deduction loop of createProductOrder, with its
    inner try/catch. *)
Definition deduct_material (material : Z * Z) : M unit :=
  let '(materialId, quantity) := material in
  catch
    (rawMaterials <- getRawMaterials ;;
     match find_raw materialId rawMaterials with
     | Some currentMaterial =>
         let newQuantity := rm_quantity currentMaterial - quantity in
         if newQuantity <? 0 then
           throw (InsufficientStock (rm_name currentMaterial) (rm_quantity currentMaterial) quantity)
         else
           updateResult <- updateRawMaterial_quantity materialId newQuantity ;;
           if updateResult then ret tt
           else throw (FailedToUpdateRawMaterial (rm_name currentMaterial))
     | None => throw (RawMaterialNotFound materialId)
     end)
    (fun e => throw (FailedToDeductRawMaterial e)).

(** [for (const material of orderData.materials) { ... }] *)
Fixpoint deduct_materials (materials : list (Z * Z)) : M unit :=
  match materials with
  | [] => ret tt
  | m :: rest => _ <- deduct_material m ;; deduct_materials rest
  end.

Record OrderData := mkOrderData {
  od_productId : Z;
  od_productName : string;
  od_quantity : Z;
  od_materials : list (Z * Z);
  od_status : string
}.

(** createProductOrder; [now] is [new Date().toISOString()]. *)
Definition createProductOrder (orderData : OrderData) (now : string) : M ProductOrder :=
  catch
    (_ <- deduct_materials (od_materials orderData) ;;
     w <- get ;;
     let newOrder :=
       mkProductOrder ("PO-" ++ padStart4 (js_number_to_string (nextOrderId w)))
         (od_productId orderData) (od_productName orderData) (od_quantity orderData)
         (od_materials orderData) (od_status orderData) now now None in
     _ <- put (mkWorld (raw_materials w) (inventory_items w)
                 (productOrders w ++ [newOrder]) (productOrderHistory w)
                 (nextOrderId w + 1)) ;;
     ret newOrder)
    (fun e => throw e).

(** The product credit of updateProductOrderStatus, with its try/catch. *)
Definition credit_product (productId quantity : Z) : M unit :=
  catch
    (inventoryItems <- getInventoryItems ;;
     match find_inv productId inventoryItems with
     | Some product =>
         let newQuantity := inv_stock product + quantity in
         updateResult <- updateInventoryItem_stock productId newQuantity ;;
         if updateResult then ret tt else throw FailedToUpdateProductInventoryResult
     | None => throw ProductNotFoundInInventory
     end)
    (fun e => throw (FailedToUpdateProductInventory e)).

(** updateProductOrderStatus(id, status); [now] is the timestamp. *)
Definition updateProductOrderStatus (id status now : string) : M (option ProductOrder) :=
  catch
    (w <- get ;;
     match find_index (fun o => String.eqb (po_id o) id) (productOrders w) with
     | None => ret None
     | Some orderIndex =>
         match nth_error (productOrders w) orderIndex with
         | None => ret None
         | Some o =>
             let updatedOrder :=
               mkProductOrder (po_id o) (po_productId o) (po_productName o) (po_quantity o)
                 (po_materials o) status (po_createdAt o) now (po_completedAt o) in
             if String.eqb status "completed" then
               let updatedOrder :=
                 mkProductOrder (po_id o) (po_productId o) (po_productName o) (po_quantity o)
                   (po_materials o) status (po_createdAt o) now (Some now) in
               _ <- credit_product (po_productId updatedOrder) (po_quantity updatedOrder) ;;
               w' <- get ;;
               _ <- put (set_orders (remove_nth orderIndex (productOrders w'))
                           (productOrderHistory w' ++ [updatedOrder]) w') ;;
               ret (Some updatedOrder)
             else
               _ <- put (set_orders (replace_nth orderIndex updatedOrder (productOrders w))
                           (productOrderHistory w) w) ;;
               ret (Some updatedOrder)
         end
     end)
    (fun e => throw e).

End Operations.

(* ------------------------------------------------------------------ *)
(** * Identifier sequencing (addInventoryItem, addRawMaterial,
      createPurchaseOrder) *)

Open Scope string_scope.

Definition is_digit (c : ascii) : bool :=
  let n := nat_of_ascii c in ((48 <=? n) && (n <=? 57))%nat.

Definition is_js_space (c : ascii) : bool :=
  let n := nat_of_ascii c in
  ((n =? 32) || (n =? 9) || (n =? 10) || (n =? 11) || (n =? 12) || (n =? 13))%nat.

Fixpoint skip_spaces (s : string) : string :=
  match s with
  | String c r => if is_js_space c then skip_spaces r else s
  | EmptyString => s
  end.

(** Leading decimal digits of a string. *)
Fixpoint take_digits (s : string) : string :=
  match s with
  | String c r => if is_digit c then String c (take_digits r) else EmptyString
  | EmptyString => EmptyString
  end.

Fixpoint digits_value (acc : Z) (s : string) : Z :=
  match s with
  | String c r => digits_value (acc * 10 + (Z.of_nat (nat_of_ascii c) - 48)) r
  | EmptyString => acc
  end.

(** [Number.parseInt(s)] with radix 10: leading white space, an optional
    sign, then the longest run of digits; [None] stands for NaN.  (The
    segments parsed here never start with "0x", so the hexadecimal prefix
    rule is not modelled.) *)
Definition js_parseInt (s : string) : option Z :=
  let s := skip_spaces s in
  let '(sign, body) :=
    match s with
    | String "+" r => (1, r)
    | String "-" r => (-1, r)
    | _ => (1, s)
    end in
  match take_digits body with
  | EmptyString => None
  | d => Some (sign * digits_value 0 d)
  end.

(** [s.split("-")[1]]: the text between the first and the second "-",
    [None] (undefined) when [s] has no "-". *)
Fixpoint after_first_dash (s : string) : option string :=
  match s with
  | String "-" r => Some r
  | String _ r => after_first_dash r
  | EmptyString => None
  end.

Fixpoint upto_dash (s : string) : string :=
  match s with
  | String "-" _ => EmptyString
  | String c r => String c (upto_dash r)
  | EmptyString => EmptyString
  end.

Definition split_dash_1 (s : string) : option string :=
  option_map upto_dash (after_first_dash s).

(** [.order("sku", { ascending: false }).limit(1)]: the greatest string.
    For the ids compared below (a fixed prefix, then ASCII digits) the
    database collation agrees with the byte order of [String.compare]. *)
Fixpoint str_greatest (l : list string) : option string :=
  match l with
  | [] => None
  | s :: r =>
      match str_greatest r with
      | None => Some s
      | Some m => if String.ltb s m then Some m else Some s
      end
  end.

(** SKU generation of addInventoryItem (prefix "PRD") and addRawMaterial
    (prefix "RAW"), over the SKUs currently stored in the table.  The error
    of the query is not read: when it fails, [existingItems] is null and
    the number is 1. *)
Definition next_sku (sku_query_ok : bool) (prefix : string) (skus : list string) : string :=
  let existingItems := if sku_query_ok then filter (String.prefix (prefix ++ "-")) skus else [] in
  let nextNumber :=
    match str_greatest existingItems with
    | Some lastSku =>
        if String.eqb lastSku "" then 1
        else match option_map js_parseInt (split_dash_1 lastSku) with
             | Some (Some lastNumber) => lastNumber + 1
             | _ => 1
             end
    | None => 1
    end in
  prefix ++ "-" ++ padStart4 (js_number_to_string nextNumber).

(** [lastPO.match(/PO-(\d+)/)]: the first group of the leftmost match. *)
Fixpoint match_po_digits (s : string) : option string :=
  match s with
  | EmptyString => None
  | String c r =>
      match s with
      | String "P" (String "O" (String "-" rest)) =>
          match take_digits rest with
          | EmptyString => match_po_digits r
          | d => Some d
          end
      | _ => match_po_digits r
      end
  end.

(** PO number generation of createPurchaseOrder; [po_numbers] lists the
    stored purchase orders newest first ([.order("created_at",
    { ascending: false })]), of which [.limit(1)] keeps the head. *)
Definition next_po_number (po_numbers : list string) : string :=
  let nextNumber :=
    match po_numbers with
    | lastPO :: _ =>
        match match_po_digits lastPO with
        | Some m => match js_parseInt m with Some n => n + 1 | None => 1 end
        | None => 1
        end
    | [] => 1
    end in
  "PO-" ++ padStart4 (js_number_to_string nextNumber).

(** The identifier an item with number [n] carries. *)
Definition id_of (prefix : string) (n : Z) : string :=
  prefix ++ "-" ++ padStart4 (js_number_to_string n).

Definition max_number (ns : list Z) : Z := fold_right Z.max 0 ns.

(* ------------------------------------------------------------------ *)
(** * Purchase-order creation (createPurchaseOrder) *)

Record POItemInput := mkPOItemInput {
  in_raw_material_id : Z;
  in_material_name : string;
  in_quantity : Z;
  in_unit_price : Z
}.

Record PORow := mkPORow {
  por_id : Z;
  por_po_number : string;
  por_supplier : string
}.

Record POItemRow := mkPOItemRow {
  poi_po_id : Z;
  poi_raw_material_id : Z;
  poi_material_name : string;
  poi_quantity : Z;
  poi_unit_price : Z;
  poi_total_price : Z
}.

(** The tables [purchase_orders] (newest first) and [purchase_order_items],
    and the next value of the SERIAL key of [purchase_orders]. *)
Record POStore := mkPOStore {
  purchase_orders : list PORow;
  purchase_order_items : list POItemRow;
  next_po_row_id : Z
}.

Section PurchaseOrders.

(** Success of the four store calls made by createPurchaseOrder: the
    fetch of the last PO number, the header insert, the items insert and
    the compensating delete. *)
Variable fetch_ok header_ok items_ok delete_ok : POStore -> bool.

(** Returns the created order with its items, or [None] for null. *)
Definition createPurchaseOrder (supplier : string) (items : list POItemInput) (s : POStore)
    : option (PORow * list POItemRow) * POStore :=
  if negb (fetch_ok s) then (None, s)
  else
    let po_number := next_po_number (map por_po_number (purchase_orders s)) in
    if negb (header_ok s) then (None, s)
    else
      let order := mkPORow (next_po_row_id s) po_number supplier in
      let s1 := mkPOStore (order :: purchase_orders s) (purchase_order_items s)
                          (next_po_row_id s + 1) in
      let itemsToInsert :=
        map (fun it => mkPOItemRow (por_id order) (in_raw_material_id it)
                         (in_material_name it) (in_quantity it) (in_unit_price it)
                         (in_quantity it * in_unit_price it)) items in
      if items_ok s1 then
        (Some (order, itemsToInsert),
         mkPOStore (purchase_orders s1) (purchase_order_items s1 ++ itemsToInsert)
                   (next_po_row_id s1))
      else
        (* [await supabase.from("purchase_orders").delete().eq("id", order.id)];
           its result is not inspected *)
        let s2 := if delete_ok s1
                  then mkPOStore (filter (fun r => negb (Z.eqb (por_id r) (por_id order)))
                                         (purchase_orders s1))
                                 (purchase_order_items s1) (next_po_row_id s1)
                  else s1 in
        (None, s2).

End PurchaseOrders.

(** Driver for a sequence of independent calls: the store state after each
    deduction of createProductOrder's loop body, whatever its outcome. *)
Fixpoint adjustment_trace (rr : list RawMaterial -> bool) (rw : Z -> list RawMaterial -> bool)
    (requests : list (Z * Z)) (w : World) : list World :=
  match requests with
  | [] => [w]
  | m :: rest => w :: adjustment_trace rr rw rest (snd (deduct_material rr rw m w))
  end.

Definition raw_nonneg (w : World) : Prop :=
  Forall (fun m => 0 <= rm_quantity m)%Z (raw_materials w).

(* ------------------------------------------------------------------ *)
(** * Concrete stores *)

Definition store_ok {A} (_ : A) : bool := true.
Definition store_ok2 {A B} (_ : A) (_ : B) : bool := true.

(** Materials A (quantity 10) and B (quantity 2), product P (stock 3). *)
Definition world_AB : World :=
  mkWorld [mkRawMaterial 1 "A" 10 (Some 10) LowStock;
           mkRawMaterial 2 "B" 2 (Some 10) LowStock]
          [mkInventoryItem 7 "P" 3 LowStock] [] [] 1.

Definition order_A5_B5 : OrderData := mkOrderData 7 "P" 7 [(1, 5); (2, 5)] "pending".

Definition order_P7 (status : string) : ProductOrder :=
  mkProductOrder "PO-0001" 7 "P" 7 [(1, 5)] status "t0" "t0" None.

Definition world_P7 (status : string) : World :=
  mkWorld [mkRawMaterial 1 "A" 5 (Some 10) LowStock]
          [mkInventoryItem 7 "P" 3 LowStock] [order_P7 status] [] 2.

Definition world_P7_no_product : World :=
  mkWorld [mkRawMaterial 1 "A" 5 (Some 10) LowStock] [] [order_P7 "pending"] [] 2.

Definition po_store_empty : POStore := mkPOStore [] [] 1.

Definition cotton_item : POItemInput := mkPOItemInput 1 "Cotton Fabric" 5 1000.

(** The world after completing PO-0001 (quantity 7) against stock 3. *)
Definition world_P7_completed : World :=
  snd (updateProductOrderStatus store_ok store_ok2 "PO-0001" "completed" "t1" (world_P7 "pending")).

(** The world after setting PO-0001 to cancelled. *)
Definition world_P7_cancelled : World :=
  snd (updateProductOrderStatus store_ok store_ok2 "PO-0001" "cancelled" "t1" (world_P7 "pending")).

(** The four decimal digits of a number below 10000, most significant
    first. *)
Definition four_digits (n : Z) : string :=
  String (digit_char (n / 1000)) (String (digit_char (n / 100 mod 10))
    (String (digit_char (n / 10 mod 10)) (String (digit_char (n mod 10)) EmptyString))).

Definition option_Z_eqb (a b : option Z) : bool :=
  match a, b with
  | Some x, Some y => Z.eqb x y
  | None, None => true
  | _, _ => false
  end.

Definition option_string_eqb (a b : option string) : bool :=
  match a, b with
  | Some x, Some y => String.eqb x y
  | None, None => true
  | _, _ => false
  end.

(** Formatting and parsing facts about one number [k], checked below for
    every k in [0, 10000). *)
Definition sequencer_facts (k : Z) : bool :=
  String.eqb (padStart4 (js_number_to_string k)) (four_digits k) &&
  String.eqb (upto_dash (four_digits k)) (four_digits k) &&
  option_Z_eqb (js_parseInt (four_digits k)) (Some k) &&
  option_string_eqb (match_po_digits (String "P" (String "O" (String "-" (four_digits k)))))
                    (Some (four_digits k)).

Definition comparison_eqb (a b : comparison) : bool :=
  match a, b with
  | Eq, Eq | Lt, Lt | Gt, Gt => true
  | _, _ => false
  end.

Definition digit_order_fact (x y : Z) : bool :=
  comparison_eqb (Ascii.compare (digit_char x) (digit_char y)) (Z.compare x y).

Definition lex (c d : comparison) : comparison :=
  match c with Eq => d | _ => c end.

(** The record updateProductOrderStatus builds:
    [{ ...order, status, updatedAt }], and with [completedAt] stamped. *)
Definition with_status (o : ProductOrder) (status now : string) : ProductOrder :=
  mkProductOrder (po_id o) (po_productId o) (po_productName o) (po_quantity o)
    (po_materials o) status (po_createdAt o) now (po_completedAt o).

Definition completed_order (o : ProductOrder) (now : string) : ProductOrder :=
  mkProductOrder (po_id o) (po_productId o) (po_productName o) (po_quantity o)
    (po_materials o) "completed" (po_createdAt o) now (Some now).


(* ------------------------------------------------------------------ *)
(** * Further work-order operations (orders-utils.ts) *)

(** getProductOrderById(id): [productOrders.find(...) ||
    productOrderHistory.find(...)]; the copy [{ ...order }] has the same
    fields as the stored record. *)
Definition getProductOrderById (id : string) (w : World) : option ProductOrder :=
  match find (fun o => String.eqb (po_id o) id) (productOrders w) with
  | Some o => Some o
  | None => find (fun o => String.eqb (po_id o) id) (productOrderHistory w)
  end.

(** deleteProductOrder(id): [splice] of the first active order with that
    id; nothing else is touched. *)
Definition deleteProductOrder (id : string) : M bool :=
  w <- get ;;
  match find_index (fun o => String.eqb (po_id o) id) (productOrders w) with
  | None => ret false
  | Some orderIndex =>
      _ <- put (set_orders (remove_nth orderIndex (productOrders w)) (productOrderHistory w) w) ;;
      ret true
  end.

(** The stored quantity of a raw material, as createProductOrder reads it. *)
Definition raw_quantity (id : Z) (w : World) : option Z :=
  option_map rm_quantity (find_raw id (raw_materials w)).

(** The total quantity a list of [(materialId, quantity)] requests of one
    material. *)
Definition requested (id : Z) (materials : list (Z * Z)) : Z :=
  fold_right (fun m acc => if Z.eqb (fst m) id then (snd m + acc)%Z else acc) 0%Z materials.

(** Order ids are distinct across the active list and the history, and
    each is the id createProductOrder gave for a number below the counter. *)
Definition order_ids_ok (w : World) : Prop :=
  NoDup (map po_id (productOrders w ++ productOrderHistory w)) /\
  Forall (fun o => exists k, (0 <= k < nextOrderId w)%Z /\ po_id o = id_of "PO" k)
         (productOrders w ++ productOrderHistory w).

(* ------------------------------------------------------------------ *)
(** * Reading and deleting purchase orders (orders-utils.ts) *)

(** getPurchaseOrders(): the headers newest first, each with the items whose
    [po_id] is its id, in ascending item id (the items table is kept in
    insertion order, the order of its SERIAL ids); a failed items read gives
    that order no items, a failed header read gives no orders. *)
Definition getPurchaseOrders (orders_read_ok : POStore -> bool)
    (items_read_ok : POStore -> Z -> bool) (s : POStore) : list (PORow * list POItemRow) :=
  if negb (orders_read_ok s) then []
  else map (fun order =>
              (order, if items_read_ok s (por_id order)
                      then filter (fun it => Z.eqb (poi_po_id it) (por_id order))
                                  (purchase_order_items s)
                      else [])) (purchase_orders s).

(** getPurchaseOrderById(id): [.eq("id", id).single()] on the headers is an
    error unless exactly one row matches; then the items of that id. *)
Definition getPurchaseOrderById (header_read_ok items_read_ok : POStore -> bool) (id : Z)
    (s : POStore) : option (PORow * list POItemRow) :=
  if negb (header_read_ok s) then None
  else match filter (fun r => Z.eqb (por_id r) id) (purchase_orders s) with
       | [order] =>
           if negb (items_read_ok s) then None
           else Some (order, filter (fun it => Z.eqb (poi_po_id it) id) (purchase_order_items s))
       | _ => None
       end.

(** deletePurchaseOrder(id): the header row is deleted and its items with
    it ([ON DELETE CASCADE] on [purchase_order_items.po_id]); the select
    before it only feeds the log message. *)
Definition deletePurchaseOrder (delete_ok : POStore -> bool) (id : Z) (s : POStore)
    : bool * POStore :=
  if delete_ok s
  then (true, mkPOStore (filter (fun r => negb (Z.eqb (por_id r) id)) (purchase_orders s))
                        (filter (fun it => negb (Z.eqb (poi_po_id it) id)) (purchase_order_items s))
                        (next_po_row_id s))
  else (false, s).

(** The rows the store holds are keyed below the SERIAL counter, header ids
    are distinct, and every item belongs to an id already handed out. *)
Definition po_store_ok (s : POStore) : Prop :=
  NoDup (map por_id (purchase_orders s)) /\
  Forall (fun r => por_id r < next_po_row_id s) (purchase_orders s) /\
  Forall (fun it => poi_po_id it < next_po_row_id s) (purchase_order_items s).

(** The item row createPurchaseOrder inserts for one requested item. *)
Definition po_item_row (po_id : Z) (it : POItemInput) : POItemRow :=
  mkPOItemRow po_id (in_raw_material_id it) (in_material_name it) (in_quantity it)
    (in_unit_price it) (in_quantity it * in_unit_price it).

(* ------------------------------------------------------------------ *)
(** * Raw materials as getRawMaterials returns them (database.ts) *)

(** A row of the [raw_materials] table, with the columns the application
    reads; [status] is NOT NULL and CHECKed to one of the three values. *)
Record RawMaterialDbRow := mkRawMaterialDbRow {
  rr_id : Z;
  rr_name : string;
  rr_category : option string;
  rr_quantity : Z;
  rr_unit : string;
  rr_cost_per_unit : Z;
  rr_supplier : option string;
  rr_reorder_level : option Z;
  rr_sku : option string;
  rr_status : Status
}.

(** The [RawMaterial] object of the application. *)
Record RawMaterialObj := mkRawMaterialObj {
  rmo_id : Z;
  rmo_name : string;
  rmo_sku : string;
  rmo_category : string;
  rmo_quantity : Z;
  rmo_unit : string;
  rmo_cost_per_unit : Z;
  rmo_supplier : option string;
  rmo_reorder_level : option Z;
  rmo_status : Status
}.

(** JavaScript [s || d] on a string that may be missing: "" is falsy. *)
Definition js_str_or (v : option string) (d : string) : string :=
  match v with Some s => if String.eqb s "" then d else s | None => d end.

(** The [data.map(...)] of getRawMaterials. A stored status is one of the
    three non-empty strings, so [item.status || ...] keeps it. *)
Definition raw_material_of_row (item : RawMaterialDbRow) : RawMaterialObj :=
  mkRawMaterialObj (rr_id item) (rr_name item)
    (js_str_or (rr_sku item) (id_of "RAW" (rr_id item)))
    (js_str_or (rr_category item) "general")
    (js_or_default (Some (rr_quantity item)) 0)
    (js_str_or (Some (rr_unit item))
       (if option_string_eqb (rr_category item) (Some "Fabric") then "rolls" else "units"))
    (js_or_default (Some (rr_cost_per_unit item)) 0)
    (rr_supplier item)
    (Some (js_or_default (rr_reorder_level item) 10))
    (rr_status item).

(* ------------------------------------------------------------------ *)
(** * Purchase orders for low stock (generatePurchaseOrdersForLowStock) *)

(** [item.status === "low-stock" || item.status === "out-of-stock"] *)
Definition is_low_or_out (st : Status) : bool :=
  Status_eqb st LowStock || Status_eqb st OutOfStock.

(** The properties a plain object [{}] inherits from [Object.prototype]. *)
Definition object_prototype_keys : list string :=
  ["constructor"; "__defineGetter__"; "__defineSetter__"; "hasOwnProperty";
   "__lookupGetter__"; "__lookupSetter__"; "isPrototypeOf"; "propertyIsEnumerable";
   "toString"; "valueOf"; "__proto__"; "toLocaleString"].

(** One step of the [reduce] grouping by supplier, on the own properties of
    [acc] in creation order. For an inherited name [acc[supplier]] is a
    function or an object, so the array is not created and [.push] throws a
    TypeError: [None] stands for the exception. *)
Definition group_step (acc : option (list (string * list RawMaterialObj)))
    (item : RawMaterialObj) : option (list (string * list RawMaterialObj)) :=
  match acc with
  | None => None
  | Some acc =>
      let supplier := js_str_or (rmo_supplier item) "Unknown Supplier" in
      if existsb (String.eqb supplier) (map fst acc)
      then Some (map (fun e => if String.eqb (fst e) supplier then (fst e, (snd e ++ [item])%list) else e) acc)
      else if existsb (String.eqb supplier) object_prototype_keys then None
      else Some (acc ++ [(supplier, [item])])%list
  end.

(** A property name that is an array index: the canonical decimal form of
    a number below 2^32 - 1. *)
Definition is_array_index (k : string) : bool :=
  negb (String.eqb k "") && String.eqb (take_digits k) k &&
  (String.eqb k "0" || negb (String.prefix "0" k)) &&
  Z.ltb (digits_value 0 k) 4294967295.

Fixpoint insert_by_index {B} (e : string * B) (l : list (string * B)) : list (string * B) :=
  match l with
  | [] => [e]
  | x :: r => if Z.ltb (digits_value 0 (fst e)) (digits_value 0 (fst x)) then e :: l
              else x :: insert_by_index e r
  end.

(** Object.entries: the array-index keys in ascending numeric order, then
    the other keys in creation order. *)
Definition object_entries {B} (props : list (string * B)) : list (string * B) :=
  (fold_right insert_by_index [] (filter (fun e => is_array_index (fst e)) props) ++
   filter (fun e => negb (is_array_index (fst e))) props)%list.

(** [orderItems]: one requested item per low-stock material. *)
Definition low_stock_item_input (item : RawMaterialObj) : POItemInput :=
  mkPOItemInput (rmo_id item) (rmo_name item)
    (po_quantityNeeded (rmo_reorder_level item) (Some (rmo_quantity item)))
    (rmo_cost_per_unit item).

Section LowStock.

(** The store calls of createPurchaseOrder, and the answer of the query
    for a pending purchase order of a supplier (its error is ignored, so a
    failed query reads as "none"). *)
Variable fetch_ok header_ok items_ok delete_ok : POStore -> bool.
Variable pending_po_exists : POStore -> string -> bool.

(** The [for ... of Object.entries(itemsBySupplier)] loop. *)
Fixpoint create_for_suppliers (entries : list (string * list RawMaterialObj)) (s : POStore)
    : list (PORow * list POItemRow) * POStore :=
  match entries with
  | [] => ([], s)
  | (supplier, items) :: rest =>
      if pending_po_exists s supplier then create_for_suppliers rest s
      else
        let '(createdOrder, s1) :=
          createPurchaseOrder fetch_ok header_ok items_ok delete_ok supplier
            (map low_stock_item_input items) s in
        let '(others, s2) := create_for_suppliers rest s1 in
        (match createdOrder with Some c => c :: others | None => others end, s2)
  end.

Definition generatePurchaseOrdersForLowStock (rawMaterials : list RawMaterialObj) (s : POStore)
    : list (PORow * list POItemRow) * POStore :=
  let lowStockItems := filter (fun item => is_low_or_out (rmo_status item)) rawMaterials in
  if Nat.eqb (List.length lowStockItems) 0 then ([], s)
  else match fold_left group_step lowStockItems (Some []) with
       | None => ([], s)
       | Some itemsBySupplier => create_for_suppliers (object_entries itemsBySupplier) s
       end.

End LowStock.

(** What the grouping keeps of the items [P] seen so far: one property per
    supplier name, holding that supplier's items in order, none empty and
    none named after an inherited property. *)
Definition grouped (P : list RawMaterialObj) (acc : list (string * list RawMaterialObj)) : Prop :=
  NoDup (map fst acc) /\
  (forall k l, In (k, l) acc ->
     l = filter (fun i => String.eqb (js_str_or (rmo_supplier i) "Unknown Supplier") k) P /\ l <> []) /\
  (forall i, In i P -> In (js_str_or (rmo_supplier i) "Unknown Supplier") (map fst acc)) /\
  (forall k, In k (map fst acc) -> ~ In k object_prototype_keys).

(* ------------------------------------------------------------------ *)
(** * Reports (orders-utils.ts and reports-utils.ts) *)

(** A row of [inventory_items] as getInventoryItems returns it (no
    transformation); [status] is NOT NULL and CHECKed. *)
Record InventoryRow := mkInventoryRow {
  ir_id : Z;
  ir_name : string;
  ir_category : string;
  ir_price : Z;
  ir_stock : Z;
  ir_sku : string;
  ir_status : Status
}.

(** An entry of [items] of the inventory summary; for products [amount] is
    [stock] and [unit_price] is [price], for raw materials they are
    [quantity] and [cost_per_unit]. *)
Record SummaryItem := mkSummaryItem {
  si_sku : string;
  si_name : string;
  si_category : string;
  si_amount : Z;
  si_unit_price : Z;
  si_status : Status;
  si_value : Z;
  si_unit : string
}.

Record SummaryPart := mkSummaryPart {
  total_items : Z;
  total_value : Z;
  in_stock : Z;
  low_stock : Z;
  out_of_stock : Z;
  summary_items : list SummaryItem
}.

Definition count_status (st : Status) (l : list Status) : Z :=
  Z.of_nat (List.length (filter (fun s => Status_eqb s st) l)).

(** generateInventorySummary (orders-utils.ts): [productsData]. *)
Definition products_summary (products : list InventoryRow) : SummaryPart :=
  mkSummaryPart (Z.of_nat (List.length products))
    (fold_left (fun sum item => sum + ir_price item * ir_stock item) products 0)
    (count_status InStock (map ir_status products))
    (count_status LowStock (map ir_status products))
    (count_status OutOfStock (map ir_status products))
    (map (fun item => mkSummaryItem (ir_sku item) (ir_name item) (ir_category item) (ir_stock item)
                        (ir_price item) (ir_status item) (ir_price item * ir_stock item) "dz")
         products).

(** generateInventorySummary (orders-utils.ts): [rawMaterialsData]. *)
Definition raw_materials_summary (rawMaterials : list RawMaterialObj) : SummaryPart :=
  mkSummaryPart (Z.of_nat (List.length rawMaterials))
    (fold_left (fun sum item => sum + rmo_cost_per_unit item * rmo_quantity item) rawMaterials 0)
    (count_status InStock (map rmo_status rawMaterials))
    (count_status LowStock (map rmo_status rawMaterials))
    (count_status OutOfStock (map rmo_status rawMaterials))
    (map (fun item => mkSummaryItem
                        (js_str_or (Some (rmo_sku item)) ("RAW-" ++ js_number_to_string (rmo_id item)))
                        (rmo_name item) (js_str_or (Some (rmo_category item)) "General")
                        (rmo_quantity item) (rmo_cost_per_unit item) (rmo_status item)
                        (rmo_cost_per_unit item * rmo_quantity item)
                        (js_str_or (Some (rmo_unit item)) "units"))
         rawMaterials).

Definition generateInventorySummary (products : list InventoryRow) (rawMaterials : list RawMaterialObj)
    : SummaryPart * SummaryPart :=
  (products_summary products, raw_materials_summary rawMaterials).

Record LowStockProduct := mkLowStockProduct {
  lsp_sku : string;
  lsp_name : string;
  lsp_category : string;
  lsp_current_stock : Z;
  lsp_status : Status;
  lsp_price : Z;
  lsp_reorder_needed : Z;
  lsp_unit : string
}.

Record LowStockRaw := mkLowStockRaw {
  lsr_sku : string;
  lsr_name : string;
  lsr_category : string;
  lsr_current_quantity : Z;
  lsr_reorder_level : Z;
  lsr_status : Status;
  lsr_cost_per_unit : Z;
  lsr_reorder_needed : Z;
  lsr_unit : string
}.

(** generateLowStockReport (orders-utils.ts), the [.map] on products. *)
Definition low_stock_product_entry (item : InventoryRow) : LowStockProduct :=
  mkLowStockProduct (ir_sku item) (ir_name item) (ir_category item) (ir_stock item) (ir_status item)
    (ir_price item) (report_product_reorder_needed (ir_stock item)) "dz".

(** generateLowStockReport (orders-utils.ts), the [.map] on raw materials. *)
Definition low_stock_raw_entry (item : RawMaterialObj) : LowStockRaw :=
  mkLowStockRaw (js_str_or (Some (rmo_sku item)) ("RAW-" ++ js_number_to_string (rmo_id item)))
    (rmo_name item) (js_str_or (Some (rmo_category item)) "General") (rmo_quantity item)
    (js_or_default (rmo_reorder_level item) 10) (rmo_status item) (rmo_cost_per_unit item)
    (report_raw_reorder_needed (rmo_reorder_level item) (rmo_quantity item))
    (js_str_or (Some (rmo_unit item)) "units").

Definition generateLowStockReport (products : list InventoryRow) (rawMaterials : list RawMaterialObj)
    : list LowStockProduct * list LowStockRaw :=
  (map low_stock_product_entry (filter (fun item => is_low_or_out (ir_status item)) products),
   map low_stock_raw_entry (filter (fun item => is_low_or_out (rmo_status item)) rawMaterials)).

(** The versions of reports-utils.ts, the one the reports page calls. *)
Module ReportsUtils.

Record LowStockProduct := mkLowStockProduct {
  lsp_sku : string;
  lsp_name : string;
  lsp_category : string;
  lsp_current_stock : Z;
  lsp_status : Status;
  lsp_price : Z;
  lsp_reorder_needed : Z
}.

Record LowStockRaw := mkLowStockRaw {
  lsr_sku : string;
  lsr_name : string;
  lsr_category : string;
  lsr_current_quantity : Z;
  lsr_reorder_level : Z;
  lsr_status : Status;
  lsr_cost_per_unit : Z;
  lsr_reorder_needed : Z
}.

(** [reorder_needed: Math.max(20 - item.stock, 0)] *)
Definition low_stock_product_entry (item : InventoryRow) : LowStockProduct :=
  mkLowStockProduct (ir_sku item) (ir_name item) (ir_category item) (ir_stock item) (ir_status item)
    (ir_price item) (Z.max (20 - ir_stock item) 0).

Definition low_stock_raw_entry (item : RawMaterialObj) : LowStockRaw :=
  mkLowStockRaw (js_str_or (Some (rmo_sku item)) ("RAW-" ++ js_number_to_string (rmo_id item)))
    (rmo_name item) (js_str_or (Some (rmo_category item)) "General") (rmo_quantity item)
    (js_or_default (rmo_reorder_level item) 10) (rmo_status item) (rmo_cost_per_unit item)
    (Z.max (js_or_default (rmo_reorder_level item) 10 * 2 - rmo_quantity item) 0).

Definition generateLowStockReport (products : list InventoryRow) (rawMaterials : list RawMaterialObj)
    : list LowStockProduct * list LowStockRaw :=
  (map low_stock_product_entry (filter (fun item => is_low_or_out (ir_status item)) products),
   map low_stock_raw_entry (filter (fun item => is_low_or_out (rmo_status item)) rawMaterials)).

(** ToInt32: the integer modulo 2^32, read in [-2^31, 2^31). *)
Definition to_int32 (x : Z) : Z :=
  let m := x mod 4294967296 in if Z.leb 2147483648 m then m - 4294967296 else m.

(** One turn of the loop of deterministicHash:
    [hash = (hash << 5) - hash + char; hash = hash & hash]. The shift works
    on ToInt32(hash); the subtraction and addition are exact in doubles
    (magnitudes below 2^34); [hash & hash] is ToInt32. *)
Definition hash_step (hash char : Z) : Z :=
  let hash := to_int32 (to_int32 hash * 32) - hash + char in
  to_int32 hash.

(** deterministicHash(input), the input given by its UTF-16 code units
    ([charCodeAt]). *)
Definition deterministicHash (input : list Z) : Z :=
  Z.abs (fold_left hash_step input 0).

End ReportsUtils.

(** The UTF-16 code units of an ASCII string. *)
Definition code_units (s : string) : list Z :=
  map (fun c => Z.of_nat (nat_of_ascii c)) (list_ascii_of_string s).

(** The polynomial string hash [sum c_i * 31^(n-1-i)], unbounded. *)
Definition poly_hash (input : list Z) : Z :=
  fold_left (fun h c => 31 * h + c) input 0.

(* ------------------------------------------------------------------ *)
(** * Users and passwords (database.ts) *)

(** A row of [users] ([status] is CHECKed to "active" or "inactive"). *)
Record UserRow := mkUserRow {
  u_id : string;
  u_username : string;
  u_status : string
}.

(** A row of [user_passwords]; [user_id] carries no UNIQUE constraint. *)
Record PasswordRow := mkPasswordRow {
  pw_user_id : string;
  pw_hash : string
}.

Record AuthStore := mkAuthStore {
  users : list UserRow;
  user_passwords : list PasswordRow
}.

(** authenticateUser(username, password): the connection test, then
    [.eq("username").eq("status", "active").single()] on [users] and
    [.eq("user_id", user.id).single()] on [user_passwords] ([.single()] is an
    error unless exactly one row matches), then the comparison with the
    stored [password_hash]. The [last_login] update and the activity log
    touch no column read here. *)
Definition authenticateUser (connection_ok : bool) (username password : string) (st : AuthStore)
    : option UserRow :=
  if negb connection_ok then None
  else match filter (fun u => String.eqb (u_username u) username && String.eqb (u_status u) "active")
               (users st) with
       | [user] =>
           match filter (fun p => String.eqb (pw_user_id p) (u_id user)) (user_passwords st) with
           | [passwordData] => if String.eqb (pw_hash passwordData) password then Some user else None
           | _ => None
           end
       | _ => None
       end.

(** addUserPassword(userId, password): one insert, false on error. *)
Definition addUserPassword (insert_ok : AuthStore -> bool) (userId password : string) (st : AuthStore)
    : bool * AuthStore :=
  if insert_ok st
  then (true, mkAuthStore (users st) (user_passwords st ++ [mkPasswordRow userId password]))
  else (false, st).

(** updateUserPassword(userId, password): [.single()] on the rows of the
    user (its error is ignored: no row, several rows or a failed read all
    give [null]); with a row, an update of every row of the user, else
    addUserPassword. *)
Definition updateUserPassword (read_ok update_ok insert_ok : AuthStore -> bool)
    (userId password : string) (st : AuthStore) : bool * AuthStore :=
  match (if read_ok st then filter (fun p => String.eqb (pw_user_id p) userId) (user_passwords st)
         else []) with
  | [_] =>
      if update_ok st
      then (true, mkAuthStore (users st)
                    (map (fun p => if String.eqb (pw_user_id p) userId
                                   then mkPasswordRow (pw_user_id p) password else p)
                         (user_passwords st)))
      else (false, st)
  | _ => addUserPassword insert_ok userId password st
  end.

(** deleteUser(id): the password rows first (error ignored), then the user
    row, whose remaining password rows go with it (ON DELETE CASCADE). *)
Definition deleteUser (passwords_delete_ok user_delete_ok : AuthStore -> bool) (id : string)
    (st : AuthStore) : bool * AuthStore :=
  let st1 := if passwords_delete_ok st
             then mkAuthStore (users st)
                    (filter (fun p => negb (String.eqb (pw_user_id p) id)) (user_passwords st))
             else st in
  if user_delete_ok st1
  then (true, mkAuthStore (filter (fun u => negb (String.eqb (u_id u) id)) (users st1))
                          (filter (fun p => negb (String.eqb (pw_user_id p) id)) (user_passwords st1)))
  else (false, st1).

(** The number of password rows of a user. *)
Definition password_rows (userId : string) (st : AuthStore) : nat :=
  List.length (filter (fun p => String.eqb (pw_user_id p) userId) (user_passwords st)).

(** A work order for 3 units of product 7 that uses 2 units of material 1. *)
Definition order_P3_A2 : OrderData := mkOrderData 7 "P" 3 [(1, 2)] "pending".

(** The record createProductOrder stores for [order_P3_A2] on
    [world_P7 "pending"] (counter 2) at time "t2". *)
Definition created_P3 : ProductOrder :=
  mkProductOrder "PO-0002" 7 "P" 3 [(1, 2)] "pending" "t2" "t2" None.

Definition world_P3_created : World :=
  snd (createProductOrder store_ok store_ok2 order_P3_A2 "t2" (world_P7 "pending")).

(** The store after creating PO-0001 for "Textile Co." on the empty store. *)
Definition po_store_one : POStore :=
  snd (createPurchaseOrder store_ok store_ok store_ok store_ok "Textile Co." [cotton_item] po_store_empty).

Definition po_row_one : PORow := mkPORow 1 "PO-0001" "Textile Co.".

(** A low-stock fabric from "Textile Co." and an out-of-stock material
    whose supplier is named "toString". *)
Definition mat_cotton : RawMaterialObj :=
  mkRawMaterialObj 1 "Cotton Fabric" "RAW-0001" "Fabric" 5 "rolls" 1000 (Some "Textile Co.")
    (Some 10) LowStock.

Definition mat_toString : RawMaterialObj :=
  mkRawMaterialObj 2 "Buttons" "RAW-0002" "Accessories" 0 "units" 5 (Some "toString")
    (Some 10) OutOfStock.

(** Two products with the statuses the trigger sets. *)
Definition products_two : list InventoryRow :=
  [mkInventoryRow 7 "Polo" "Shirts" 100 3 "PRD-0007" LowStock;
   mkInventoryRow 8 "Tee" "Shirts" 80 30 "PRD-0008" InStock].

(** Three raw-material rows with the statuses the trigger sets. *)
Definition raw_rows_three : list RawMaterialDbRow :=
  [mkRawMaterialDbRow 1 "Cotton" (Some "Fabric") 0 "rolls" 1000 (Some "Textile Co.") (Some 0) None OutOfStock;
   mkRawMaterialDbRow 2 "Thread" None 15 "" 50 None None (Some "RAW-0002") InStock;
   mkRawMaterialDbRow 3 "Zipper" (Some "Accessories") 4 "units" 20 None (Some 5) None LowStock].

Definition user_alice : UserRow := mkUserRow "u1" "alice" "active".

Definition auth_store_one : AuthStore :=
  mkAuthStore [user_alice; mkUserRow "u2" "bob" "inactive"] [mkPasswordRow "u1" "pw"].

Definition auth_store_nopw : AuthStore := mkAuthStore [user_alice] [].

Definition auth_store_dup : AuthStore :=
  mkAuthStore [user_alice] [mkPasswordRow "u1" "pw"; mkPasswordRow "u1" "pw"].
(* ================================================================== *)
(** * Status derivation *)

Lemma trigger_listed_product s :
  is_low_or_out (update_inventory_status_trigger s) = (Z.leb s 20).
Proof.
  unfold update_inventory_status_trigger.
  destruct (Z.eqb s 0) eqn:E0; [apply Z.eqb_eq in E0; subst; reflexivity|].
  destruct (Z.leb s 20) eqn:E; reflexivity.
Qed.


Lemma find_inv_set_inv_row (id s : Z) (st : Status) (t : list InventoryItem) (p : InventoryItem) :
  find_inv id t = Some p ->
  find_inv id (set_inv_row id s st t) = Some (mkInventoryItem (inv_id p) (inv_name p) s st).
Proof.
  unfold find_inv, set_inv_row. induction t as [|a t IH]; simpl; [discriminate|].
  destruct (Z.eqb (inv_id a) id) eqn:E; simpl.
  - intros H. injection H as <-. simpl. rewrite E. reflexivity.
  - rewrite E. exact IH.
Qed.

(** C3 (code bug): products store no reorder level and their status is
    derived with two thresholds.  For every stock in (10, 20],
    addInventoryItem and updateInventoryItem derive in-stock (threshold 10)
    while the update_inventory_status trigger derives low-stock
    (threshold 20), and a successful stock update stores the trigger's
    status, not the client's.  The raw-material sites follow the rule at the
    stored reorder level, except updateRawMaterial on a row whose stored
    level is null: it compares with null (0) where the trigger uses 10. *)
Theorem status_sites_diverge :
  (forall s, (10 < s <= 20)%Z ->
     addInventoryItem_status s = InStock /\ updateInventoryItem_status s = InStock /\
     update_inventory_status_trigger s = LowStock /\
     classify_spec s 10 = InStock /\ classify_spec s 20 = LowStock) /\
  (forall iw id s w w',
     updateInventoryItem_stock iw id s w = (inr true, w') ->
     exists p, find_inv id (inventory_items w') = Some p /\ inv_stock p = s /\
               inv_status p = update_inventory_status_trigger s /\
               (10 < s <= 20 -> inv_status p <> updateInventoryItem_status s)%Z) /\
  (forall q, addRawMaterial_status q = classify_spec q addRawMaterial_reorder_level) /\
  (forall q r, update_raw_materials_status_trigger q (Some r) = classify_spec q r) /\
  (forall q r cur_q cur_rl, updateRawMaterial_status (Some q) (Some (Some r)) cur_q cur_rl =
                            classify_spec q r) /\
  (forall q r cur_q, updateRawMaterial_status (Some q) None cur_q (Some r) = classify_spec q r) /\
  (forall q cur_q, (0 < q <= 10)%Z ->
     updateRawMaterial_status (Some q) None cur_q None = InStock /\
     update_raw_materials_status_trigger q None = LowStock) /\
  addInventoryItem_status 15 = InStock /\ update_inventory_status_trigger 15 = LowStock.
Proof.
  split; [|split; [|split; [|split; [|split; [|split; [|split]]]]]].
  - intros s Hs. unfold addInventoryItem_status, updateInventoryItem_status,
      update_inventory_status_trigger, classify_spec.
    replace (Z.eqb s 0) with false by (symmetry; apply Z.eqb_neq; lia).
    replace (Z.leb s 10) with false by (symmetry; apply Z.leb_gt; lia).
    replace (Z.leb s 20) with true by (symmetry; apply Z.leb_le; lia).
    repeat split.
  - intros iw id s w w' H. unfold updateInventoryItem_stock in H.
    destruct (find_inv id (inventory_items w)) as [p|] eqn:Ef; [|discriminate].
    destruct (iw id (inventory_items w) && Z.leb 0 s)%bool; [|discriminate].
    injection H as <-. cbn [set_inventory_items inventory_items].
    eexists. split; [apply find_inv_set_inv_row; exact Ef|].
    cbn [inv_stock inv_status]. split; [reflexivity|]. split; [reflexivity|].
    intros Hs. unfold updateInventoryItem_status, update_inventory_status_trigger.
    replace (Z.eqb s 0) with false by (symmetry; apply Z.eqb_neq; lia).
    replace (Z.leb s 10) with false by (symmetry; apply Z.leb_gt; lia).
    replace (Z.leb s 20) with true by (symmetry; apply Z.leb_le; lia).
    discriminate.
  - intros q. reflexivity.
  - intros q r. reflexivity.
  - intros q r cur_q cur_rl. reflexivity.
  - intros q r cur_q. reflexivity.
  - intros q cur_q Hq. unfold updateRawMaterial_status, update_raw_materials_status_trigger, js_num_of_null.
    replace (Z.eqb q 0) with false by (symmetry; apply Z.eqb_neq; lia).
    replace (Z.leb q 0) with false by (symmetry; apply Z.leb_gt; lia).
    replace (Z.leb q 10) with true by (symmetry; apply Z.leb_le; lia).
    split; reflexivity.
  - split; reflexivity.
Qed.

(* ================================================================== *)
(** * Reorder quantities *)

(** C4 (code bug): auto-generated purchase orders follow max(2r - q, r)
    (15, 11 and 20 on the examples, never negative for r >= 0), and the
    raw-material report agrees with it on listed items, but the product
    reports use fixed targets.  Both reports list every product whose
    trigger status is low- or out-of-stock (stock <= 20); the reports
    page's version (reports-utils.ts) suggests 20 - stock, below the formula
    at every reorder level under which a stock above 10 is low-stock (0 at
    stock 20), and orders-utils.ts suggests 40 - stock, so the two reports
    disagree on every listed product. *)
Theorem report_reorder_diverges :
  po_quantityNeeded (Some 10%Z) (Some 5%Z) = 15%Z /\
  po_quantityNeeded (Some 10%Z) (Some 9%Z) = 11%Z /\
  po_quantityNeeded (Some 10%Z) (Some 0%Z) = 20%Z /\
  (forall r q, (0 < r)%Z -> po_quantityNeeded (Some r) (Some q) = ReorderQuantity_spec q r) /\
  (forall r q, (0 <= r)%Z -> (0 <= po_quantityNeeded (Some r) q)%Z) /\
  (forall r q, (0 < r)%Z -> (0 <= q <= r)%Z ->
     report_raw_reorder_needed (Some r) q = ReorderQuantity_spec q r) /\
  (forall products rawMaterials p,
     In p products -> ir_status p = update_inventory_status_trigger (ir_stock p) ->
     (0 <= ir_stock p <= 20)%Z ->
     In (ReportsUtils.low_stock_product_entry p)
        (fst (ReportsUtils.generateLowStockReport products rawMaterials)) /\
     In (low_stock_product_entry p) (fst (generateLowStockReport products rawMaterials)) /\
     ReportsUtils.lsp_reorder_needed (ReportsUtils.low_stock_product_entry p) = (20 - ir_stock p)%Z /\
     lsp_reorder_needed (low_stock_product_entry p) = (40 - ir_stock p)%Z /\
     ((10 < ir_stock p)%Z -> forall r, (ir_stock p <= r)%Z ->
        (ReportsUtils.lsp_reorder_needed (ReportsUtils.low_stock_product_entry p) <
         ReorderQuantity_spec (ir_stock p) r)%Z)).
Proof.
  split; [reflexivity|]. split; [reflexivity|]. split; [reflexivity|].
  split; [|split; [|split]].
  - intros r q Hr. unfold po_quantityNeeded, ReorderQuantity_spec, js_or_default.
    destruct (Z.eqb_spec r 0); [lia|].
    destruct (Z.eqb_spec q 0); subst; f_equal; lia.
  - intros r q Hr. unfold po_quantityNeeded, js_or_default.
    destruct (Z.eqb r 0); destruct q as [q|]; try destruct (Z.eqb q 0); lia.
  - intros r q Hr Hq. unfold report_raw_reorder_needed, ReorderQuantity_spec, js_or_default.
    destruct (Z.eqb_spec r 0); lia.
  - intros products rawMaterials p Hin Hst Hs.
    assert (Hl : is_low_or_out (ir_status p) = true)
      by (rewrite Hst, trigger_listed_product; apply Z.leb_le; lia).
    assert (Hf : In p (filter (fun item => is_low_or_out (ir_status item)) products))
      by (apply filter_In; auto).
    split; [apply in_map; exact Hf|]. split; [apply in_map; exact Hf|].
    cbn [ReportsUtils.lsp_reorder_needed ReportsUtils.low_stock_product_entry
         lsp_reorder_needed low_stock_product_entry].
    unfold report_product_reorder_needed.
    split; [lia|]. split; [lia|].
    intros H10 r Hr. unfold ReorderQuantity_spec. lia.
Qed.

(* ================================================================== *)
(** * Work-order creation *)

(** C1 (code bug): with materials A (10) and B (2), creating a work order
    needing A:5 and B:5 fails with the insufficient-stock error for B, but
    A stays deducted at 5: the loop has no compensating credit. *)
Theorem create_order_keeps_partial_deduction :
  let '(r, w') := createProductOrder store_ok store_ok2 order_A5_B5 "now" world_AB in
  r = inl (FailedToDeductRawMaterial (InsufficientStock "B" 2 5)) /\
  find_raw 1 (raw_materials w') = Some (mkRawMaterial 1 "A" 5 (Some 10%Z) LowStock) /\
  productOrders w' = [].
Proof. vm_compute. repeat split. Qed.

Lemma set_raw_row_nonneg (id q : Z) (st : Status) (t : list RawMaterial) :
  Forall (fun m => 0 <= rm_quantity m)%Z t -> (0 <= q)%Z ->
  Forall (fun m => 0 <= rm_quantity m)%Z (set_raw_row id q st t).
Proof.
  intros Ht Hq. unfold set_raw_row. induction Ht as [|m t Hm Ht IH]; simpl; constructor; auto.
  destruct (Z.eqb (rm_id m) id); simpl; auto.
Qed.

Lemma deduct_material_nonneg rr rw m w :
  raw_nonneg w -> raw_nonneg (snd (deduct_material rr rw m w)).
Proof.
  intros H. destruct m as [id q].
  unfold deduct_material, catch, bind, getRawMaterials, throw, ret.
  destruct (find_raw id (if rr (raw_materials w) then raw_materials w else [])) as [cur|];
    simpl; [|exact H].
  destruct (Z.ltb (rm_quantity cur - q) 0); simpl; [exact H|].
  unfold updateRawMaterial_quantity.
  destruct (find_raw id (raw_materials w)) as [c|]; simpl; [|exact H].
  destruct (rw id (raw_materials w) && Z.leb 0 (rm_quantity cur - q))%bool eqn:E;
    simpl; [|exact H].
  apply andb_prop in E as [_ E]. apply Z.leb_le in E.
  unfold raw_nonneg, set_raw_materials; simpl. apply set_raw_row_nonneg; auto.
Qed.

Lemma deduct_materials_nonneg rr rw ms w :
  raw_nonneg w -> raw_nonneg (snd (deduct_materials rr rw ms w)).
Proof.
  revert w. induction ms as [|m ms IH]; intros w H; simpl; [exact H|].
  unfold bind. pose proof (deduct_material_nonneg rr rw m w H) as Hm.
  destruct (deduct_material rr rw m w) as [[e|[]] w1]; simpl in *; auto.
Qed.

Lemma createProductOrder_nonneg rr rw od now w :
  raw_nonneg w -> raw_nonneg (snd (createProductOrder rr rw od now w)).
Proof.
  intros H. unfold createProductOrder, catch, bind, get, put, ret, throw.
  pose proof (deduct_materials_nonneg rr rw (od_materials od) w H) as Hd.
  destruct (deduct_materials rr rw (od_materials od) w) as [[e|[]] w1]; simpl in *; auto.
Qed.

(** C2: every stock adjustment keeps every stored quantity non-negative
    (along any sequence of deductions, and across createProductOrder),
    and a deduction whose result would be negative fails with the
    insufficient-stock error and leaves the store exactly as it was. *)
Theorem adjustments_keep_quantities_nonneg :
  forall rr rw,
  (forall requests w, raw_nonneg w -> Forall raw_nonneg (adjustment_trace rr rw requests w)) /\
  (forall od now w, raw_nonneg w -> raw_nonneg (snd (createProductOrder rr rw od now w))) /\
  (forall w id q cur,
     rr (raw_materials w) = true -> find_raw id (raw_materials w) = Some cur ->
     (rm_quantity cur - q < 0)%Z ->
     deduct_material rr rw (id, q) w =
     (inl (FailedToDeductRawMaterial (InsufficientStock (rm_name cur) (rm_quantity cur) q)), w)).
Proof.
  intros rr rw. split; [|split].
  - induction requests as [|m ms IH]; intros w H; simpl; constructor; auto.
    apply IH, deduct_material_nonneg, H.
  - apply createProductOrder_nonneg.
  - intros w id q cur Hr Hf Hneg.
    unfold deduct_material, catch, bind, getRawMaterials, throw.
    rewrite Hr, Hf. apply Z.ltb_lt in Hneg. rewrite Hneg. reflexivity.
Qed.

(* ================================================================== *)
(** * Work-order status updates *)

Lemma find_index_some {A} (p : A -> bool) (l : list A) (i : nat) :
  find_index p l = Some i -> exists x, nth_error l i = Some x /\ p x = true.
Proof.
  revert i. induction l as [|a l IH]; intros i H; simpl in H; [discriminate|].
  destruct (p a) eqn:E.
  - injection H as <-. exists a. auto.
  - destruct (find_index p l) as [j|] eqn:Ej; simpl in H; [|discriminate].
    injection H as <-. simpl. apply IH. reflexivity.
Qed.

Lemma find_index_none_not_in (l : list ProductOrder) (id : string) :
  ~ In id (map po_id l) -> find_index (fun o => String.eqb (po_id o) id) l = None.
Proof.
  induction l as [|a l IH]; intros H; simpl; [reflexivity|].
  simpl in H. destruct (String.eqb_spec (po_id a) id); [tauto|].
  rewrite IH; auto.
Qed.

Lemma replace_nth_length {A} (i : nat) (v : A) (l : list A) :
  List.length (replace_nth i v l) = List.length l.
Proof.
  revert i. induction l as [|a l IH]; intros [|i]; simpl; auto.
Qed.

Lemma nth_error_replace_nth {A} (i j : nat) (v : A) (l : list A) :
  nth_error (replace_nth i v l) j =
  if Nat.eqb i j then match nth_error l j with Some _ => Some v | None => None end
  else nth_error l j.
Proof.
  revert i j. induction l as [|a l IH]; intros [|i] [|j]; simpl; auto;
    destruct (Nat.eqb _ _); reflexivity.
Qed.

Lemma remove_nth_not_in (l : list ProductOrder) (i : nat) (o : ProductOrder) :
  NoDup (map po_id l) -> nth_error l i = Some o -> ~ In (po_id o) (map po_id (remove_nth i l)).
Proof.
  revert i. induction l as [|a l IH]; intros [|i] Hnd Hn; simpl in *; try discriminate.
  - injection Hn as ->. inversion Hnd; auto.
  - inversion Hnd as [|x y Hx Hnd']; subst. intros [Heq|Hin].
    + apply Hx. rewrite Heq. apply in_map. eapply nth_error_In; eauto.
    + eapply IH; eauto.
Qed.

(** The product credit: on success the product's stock is its previous
    stock plus the quantity, and nothing but [inventory_items] changes. *)
Lemma credit_product_ok ir iw productId quantity w w' :
  credit_product ir iw productId quantity w = (inr tt, w') ->
  exists p, find_inv productId (inventory_items w) = Some p /\
    (exists p', find_inv productId (inventory_items w') = Some p' /\
                inv_stock p' = (inv_stock p + quantity)%Z) /\
    raw_materials w' = raw_materials w /\ productOrders w' = productOrders w /\
    productOrderHistory w' = productOrderHistory w /\ nextOrderId w' = nextOrderId w.
Proof.
  unfold credit_product, catch, bind, getInventoryItems, throw, ret.
  destruct (ir (inventory_items w)) eqn:Er; [|simpl; discriminate].
  destruct (find_inv productId (inventory_items w)) as [p|] eqn:Ef; [|discriminate].
  unfold updateInventoryItem_stock. rewrite Ef.
  destruct (iw productId (inventory_items w) && Z.leb 0 (inv_stock p + quantity))%bool;
    [|discriminate].
  intros H. injection H as <-. exists p. split; [reflexivity|].
  split; [|simpl; auto].
  eexists. split; [apply find_inv_set_inv_row; eauto|reflexivity].
Qed.

(** The product credit either succeeds or leaves the world unchanged. *)
Lemma credit_product_fail ir iw productId quantity w e w' :
  credit_product ir iw productId quantity w = (inl e, w') ->
  w' = w /\ exists inner, e = FailedToUpdateProductInventory inner.
Proof.
  unfold credit_product, catch, bind, getInventoryItems, throw, ret, updateInventoryItem_stock.
  destruct (find_inv productId (if ir (inventory_items w) then inventory_items w else []))
    as [p|]; cbn.
  - destruct (find_inv productId (inventory_items w)) as [q|]; cbn.
    + destruct (iw productId (inventory_items w) && Z.leb 0 (inv_stock p + quantity))%bool;
        cbn; intros H; inversion H; subst; eauto.
    + intros H; inversion H; subst; eauto.
  - intros H; inversion H; subst; eauto.
Qed.

Lemma find_find_index {A} (p : A -> bool) (l : list A) (o : A) :
  find p l = Some o -> exists i, find_index p l = Some i /\ nth_error l i = Some o.
Proof.
  induction l as [|a l IH]; simpl; [discriminate|].
  destruct (p a) eqn:E.
  - intros H. injection H as <-. exists O. auto.
  - intros H. destruct (IH H) as [i [Hi Hn]]. exists (S i). rewrite Hi. simpl. auto.
Qed.

Lemma find_replace_nth {A} (p : A -> bool) (l : list A) (i : nat) (v : A) :
  find_index p l = Some i -> p v = true -> find p (replace_nth i v l) = Some v.
Proof.
  revert i. induction l as [|a l IH]; intros i Hi Hv; simpl in Hi; [discriminate|].
  destruct (p a) eqn:E.
  - injection Hi as <-. simpl. rewrite Hv. reflexivity.
  - destruct (find_index p l) as [j|] eqn:Ej; simpl in Hi; [|discriminate].
    injection Hi as <-. simpl. rewrite E. f_equal. eapply IH; eauto.
Qed.

Lemma in_ids_find_index (l : list ProductOrder) (id : string) :
  In id (map po_id l) -> exists i, find_index (fun o => String.eqb (po_id o) id) l = Some i.
Proof.
  induction l as [|a l IH]; simpl; [tauto|].
  destruct (String.eqb_spec (po_id a) id) as [E|E]; [eauto|].
  intros [H|H]; [congruence|]. destruct (IH H) as [i Hi]. rewrite Hi. simpl. eauto.
Qed.

(** The product credit fails, leaving the world as it was, when the
    inventory read fails (getInventoryItems then returns []), when the
    product is not in the table, or when the stock write is refused
    (a store error or [CHECK (stock >= 0)]). *)
Lemma credit_product_fails_when ir iw productId quantity w :
  (ir (inventory_items w) = false \/
   find_inv productId (inventory_items w) = None \/
   exists p, find_inv productId (inventory_items w) = Some p /\
     (iw productId (inventory_items w) = false \/ inv_stock p + quantity < 0)%Z) ->
  exists inner, credit_product ir iw productId quantity w =
                (inl (FailedToUpdateProductInventory inner), w).
Proof.
  intros Hf. unfold credit_product, catch, bind, getInventoryItems, throw, ret, updateInventoryItem_stock.
  destruct Hf as [Hf|[Hf|[p [Hp Hw]]]].
  - rewrite Hf. eexists. reflexivity.
  - destruct (ir (inventory_items w)); [rewrite Hf|]; eexists; reflexivity.
  - destruct (ir (inventory_items w)); [|eexists; reflexivity].
    rewrite Hp.
    assert (Hb : (iw productId (inventory_items w) && Z.leb 0 (inv_stock p + quantity))%bool = false).
    { destruct Hw as [->|Hq]; [reflexivity|]. apply andb_false_iff. right. apply Z.leb_gt. lia. }
    cbv beta iota. rewrite Hp, Hb. eexists. reflexivity.
Qed.

(** A successful product credit. *)
Lemma credit_product_succeeds ir iw productId quantity w p :
  ir (inventory_items w) = true ->
  find_inv productId (inventory_items w) = Some p ->
  iw productId (inventory_items w) = true ->
  (0 <= inv_stock p + quantity)%Z ->
  credit_product ir iw productId quantity w =
    (inr tt, set_inventory_items
               (set_inv_row productId (inv_stock p + quantity)
                  (update_inventory_status_trigger (inv_stock p + quantity)) (inventory_items w)) w).
Proof.
  intros Hr Hp Hw Hq.
  unfold credit_product, catch, bind, getInventoryItems, throw, ret, updateInventoryItem_stock.
  rewrite Hr, Hp, Hw. replace (Z.leb 0 (inv_stock p + quantity)) with true
    by (symmetry; apply Z.leb_le; exact Hq).
  cbv beta iota. rewrite Hp. reflexivity.
Qed.

(** C7: when the product credit of a completion fails (the inventory read
    fails, the product record is absent, or the stock write is refused),
    the whole completion fails with the credit's error and the world is
    left exactly as it was: the order is not marked completed and stays in
    the active set with its completedAt, the history is unchanged and no
    consumed material is credited back.  Conversely, every failure of
    updateProductOrderStatus is such a failed credit on a completion of an
    active order and changes nothing. *)
Theorem complete_failure_changes_nothing :
  (forall ir iw w id now o,
     find (fun o => String.eqb (po_id o) id) (productOrders w) = Some o ->
     (ir (inventory_items w) = false \/
      find_inv (po_productId o) (inventory_items w) = None \/
      exists p, find_inv (po_productId o) (inventory_items w) = Some p /\
        (iw (po_productId o) (inventory_items w) = false \/ inv_stock p + po_quantity o < 0)%Z) ->
     exists inner, updateProductOrderStatus ir iw id "completed" now w =
                   (inl (FailedToUpdateProductInventory inner), w)) /\
  (forall ir iw w id status now e w',
     updateProductOrderStatus ir iw id status now w = (inl e, w') ->
     w' = w /\ status = "completed" /\ In id (map po_id (productOrders w')) /\
     exists inner, e = FailedToUpdateProductInventory inner).
Proof.
  split.
  - intros ir iw w id now o Hf Hc.
    destruct (find_find_index _ _ _ Hf) as [i [Hi Hn]].
    destruct (credit_product_fails_when ir iw (po_productId o) (po_quantity o) w Hc) as [inner Hci].
    exists inner.
    unfold updateProductOrderStatus, catch, bind, get, put, ret. cbn -[credit_product].
    rewrite Hi, Hn. cbn -[credit_product]. rewrite Hci. reflexivity.
  - intros ir iw w id status now e w' H.
    unfold updateProductOrderStatus, catch, bind, get, put, ret in H. cbn -[credit_product] in H.
    destruct (find_index (fun o => String.eqb (po_id o) id) (productOrders w)) as [i|] eqn:Ei;
      [|discriminate].
    destruct (nth_error (productOrders w) i) as [o|] eqn:Eo; [|discriminate].
    destruct (String.eqb_spec status "completed") as [->|Hs]; [|discriminate].
    destruct (credit_product ir iw (po_productId o) (po_quantity o) w) as [[e1|[]] w1] eqn:Ec;
      [|discriminate].
    injection H as <- <-.
    apply credit_product_fail in Ec as [-> He].
    apply find_index_some in Ei as [x [Hx Hp]]. rewrite Eo in Hx. injection Hx as <-.
    apply String.eqb_eq in Hp. subst id.
    repeat split; auto. apply in_map. eapply nth_error_In; eauto.
Qed.

(** C5: a successful completion of an active order for product P with
    quantity q and stock s leaves P's stock at s + q, returns the order with
    status completed and completedAt stamped, removes it from the active set
    and appends it to the history, where its id then occurs exactly once
    (given the ids are distinct across both lists before). *)
Theorem complete_success_moves_to_history :
  forall ir iw w id now o' w',
  NoDup (map po_id (productOrders w)) ->
  ~ In id (map po_id (productOrderHistory w)) ->
  updateProductOrderStatus ir iw id "completed" now w = (inr (Some o'), w') ->
  exists o p,
    In o (productOrders w) /\ po_id o = id /\
    find_inv (po_productId o) (inventory_items w) = Some p /\
    (exists p', find_inv (po_productId o) (inventory_items w') = Some p' /\
                inv_stock p' = (inv_stock p + po_quantity o)%Z) /\
    o' = completed_order o now /\
    po_status o' = "completed" /\ po_completedAt o' = Some now /\
    productOrderHistory w' = (productOrderHistory w ++ [o'])%list /\
    ~ In id (map po_id (productOrders w')) /\
    count_occ string_dec (map po_id (productOrderHistory w')) id = 1%nat /\
    raw_materials w' = raw_materials w.
Proof.
  intros ir iw w id now o' w' Hnd Hh H.
  unfold updateProductOrderStatus, catch, bind, get, put, ret in H. cbn -[credit_product] in H.
  destruct (find_index (fun o => String.eqb (po_id o) id) (productOrders w)) as [i|] eqn:Ei;
    [|discriminate].
  destruct (nth_error (productOrders w) i) as [o|] eqn:Eo; [|discriminate].
  destruct (credit_product ir iw (po_productId o) (po_quantity o) w) as [[e1|[]] w1] eqn:Ec;
    [discriminate|].
  injection H as <- <-.
  apply credit_product_ok in Ec as [p [Hp [Hp' [Hraw [Hact [Hhist _]]]]]].
  apply find_index_some in Ei as [x [Hx Hid]]. rewrite Eo in Hx. injection Hx as <-.
  apply String.eqb_eq in Hid.
  exists o, p.
  split; [eapply nth_error_In; eauto|].
  split; [exact Hid|]. split; [exact Hp|]. split; [exact Hp'|].
  split; [reflexivity|]. split; [reflexivity|]. split; [reflexivity|].
  split; [simpl; rewrite Hhist; reflexivity|].
  split; [simpl; rewrite Hact, <- Hid; apply remove_nth_not_in; auto|].
  split; [|simpl; exact Hraw].
  simpl. rewrite Hhist, map_app, count_occ_app. simpl.
    rewrite (proj1 (count_occ_not_In string_dec _ _) Hh). rewrite Hid.
    destruct (string_dec id id); [reflexivity|congruence].
Qed.

(** C9: an update to any status other than completed never fails, does not
    depend on the store (any failure behaviour gives the same result),
    leaves both tables, the history and the id counter unchanged, and
    changes only the status and updatedAt of the order with that id, which
    stays at its place in the active set. *)
Theorem non_completed_update_frame :
  forall ir iw w id status now r w',
  status <> "completed" ->
  updateProductOrderStatus ir iw id status now w = (r, w') ->
  (forall ir' iw', updateProductOrderStatus ir' iw' id status now w = (r, w')) /\
  raw_materials w' = raw_materials w /\ inventory_items w' = inventory_items w /\
  productOrderHistory w' = productOrderHistory w /\ nextOrderId w' = nextOrderId w /\
  List.length (productOrders w') = List.length (productOrders w) /\
  (forall j o, nth_error (productOrders w) j = Some o ->
     nth_error (productOrders w') j = Some o \/
     (po_id o = id /\ nth_error (productOrders w') j = Some (with_status o status now) /\
      r = inr (Some (with_status o status now)))).
Proof.
  intros ir iw w id status now r w' Hs H.
  assert (Hind : forall ir' iw', updateProductOrderStatus ir' iw' id status now w =
            updateProductOrderStatus ir iw id status now w).
  { intros ir' iw'. unfold updateProductOrderStatus, catch, bind, get, put, ret. cbn -[credit_product].
    destruct (find_index (fun o => String.eqb (po_id o) id) (productOrders w)); [|reflexivity].
    destruct (nth_error (productOrders w) n); [|reflexivity].
    apply String.eqb_neq in Hs. rewrite Hs. reflexivity. }
  split; [intros; rewrite Hind; exact H|].
  unfold updateProductOrderStatus, catch, bind, get, put, ret in H. cbn -[credit_product] in H.
  destruct (find_index (fun o => String.eqb (po_id o) id) (productOrders w)) as [i|] eqn:Ei;
    [|injection H as <- <-; repeat split; auto].
  destruct (nth_error (productOrders w) i) as [o|] eqn:Eo;
    [|injection H as <- <-; repeat split; auto].
  apply String.eqb_neq in Hs. rewrite Hs in H. injection H as <- <-. simpl.
  apply find_index_some in Ei as [x [Hx Hid]]. rewrite Eo in Hx. injection Hx as <-.
  apply String.eqb_eq in Hid.
  repeat split; auto.
  - apply replace_nth_length.
  - intros j o' Hj. rewrite nth_error_replace_nth.
    destruct (Nat.eqb_spec i j) as [<-|Hne]; [|left; exact Hj].
    rewrite Hj. rewrite Eo in Hj. injection Hj as <-. right. auto.
Qed.

(** C6 (counterexample): an order set to cancelled stays in the active set,
    and completing it afterwards succeeds: the product is credited and the
    order moves to the history. *)
Lemma cancelled_order_can_be_completed :
  let '(r, w') := updateProductOrderStatus store_ok store_ok2 "PO-0001" "completed" "t1"
                    (world_P7 "cancelled") in
  r = inr (Some (completed_order (order_P7 "cancelled") "t1")) /\
  productOrders w' = [] /\
  find_inv 7 (inventory_items w') = Some (mkInventoryItem 7 "P" 10 LowStock).
Proof. vm_compute. repeat split. Qed.

(** C6 (amended): a status update (completion included) returns null and
    changes nothing exactly when no order with that id is in the active
    set: unknown ids, and orders already completed, which completion moved
    to the history; for an active id it returns the updated order or
    throws.  The order's current status is never consulted: cancelling
    keeps the order active, as the first order with its id, and completing
    any active order, a cancelled one included, credits its product and
    moves it to the history whenever the product credit succeeds. *)
Theorem update_absent_order_not_found :
  (forall ir iw w id status now,
     ~ In id (map po_id (productOrders w)) ->
     updateProductOrderStatus ir iw id status now w = (inr None, w)) /\
  (forall ir iw w id status now,
     In id (map po_id (productOrders w)) ->
     fst (updateProductOrderStatus ir iw id status now w) <> inr None) /\
  (forall ir iw w id now o' w1,
     updateProductOrderStatus ir iw id "cancelled" now w = (inr (Some o'), w1) ->
     po_status o' = "cancelled" /\
     find (fun o => String.eqb (po_id o) id) (productOrders w1) = Some o' /\
     productOrderHistory w1 = productOrderHistory w /\ inventory_items w1 = inventory_items w) /\
  (forall ir iw w id now o p,
     find (fun o => String.eqb (po_id o) id) (productOrders w) = Some o ->
     ir (inventory_items w) = true ->
     find_inv (po_productId o) (inventory_items w) = Some p ->
     iw (po_productId o) (inventory_items w) = true ->
     (0 <= inv_stock p + po_quantity o)%Z ->
     exists w',
       updateProductOrderStatus ir iw id "completed" now w = (inr (Some (completed_order o now)), w') /\
       productOrderHistory w' = (productOrderHistory w ++ [completed_order o now])%list /\
       (exists i, find_index (fun o => String.eqb (po_id o) id) (productOrders w) = Some i /\
                  nth_error (productOrders w) i = Some o /\
                  productOrders w' = remove_nth i (productOrders w)) /\
       find_inv (po_productId o) (inventory_items w') =
         Some (mkInventoryItem (inv_id p) (inv_name p) (inv_stock p + po_quantity o)
                 (update_inventory_status_trigger (inv_stock p + po_quantity o))) /\
       raw_materials w' = raw_materials w).
Proof.
  split; [|split; [|split]].
  - intros ir iw w id status now H.
    unfold updateProductOrderStatus, catch, bind, get, put, ret. cbn -[credit_product].
    rewrite find_index_none_not_in by exact H. reflexivity.
  - intros ir iw w id status now H.
    destruct (in_ids_find_index _ _ H) as [i Hi].
    destruct (find_index_some _ _ _ Hi) as [o [Ho _]].
    unfold updateProductOrderStatus, catch, bind, get, put, ret. cbn -[credit_product].
    rewrite Hi, Ho.
    destruct (String.eqb status "completed"); cbn -[credit_product]; [|discriminate].
    destruct (credit_product ir iw (po_productId o) (po_quantity o) w) as [[e|[]] w1];
      cbn; discriminate.
  - intros ir iw w id now o' w1 H.
    unfold updateProductOrderStatus, catch, bind, get, put, ret in H. cbn -[credit_product] in H.
    destruct (find_index (fun o => String.eqb (po_id o) id) (productOrders w)) as [i|] eqn:Ei;
      [|discriminate].
    destruct (nth_error (productOrders w) i) as [o|] eqn:Eo; [|discriminate].
    cbn in H. injection H as <- <-. cbn [po_status set_orders productOrders productOrderHistory
                                       inventory_items].
    split; [reflexivity|]. split; [|split; reflexivity].
    apply find_replace_nth; [exact Ei|]. cbn [po_id].
    apply find_index_some in Ei as [x [Hx Hp]]. rewrite Eo in Hx. injection Hx as <-. exact Hp.
  - intros ir iw w id now o p Hf Hr Hp Hw Hq.
    destruct (find_find_index _ _ _ Hf) as [i [Hi Hn]].
    pose proof (credit_product_succeeds ir iw (po_productId o) (po_quantity o) w p Hr Hp Hw Hq) as Hc.
    unfold updateProductOrderStatus, catch, bind, get, put, ret. cbn -[credit_product].
    rewrite Hi, Hn. cbn -[credit_product]. rewrite Hc.
    eexists. split; [reflexivity|].
    cbn [set_orders set_inventory_items productOrders productOrderHistory inventory_items raw_materials].
    split; [reflexivity|]. split; [exists i; auto|]. split; [|reflexivity].
    apply find_inv_set_inv_row. exact Hp.
Qed.

(* ================================================================== *)
(** * Identifier sequencing *)

Lemma sequencer_facts_all : forallb sequencer_facts (map Z.of_nat (seq 0 (Z.to_nat 10000))) = true.
Proof. vm_compute. reflexivity. Qed.

Lemma digit_order_all :
  forallb (fun x => forallb (digit_order_fact x) (map Z.of_nat (seq 0 10)))
          (map Z.of_nat (seq 0 10)) = true.
Proof. vm_compute. reflexivity. Qed.

Lemma in_range_seq (n : Z) (b : nat) :
  (0 <= n < Z.of_nat b)%Z -> In n (map Z.of_nat (seq 0 b)).
Proof.
  intros H. replace n with (Z.of_nat (Z.to_nat n)) by lia.
  apply in_map, in_seq. lia.
Qed.

Lemma sequencer_facts_ok (n : Z) :
  (0 <= n < 10000)%Z ->
  padStart4 (js_number_to_string n) = four_digits n /\
  upto_dash (four_digits n) = four_digits n /\
  js_parseInt (four_digits n) = Some n /\
  match_po_digits (String "P" (String "O" (String "-" (four_digits n)))) = Some (four_digits n).
Proof.
  intros H. pose proof sequencer_facts_all as A. rewrite forallb_forall in A.
  specialize (A n (in_range_seq n (Z.to_nat 10000) ltac:(lia))). unfold sequencer_facts in A.
  repeat rewrite andb_true_iff in A. destruct A as [[[A1 A2] A3] A4].
  apply String.eqb_eq in A1, A2. split; [exact A1|]. split; [exact A2|].
  split.
  - destruct (js_parseInt (four_digits n)) as [x|]; simpl in A3; [|discriminate].
    apply Z.eqb_eq in A3. subst. reflexivity.
  - destruct (match_po_digits _) as [x|]; simpl in A4; [|discriminate].
    apply String.eqb_eq in A4. subst. reflexivity.
Qed.

Lemma digit_order_ok (x y : Z) :
  (0 <= x < 10)%Z -> (0 <= y < 10)%Z ->
  Ascii.compare (digit_char x) (digit_char y) = Z.compare x y.
Proof.
  intros Hx Hy. pose proof digit_order_all as A. rewrite forallb_forall in A.
  specialize (A x (in_range_seq x 10 Hx)). rewrite forallb_forall in A.
  specialize (A y (in_range_seq y 10 Hy)). unfold digit_order_fact in A.
  destruct (Ascii.compare _ _), (Z.compare x y); simpl in A; congruence.
Qed.

Lemma compare_positional (B x1 x0 y1 y0 : Z) :
  (0 <= x0 < B)%Z -> (0 <= y0 < B)%Z ->
  Z.compare (B * x1 + x0) (B * y1 + y0) = lex (Z.compare x1 y1) (Z.compare x0 y0).
Proof.
  intros Hx Hy. unfold lex.
  destruct (Z.compare_spec x1 y1) as [->|Hl|Hg].
  - rewrite Z.add_compare_mono_l. reflexivity.
  - apply Z.compare_lt_iff. nia.
  - apply Z.compare_gt_iff. nia.
Qed.

Lemma lex_assoc (a b c : comparison) : lex (lex a b) c = lex a (lex b c).
Proof. destruct a, b; reflexivity. Qed.

Lemma four_digits_compare (a b : Z) :
  (0 <= a < 10000)%Z -> (0 <= b < 10000)%Z ->
  String.compare (four_digits a) (four_digits b) = Z.compare a b.
Proof.
  intros Ha Hb. unfold four_digits. cbn [String.compare].
  assert (Da : forall n, (0 <= n < 10000)%Z ->
     n = (10 * (10 * (10 * (n / 1000) + n / 100 mod 10) + n / 10 mod 10) + n mod 10)%Z /\
     (0 <= n / 1000 < 10)%Z /\ (0 <= n / 100 mod 10 < 10)%Z /\
     (0 <= n / 10 mod 10 < 10)%Z /\ (0 <= n mod 10 < 10)%Z).
  { intros n Hn. Z.div_mod_to_equations. lia. }
  destruct (Da a Ha) as [Ea [A3 [A2 [A1 A0]]]].
  destruct (Da b Hb) as [Eb [B3 [B2 [B1 B0]]]].
  rewrite (digit_order_ok _ _ A3 B3), (digit_order_ok _ _ A2 B2),
          (digit_order_ok _ _ A1 B1), (digit_order_ok _ _ A0 B0).
  assert (Hab : Z.compare a b =
    Z.compare (10 * (10 * (10 * (a / 1000) + a / 100 mod 10) + a / 10 mod 10) + a mod 10)
              (10 * (10 * (10 * (b / 1000) + b / 100 mod 10) + b / 10 mod 10) + b mod 10))
    by (rewrite <- Ea, <- Eb; reflexivity).
  rewrite Hab.
  rewrite compare_positional by lia. rewrite compare_positional by lia.
  rewrite compare_positional by lia. rewrite !lex_assoc.
  unfold lex. destruct (Z.compare (a / 1000) (b / 1000)); try reflexivity.
  destruct (Z.compare (a / 100 mod 10) (b / 100 mod 10)); try reflexivity.
  destruct (Z.compare (a / 10 mod 10) (b / 10 mod 10)); try reflexivity.
  destruct (Z.compare (a mod 10) (b mod 10)); reflexivity.
Qed.

Lemma compare_refl_string (s : string) : String.compare s s = Eq.
Proof.
  induction s as [|c s IH]; simpl; [reflexivity|].
  unfold Ascii.compare. rewrite N.compare_refl. exact IH.
Qed.

Lemma compare_app_same (p s t : string) :
  String.compare (p ++ s) (p ++ t) = String.compare s t.
Proof.
  induction p as [|c p IH]; simpl; [reflexivity|].
  unfold Ascii.compare. rewrite N.compare_refl. exact IH.
Qed.

Lemma prefix_app (p t : string) : String.prefix p (p ++ t) = true.
Proof.
  induction p as [|c p IH]; [destruct t; reflexivity|].
  cbn [append String.prefix]. destruct (ascii_dec c c); [exact IH|congruence].
Qed.

Lemma id_of_compare (prefix : string) (a b : Z) :
  (0 <= a < 10000)%Z -> (0 <= b < 10000)%Z ->
  String.compare (id_of prefix a) (id_of prefix b) = Z.compare a b.
Proof.
  intros Ha Hb. unfold id_of. rewrite compare_app_same.
  rewrite (proj1 (sequencer_facts_ok a Ha)), (proj1 (sequencer_facts_ok b Hb)).
  rewrite (compare_app_same "-"). apply four_digits_compare; auto.
Qed.

Lemma max_number_range (ns : list Z) :
  Forall (fun n => 0 <= n < 10000)%Z ns -> (0 <= max_number ns < 10000)%Z.
Proof.
  induction 1 as [|n ns Hn Hns IH]; simpl; lia.
Qed.

Lemma str_greatest_map_max (prefix : string) (ns : list Z) :
  Forall (fun n => 0 <= n < 10000)%Z ns -> ns <> [] ->
  str_greatest (map (id_of prefix) ns) = Some (id_of prefix (max_number ns)).
Proof.
  induction 1 as [|n ns Hn Hns IH]; intros Hne; [congruence|].
  destruct ns as [|n' ns'].
  - cbn [map str_greatest]. f_equal. f_equal. cbn [max_number fold_right]. lia.
  - change (map (id_of prefix) (n :: n' :: ns')) with
           (id_of prefix n :: map (id_of prefix) (n' :: ns')).
    cbn [str_greatest]. rewrite IH by discriminate.
    pose proof (max_number_range _ Hns) as Hm.
    unfold String.ltb. rewrite id_of_compare by auto.
    change (max_number (n :: n' :: ns')) with (Z.max n (max_number (n' :: ns'))).
    destruct (Z.compare_spec n (max_number (n' :: ns'))) as [E|E|E].
    + f_equal. rewrite E, Z.max_id. reflexivity.
    + f_equal. f_equal. lia.
    + f_equal. f_equal. lia.
Qed.

Lemma next_sku_max (prefix : string) (ns : list Z) :
  (forall s, String.prefix (prefix ++ "-") (prefix ++ "-" ++ s) = true) ->
  (forall s, split_dash_1 (prefix ++ "-" ++ s) = Some (upto_dash s)) ->
  (forall s, String.eqb (prefix ++ "-" ++ s) "" = false) ->
  Forall (fun n => 0 <= n < 10000)%Z ns ->
  next_sku true prefix (map (id_of prefix) ns) = id_of prefix (max_number ns + 1).
Proof.
  intros H1 H2 H3 Hns. unfold next_sku.
  assert (Hf : filter (String.prefix (prefix ++ "-")) (map (id_of prefix) ns) =
               map (id_of prefix) ns).
  { clear Hns. induction ns as [|n ns IH]; simpl; [reflexivity|].
    unfold id_of at 1. rewrite H1. f_equal. exact IH. }
  rewrite Hf.
  destruct ns as [|n ns']; [reflexivity|].
  rewrite str_greatest_map_max by (auto; discriminate).
  pose proof (max_number_range _ Hns) as Hm.
  unfold id_of at 1 2. rewrite H3, H2.
  destruct (sequencer_facts_ok _ Hm) as [P1 [P2 [P3 _]]].
  rewrite P1, P2. cbn [option_map]. rewrite P3. reflexivity.
Qed.

(** C8 (code bug): SKUs are numbered one past the largest four-digit
    suffix whatever the creation order (PRD-0001 and PRD-0003 give
    PRD-0004) only while the SKU query succeeds: its error is not read, and
    on a failed query the number is 1 whatever SKUs exist.  The maximum is
    taken in string order, so after PRD-9999 and PRD-10000 the number
    10000 is generated again.  PO numbers continue from the most recently
    created purchase order, not from the largest number (the repository's
    own generate_po_number takes MAX + 1): with PO-0001 created after
    PO-0003 the next number is PO-0002, not PO-0004. *)
Theorem sequencer_diverges :
  (forall prefix ns, In prefix ["PRD"; "RAW"] ->
     Forall (fun n => 0 <= n < 10000)%Z ns ->
     next_sku true prefix (map (id_of prefix) ns) = id_of prefix (max_number ns + 1)) /\
  next_sku true "PRD" ["PRD-0001"; "PRD-0003"] = "PRD-0004" /\
  next_sku true "PRD" ["PRD-0003"; "PRD-0001"] = "PRD-0004" /\
  (forall prefix skus, next_sku false prefix skus = prefix ++ "-0001") /\
  next_sku false "PRD" ["PRD-0001"; "PRD-0003"] = "PRD-0001" /\
  next_sku true "PRD" ["PRD-9999"; "PRD-10000"] = "PRD-10000" /\
  (forall n rest, (0 <= n < 10000)%Z ->
     next_po_number (id_of "PO" n :: rest) = id_of "PO" (n + 1)) /\
  next_po_number [] = "PO-0001" /\
  next_po_number ["PO-0001"; "PO-0003"] = "PO-0002" /\
  id_of "PO" (max_number [1; 3]%Z + 1) = "PO-0004".
Proof.
  split; [|split; [reflexivity|split; [reflexivity|split; [|split; [reflexivity|
    split; [reflexivity|split; [|split; [reflexivity|split; reflexivity]]]]]]]].
  - intros prefix ns [<-|[<-|[]]] Hns; apply next_sku_max; auto; intros s;
      first [exact (prefix_app "PRD-" s) | exact (prefix_app "RAW-" s) | reflexivity].
  - intros prefix skus. reflexivity.
  - intros n rest Hn. unfold next_po_number, id_of.
    destruct (sequencer_facts_ok _ Hn) as [P1 [_ [P3 P4]]].
    rewrite P1. cbn [append]. rewrite P4, P3. reflexivity.
Qed.

(* ================================================================== *)
(** * Purchase-order creation *)

Lemma filter_fresh_id (rows : list PORow) (k : Z) :
  Forall (fun r => por_id r < k)%Z rows ->
  filter (fun r => negb (Z.eqb (por_id r) k)) rows = rows.
Proof.
  induction 1 as [|r rows Hr Hrows IH]; cbn [filter]; [reflexivity|].
  replace (Z.eqb (por_id r) k) with false by (symmetry; apply Z.eqb_neq; lia).
  cbn [negb]. rewrite IH. reflexivity.
Qed.

(** C10 (counterexample): when the items insert fails and the compensating
    delete fails as well, null is returned and the header row stays in the
    store without any item. *)
Lemma po_header_left_without_items :
  let '(r, s') := createPurchaseOrder store_ok store_ok (fun _ => false) (fun _ => false)
                    "Textile Co." [cotton_item] po_store_empty in
  r = None /\ purchase_orders s' = [mkPORow 1 "PO-0001" "Textile Co."] /\
  purchase_order_items s' = [].
Proof. vm_compute. repeat split. Qed.

(** C10 (amended): a purchase order is returned only when its header and
    all of its items were inserted.  When the last-number fetch or the
    header insert fails, null is returned and the store is untouched; when
    the items insert fails, null is returned, no item is written and the
    new header is deleted again, unless that compensating delete fails too
    (its result is not checked): then the header stays in the store with
    no item referring to it. *)
Theorem purchase_order_header_and_items :
  forall fetch_ok header_ok items_ok delete_ok supplier items s,
  po_store_ok s ->
  let h := mkPORow (next_po_row_id s) (next_po_number (map por_po_number (purchase_orders s)))
                   supplier in
  let its := map (po_item_row (por_id h)) items in
  let s1 := mkPOStore (h :: purchase_orders s) (purchase_order_items s) (next_po_row_id s + 1) in
  ((fetch_ok s = false \/ header_ok s = false) ->
     createPurchaseOrder fetch_ok header_ok items_ok delete_ok supplier items s = (None, s)) /\
  (fetch_ok s = true -> header_ok s = true -> items_ok s1 = true ->
     createPurchaseOrder fetch_ok header_ok items_ok delete_ok supplier items s =
       (Some (h, its), mkPOStore (h :: purchase_orders s) (purchase_order_items s ++ its)%list
                                 (next_po_row_id s + 1))) /\
  (fetch_ok s = true -> header_ok s = true -> items_ok s1 = false -> delete_ok s1 = true ->
     createPurchaseOrder fetch_ok header_ok items_ok delete_ok supplier items s =
       (None, mkPOStore (purchase_orders s) (purchase_order_items s) (next_po_row_id s + 1))) /\
  (fetch_ok s = true -> header_ok s = true -> items_ok s1 = false -> delete_ok s1 = false ->
     createPurchaseOrder fetch_ok header_ok items_ok delete_ok supplier items s = (None, s1) /\
     Forall (fun it => poi_po_id it <> por_id h) (purchase_order_items s1)) /\
  (forall h' its' s',
     createPurchaseOrder fetch_ok header_ok items_ok delete_ok supplier items s =
       (Some (h', its'), s') ->
     h' = h /\ its' = its /\ List.length its' = List.length items /\
     Forall (fun it => poi_po_id it = por_id h') its' /\
     purchase_orders s' = h' :: purchase_orders s /\
     purchase_order_items s' = (purchase_order_items s ++ its')%list) /\
  (forall s',
     createPurchaseOrder fetch_ok header_ok items_ok delete_ok supplier items s = (None, s') ->
     purchase_order_items s' = purchase_order_items s /\
     (purchase_orders s' = purchase_orders s \/
      (purchase_orders s' = h :: purchase_orders s /\ delete_ok s1 = false))).
Proof.
  intros fo ho io dl supplier items s [_ [Hh Hi]]. cbv zeta.
  unfold createPurchaseOrder. cbv zeta.
  split; [|split; [|split; [|split; [|split]]]].
  - intros [E|E]; rewrite E; [reflexivity|]. destruct (fo s); reflexivity.
  - intros E1 E2 E3. rewrite E1, E2. cbn [negb]. rewrite E3. reflexivity.
  - intros E1 E2 E3 E4. rewrite E1, E2. cbn [negb]. rewrite E3, E4.
    cbn [filter por_id purchase_orders purchase_order_items next_po_row_id].
    rewrite Z.eqb_refl. cbn [negb]. rewrite filter_fresh_id by exact Hh. reflexivity.
  - intros E1 E2 E3 E4. rewrite E1, E2. cbn [negb]. rewrite E3, E4. split; [reflexivity|].
    cbn [purchase_order_items por_id]. eapply Forall_impl; [|exact Hi].
    intros it Hit. cbv beta in Hit. lia.
  - intros h' its' s' H.
    destruct (fo s); cbn [negb] in H; [|discriminate].
    destruct (ho s); cbn [negb] in H; [|discriminate].
    destruct (io _); [|destruct (dl _); discriminate].
    injection H as <- <- <-. cbn [purchase_orders purchase_order_items por_id].
    split; [reflexivity|]. split; [reflexivity|]. split; [apply length_map|].
    split; [|split; reflexivity].
    apply Forall_forall. intros it Hin. apply in_map_iff in Hin as [x [<- _]]. reflexivity.
  - intros s' H.
    destruct (fo s); cbn [negb] in H; [|injection H as <-; auto].
    destruct (ho s); cbn [negb] in H; [|injection H as <-; auto].
    destruct (io _); [discriminate|].
    destruct (dl _) eqn:Ed; injection H as <-;
      cbn [purchase_orders purchase_order_items filter por_id]; split; try reflexivity.
    + left. rewrite Z.eqb_refl. cbn [negb]. apply filter_fresh_id. exact Hh.
    + right. split; reflexivity.
Qed.

(* ================================================================== *)
(** * Witnesses: the theorems above applied to concrete stores *)

Lemma complete_success_moves_to_history_witness :
  (NoDup (map po_id (productOrders (world_P7 "pending"))) /\
   ~ In "PO-0001" (map po_id (productOrderHistory (world_P7 "pending"))) /\
   updateProductOrderStatus store_ok store_ok2 "PO-0001" "completed" "t1" (world_P7 "pending") =
     (inr (Some (completed_order (order_P7 "pending") "t1")), world_P7_completed)) /\
  exists o p,
    In o (productOrders (world_P7 "pending")) /\ po_id o = "PO-0001" /\
    find_inv (po_productId o) (inventory_items (world_P7 "pending")) = Some p /\
    (exists p', find_inv (po_productId o) (inventory_items world_P7_completed) = Some p' /\
                inv_stock p' = (inv_stock p + po_quantity o)%Z) /\
    completed_order (order_P7 "pending") "t1" = completed_order o "t1" /\
    po_status (completed_order (order_P7 "pending") "t1") = "completed" /\
    po_completedAt (completed_order (order_P7 "pending") "t1") = Some "t1" /\
    productOrderHistory world_P7_completed =
      (productOrderHistory (world_P7 "pending") ++ [completed_order (order_P7 "pending") "t1"])%list /\
    ~ In "PO-0001" (map po_id (productOrders world_P7_completed)) /\
    count_occ string_dec (map po_id (productOrderHistory world_P7_completed)) "PO-0001" = 1%nat /\
    raw_materials world_P7_completed = raw_materials (world_P7 "pending").
Proof.
  assert (H1 : NoDup (map po_id (productOrders (world_P7 "pending"))))
    by (repeat constructor; intros []).
  assert (H2 : ~ In "PO-0001" (map po_id (productOrderHistory (world_P7 "pending"))))
    by (intros []).
  assert (H3 : updateProductOrderStatus store_ok store_ok2 "PO-0001" "completed" "t1"
                 (world_P7 "pending") =
               (inr (Some (completed_order (order_P7 "pending") "t1")), world_P7_completed))
    by (vm_compute; reflexivity).
  split; [auto|].
  exact (complete_success_moves_to_history store_ok store_ok2 (world_P7 "pending") "PO-0001" "t1"
           (completed_order (order_P7 "pending") "t1") world_P7_completed H1 H2 H3).
Defined.

Lemma update_absent_order_not_found_witness :
  (~ In "PO-0009" (map po_id (productOrders (world_P7 "pending"))) /\
   updateProductOrderStatus store_ok store_ok2 "PO-0009" "completed" "t1" (world_P7 "pending") =
     (inr None, world_P7 "pending")) /\
  (find (fun o => String.eqb (po_id o) "PO-0001") (productOrders (world_P7 "cancelled")) =
     Some (order_P7 "cancelled") /\
   exists w',
     updateProductOrderStatus store_ok store_ok2 "PO-0001" "completed" "t1" (world_P7 "cancelled") =
       (inr (Some (completed_order (order_P7 "cancelled") "t1")), w') /\
     productOrderHistory w' = [completed_order (order_P7 "cancelled") "t1"] /\
     productOrders w' = [] /\
     find_inv 7 (inventory_items w') =
       Some (mkInventoryItem 7 "P" 10 (update_inventory_status_trigger 10))).
Proof.
  assert (H : ~ In "PO-0009" (map po_id (productOrders (world_P7 "pending"))))
    by (intros [E|[]]; discriminate E).
  split; [split; [exact H|]|].
  - exact (proj1 update_absent_order_not_found store_ok store_ok2 (world_P7 "pending") "PO-0009"
             "completed" "t1" H).
  - assert (Hf : find (fun o => String.eqb (po_id o) "PO-0001") (productOrders (world_P7 "cancelled")) =
                 Some (order_P7 "cancelled")) by reflexivity.
    split; [exact Hf|].
    destruct (proj2 (proj2 (proj2 update_absent_order_not_found)) store_ok store_ok2
                (world_P7 "cancelled") "PO-0001" "t1" (order_P7 "cancelled")
                (mkInventoryItem 7 "P" 3 LowStock) Hf eq_refl eq_refl eq_refl
                (proj1 (Z.leb_le 0 10) eq_refl))
      as [w' [Hu [Hh [[i [Hi [_ Hr]]] [Hinv _]]]]].
    exists w'. split; [exact Hu|]. split; [exact Hh|]. split; [|exact Hinv].
    rewrite Hr. injection Hi as <-. reflexivity.
Defined.

Lemma complete_failure_changes_nothing_witness :
  find (fun o => String.eqb (po_id o) "PO-0001") (productOrders world_P7_no_product) =
    Some (order_P7 "pending") /\
  find_inv 7 (inventory_items world_P7_no_product) = None /\
  exists inner,
    updateProductOrderStatus store_ok store_ok2 "PO-0001" "completed" "t1" world_P7_no_product =
      (inl (FailedToUpdateProductInventory inner), world_P7_no_product).
Proof.
  assert (Hf : find (fun o => String.eqb (po_id o) "PO-0001") (productOrders world_P7_no_product) =
               Some (order_P7 "pending")) by reflexivity.
  assert (Hn : find_inv 7 (inventory_items world_P7_no_product) = None) by reflexivity.
  split; [exact Hf|]. split; [exact Hn|].
  exact (proj1 complete_failure_changes_nothing store_ok store_ok2 world_P7_no_product "PO-0001" "t1"
           (order_P7 "pending") Hf (or_intror (or_introl Hn))).
Defined.

Lemma non_completed_update_frame_witness :
  ("cancelled" <> "completed" /\
   updateProductOrderStatus store_ok store_ok2 "PO-0001" "cancelled" "t1" (world_P7 "pending") =
     (inr (Some (with_status (order_P7 "pending") "cancelled" "t1")), world_P7_cancelled)) /\
  (forall ir' iw', updateProductOrderStatus ir' iw' "PO-0001" "cancelled" "t1" (world_P7 "pending") =
     (inr (Some (with_status (order_P7 "pending") "cancelled" "t1")), world_P7_cancelled)) /\
  raw_materials world_P7_cancelled = raw_materials (world_P7 "pending") /\
  inventory_items world_P7_cancelled = inventory_items (world_P7 "pending") /\
  productOrderHistory world_P7_cancelled = productOrderHistory (world_P7 "pending") /\
  nextOrderId world_P7_cancelled = nextOrderId (world_P7 "pending") /\
  List.length (productOrders world_P7_cancelled) = List.length (productOrders (world_P7 "pending")) /\
  (forall j o, nth_error (productOrders (world_P7 "pending")) j = Some o ->
     nth_error (productOrders world_P7_cancelled) j = Some o \/
     (po_id o = "PO-0001" /\
      nth_error (productOrders world_P7_cancelled) j = Some (with_status o "cancelled" "t1") /\
      inr (Some (with_status (order_P7 "pending") "cancelled" "t1")) =
        @inr Error (option ProductOrder) (Some (with_status o "cancelled" "t1")))).
Proof.
  assert (H1 : "cancelled" <> "completed") by discriminate.
  assert (H2 : updateProductOrderStatus store_ok store_ok2 "PO-0001" "cancelled" "t1"
                 (world_P7 "pending") =
               (inr (Some (with_status (order_P7 "pending") "cancelled" "t1")), world_P7_cancelled))
    by (vm_compute; reflexivity).
  split; [split; assumption|].
  exact (non_completed_update_frame store_ok store_ok2 (world_P7 "pending") "PO-0001" "cancelled"
           "t1" _ _ H1 H2).
Defined.

Lemma purchase_order_header_and_items_witness :
  po_store_ok po_store_empty /\
  createPurchaseOrder store_ok store_ok (fun _ => false) (fun _ => false) "Textile Co."
    [cotton_item] po_store_empty =
    (None, mkPOStore [mkPORow 1 "PO-0001" "Textile Co."] [] 2) /\
  createPurchaseOrder store_ok store_ok (fun _ => false) store_ok "Textile Co."
    [cotton_item] po_store_empty = (None, mkPOStore [] [] 2) /\
  createPurchaseOrder store_ok store_ok store_ok store_ok "Textile Co." [cotton_item]
    po_store_empty =
    (Some (mkPORow 1 "PO-0001" "Textile Co.", [po_item_row 1 cotton_item]),
     mkPOStore [mkPORow 1 "PO-0001" "Textile Co."] [po_item_row 1 cotton_item] 2).
Proof.
  assert (H : po_store_ok po_store_empty) by (split; [constructor|split; constructor]).
  split; [exact H|].
  split; [exact (proj1 ((proj1 (proj2 (proj2 (proj2
            (purchase_order_header_and_items store_ok store_ok (fun _ => false) (fun _ => false)
               "Textile Co." [cotton_item] po_store_empty H))))) eq_refl eq_refl eq_refl eq_refl))|].
  split; [exact (proj1 (proj2 (proj2
            (purchase_order_header_and_items store_ok store_ok (fun _ => false) store_ok
               "Textile Co." [cotton_item] po_store_empty H))) eq_refl eq_refl eq_refl eq_refl)|].
  exact (proj1 (proj2
           (purchase_order_header_and_items store_ok store_ok store_ok store_ok
              "Textile Co." [cotton_item] po_store_empty H)) eq_refl eq_refl eq_refl).
Defined.

(* ================================================================== *)
(** * Work orders: lookup, deletion, creation and the order ids *)

Lemma find_index_split {A} (p : A -> bool) (l : list A) (i : nat) :
  find_index p l = Some i ->
  exists l1 x l2, l = (l1 ++ x :: l2)%list /\ List.length l1 = i /\ p x = true /\
                  Forall (fun y => p y = false) l1.
Proof.
  revert i. induction l as [|a l IH]; intros i H; simpl in H; [discriminate|].
  destruct (p a) eqn:E.
  - injection H as <-. exists [], a, l. auto.
  - destruct (find_index p l) as [j|] eqn:Ej; simpl in H; [|discriminate].
    injection H as <-. destruct (IH j eq_refl) as [l1 [x [l2 [-> [<- [Hx Hf]]]]]].
    exists (a :: l1), x, l2. simpl. auto.
Qed.

Lemma find_index_none_forall {A} (p : A -> bool) (l : list A) :
  find_index p l = None -> Forall (fun y => p y = false) l.
Proof.
  induction l as [|a l IH]; simpl; intros H; constructor.
  - destruct (p a); [discriminate|reflexivity].
  - destruct (p a); [discriminate|]. destruct (find_index p l); [discriminate|auto].
Qed.

Lemma not_in_ids_forall (l : list ProductOrder) (id : string) :
  Forall (fun y => String.eqb (po_id y) id = false) l <-> ~ In id (map po_id l).
Proof.
  induction l as [|a l IH]; simpl; split.
  - tauto.
  - constructor.
  - intros H. inversion H as [|x y Ha Hl]; subst. intros [E|Hin].
    + rewrite E, String.eqb_refl in Ha. discriminate.
    + apply IH in Hl. tauto.
  - intros H. constructor.
    + apply String.eqb_neq. intros E. apply H. left. exact E.
    + apply IH. tauto.
Qed.

Lemma remove_nth_middle {A} (l1 l2 : list A) (x : A) :
  remove_nth (List.length l1) (l1 ++ x :: l2) = (l1 ++ l2)%list.
Proof. induction l1 as [|a l1 IH]; simpl; [reflexivity|]. rewrite IH. reflexivity. Qed.

Lemma replace_nth_middle {A} (l1 l2 : list A) (x v : A) :
  replace_nth (List.length l1) v (l1 ++ x :: l2) = (l1 ++ v :: l2)%list.
Proof. induction l1 as [|a l1 IH]; simpl; [reflexivity|]. rewrite IH. reflexivity. Qed.

Lemma nth_error_at_middle {A} (l1 l2 : list A) (x : A) :
  nth_error (l1 ++ x :: l2) (List.length l1) = Some x.
Proof. induction l1 as [|a l1 IH]; simpl; auto. Qed.

Lemma find_middle {A} (p : A -> bool) (l1 l2 : list A) (v : A) :
  Forall (fun y => p y = false) l1 -> p v = true -> find p (l1 ++ v :: l2) = Some v.
Proof.
  intros H Hv. induction H as [|a l1 Ha Hl IH]; simpl; [rewrite Hv; reflexivity|].
  rewrite Ha. exact IH.
Qed.

Lemma find_forall_none {A} (p : A -> bool) (l : list A) :
  Forall (fun y => p y = false) l -> find p l = None.
Proof. induction 1 as [|a l Ha Hl IH]; simpl; [reflexivity|]. rewrite Ha. exact IH. Qed.

(** Every outcome of updateProductOrderStatus. *)
Lemma update_status_cases ir iw w id status now r w' :
  updateProductOrderStatus ir iw id status now w = (r, w') ->
  (r = inr None /\ w' = w /\ ~ In id (map po_id (productOrders w))) \/
  exists l1 o l2,
    productOrders w = (l1 ++ o :: l2)%list /\ po_id o = id /\
    Forall (fun y => String.eqb (po_id y) id = false) l1 /\
    ((status <> "completed" /\ r = inr (Some (with_status o status now)) /\
      w' = set_orders (l1 ++ with_status o status now :: l2) (productOrderHistory w) w) \/
     (status = "completed" /\ (exists e, r = inl e) /\ w' = w) \/
     (status = "completed" /\ r = inr (Some (completed_order o now)) /\
      exists w1, credit_product ir iw (po_productId o) (po_quantity o) w = (inr tt, w1) /\
      w' = set_orders (l1 ++ l2) (productOrderHistory w1 ++ [completed_order o now]) w1)).
Proof.
  intros H.
  unfold updateProductOrderStatus, catch, bind, get, put, ret in H. cbn -[credit_product] in H.
  destruct (find_index (fun o => String.eqb (po_id o) id) (productOrders w)) as [i|] eqn:Ei.
  - right. apply find_index_split in Ei as [l1 [x [l2 [Hl [Hlen [Hp Hf]]]]]].
    subst i. rewrite Hl, nth_error_at_middle in H.
    exists l1, x, l2. apply String.eqb_eq in Hp.
    split; [exact Hl|]. split; [exact Hp|]. split; [exact Hf|].
    destruct (String.eqb_spec status "completed") as [->|Hs].
    + destruct (credit_product ir iw (po_productId x) (po_quantity x) w) as [[e|[]] w1] eqn:Ec.
      * injection H as <- <-. apply credit_product_fail in Ec as [-> _].
        right. left. split; [reflexivity|]. split; [eauto|reflexivity].
      * injection H as <- <-. right. right. split; [reflexivity|]. split; [reflexivity|].
        exists w1. split; [reflexivity|].
        apply credit_product_ok in Ec as [p [_ [_ [_ [Hact _]]]]].
        rewrite Hact, Hl, remove_nth_middle. reflexivity.
    + injection H as <- <-. left. split; [exact Hs|]. split; [reflexivity|].
      rewrite replace_nth_middle. reflexivity.
  - left. injection H as <- <-. split; [reflexivity|]. split; [reflexivity|].
    apply not_in_ids_forall, find_index_none_forall, Ei.
Qed.

Lemma nodup_ids_middle (l1 l2 h : list ProductOrder) (o : ProductOrder) :
  NoDup (map po_id ((l1 ++ o :: l2) ++ h)) ->
  ~ In (po_id o) (map po_id (l1 ++ l2)) /\ ~ In (po_id o) (map po_id h).
Proof.
  intros H. rewrite <- app_assoc, map_app in H. cbn [map app] in H.
  apply NoDup_remove_2 in H.
  split; intros Hin; apply H; rewrite !map_app, !in_app_iff in *; tauto.
Qed.

Lemma forall_ids_perm (Q : string -> Prop) (L L' : list ProductOrder) :
  Permutation (map po_id L) (map po_id L') ->
  Forall (fun o => Q (po_id o)) L -> Forall (fun o => Q (po_id o)) L'.
Proof.
  intros Hp HL. apply Forall_forall. intros o Hin.
  assert (Hi : In (po_id o) (map po_id L)).
  { apply (Permutation_in _ (Permutation_sym Hp)). apply in_map. exact Hin. }
  apply in_map_iff in Hi as [o0 [E Hin0]]. rewrite Forall_forall in HL.
  rewrite <- E. apply HL. exact Hin0.
Qed.

Lemma id_of_PO_inj (a b : Z) :
  (0 <= a < 10000)%Z -> (0 <= b < 10000)%Z -> id_of "PO" a = id_of "PO" b -> a = b.
Proof.
  intros Ha Hb E. pose proof (id_of_compare "PO" a b Ha Hb) as C.
  rewrite E, compare_refl_string in C. symmetry in C. apply Z.compare_eq in C. exact C.
Qed.

Lemma deduct_material_frame rr rw m w :
  let w' := snd (deduct_material rr rw m w) in
  inventory_items w' = inventory_items w /\ productOrders w' = productOrders w /\
  productOrderHistory w' = productOrderHistory w /\ nextOrderId w' = nextOrderId w.
Proof.
  destruct m as [id q].
  unfold deduct_material, catch, bind, getRawMaterials, throw, ret.
  destruct (find_raw id (if rr (raw_materials w) then raw_materials w else [])) as [cur|];
    simpl; [|auto].
  destruct (Z.ltb (rm_quantity cur - q) 0); simpl; [auto|].
  unfold updateRawMaterial_quantity.
  destruct (find_raw id (raw_materials w)) as [c|]; simpl; [|auto].
  destruct (rw id (raw_materials w) && Z.leb 0 (rm_quantity cur - q))%bool; simpl; auto.
Qed.

Lemma deduct_materials_frame rr rw ms w :
  let w' := snd (deduct_materials rr rw ms w) in
  inventory_items w' = inventory_items w /\ productOrders w' = productOrders w /\
  productOrderHistory w' = productOrderHistory w /\ nextOrderId w' = nextOrderId w.
Proof.
  revert w. induction ms as [|m ms IH]; intros w; simpl; [auto|].
  unfold bind. pose proof (deduct_material_frame rr rw m w) as Hm. cbn zeta in Hm.
  destruct (deduct_material rr rw m w) as [[e|[]] w1]; simpl in *; [exact Hm|].
  destruct (IH w1) as [A [B [C D]]]. destruct Hm as [A' [B' [C' D']]].
  rewrite A, B, C, D. auto.
Qed.

Lemma find_raw_set_raw_row (id id' q : Z) (st : Status) (t : list RawMaterial) :
  find_raw id' (set_raw_row id q st t) =
  if Z.eqb id' id
  then option_map (fun m => mkRawMaterial (rm_id m) (rm_name m) q (rm_reorder_level m) st)
                  (find_raw id' t)
  else find_raw id' t.
Proof.
  unfold find_raw, set_raw_row. induction t as [|a t IH]; simpl.
  - destruct (Z.eqb id' id); reflexivity.
  - destruct (Z.eqb_spec (rm_id a) id) as [E1|E1]; simpl;
      destruct (Z.eqb_spec (rm_id a) id') as [E2|E2]; simpl.
    + subst. rewrite Z.eqb_refl. reflexivity.
    + replace (Z.eqb id' id) with false by (symmetry; apply Z.eqb_neq; congruence).
      replace (Z.eqb id' id) with false in IH by (symmetry; apply Z.eqb_neq; congruence).
      exact IH.
    + replace (Z.eqb id' id) with false by (symmetry; apply Z.eqb_neq; congruence). reflexivity.
    + exact IH.
Qed.

Lemma deduct_material_success rr rw mid q w w' :
  deduct_material rr rw (mid, q) w = (inr tt, w') ->
  forall id, raw_quantity id w' =
             if Z.eqb mid id then option_map (fun x => x - q) (raw_quantity id w)
             else raw_quantity id w.
Proof.
  unfold deduct_material, catch, bind, getRawMaterials, throw, ret.
  destruct (rr (raw_materials w)) eqn:Er; [|simpl; discriminate].
  destruct (find_raw mid (raw_materials w)) as [cur|] eqn:Ef; [|discriminate].
  destruct (Z.ltb (rm_quantity cur - q) 0); [discriminate|].
  unfold updateRawMaterial_quantity. rewrite Ef.
  destruct (rw mid (raw_materials w) && Z.leb 0 (rm_quantity cur - q))%bool; [|discriminate].
  intros H id. injection H as <-. unfold raw_quantity. simpl.
  rewrite find_raw_set_raw_row. rewrite Z.eqb_sym.
  destruct (Z.eqb_spec mid id) as [<-|Hne]; [|reflexivity].
  rewrite Ef. reflexivity.
Qed.

Lemma deduct_materials_success rr rw ms w w' :
  deduct_materials rr rw ms w = (inr tt, w') ->
  forall id, raw_quantity id w' = option_map (fun x => x - requested id ms) (raw_quantity id w).
Proof.
  revert w. induction ms as [|[mid q] ms IH]; intros w H id; cbn [deduct_materials] in H.
  - unfold ret in H. injection H as <-. change (requested id []) with 0%Z.
    destruct (raw_quantity id w) as [x|]; cbn [option_map]; [f_equal; lia|reflexivity].
  - unfold bind in H.
    destruct (deduct_material rr rw (mid, q) w) as [[e|[]] w1] eqn:E; cbn in H; [discriminate|].
    rewrite (IH w1 H id), (deduct_material_success rr rw mid q w w1 E id).
    cbn [requested fold_right fst snd]. fold (requested id ms).
    destruct (Z.eqb mid id); destruct (raw_quantity id w) as [x|]; cbn [option_map];
      try reflexivity; f_equal; lia.
Qed.

(** The outcome of createProductOrder. *)
Lemma create_order_cases rr rw od now w r w' :
  createProductOrder rr rw od now w = (r, w') ->
  (exists e, r = inl e /\ inventory_items w' = inventory_items w /\
     productOrders w' = productOrders w /\ productOrderHistory w' = productOrderHistory w /\
     nextOrderId w' = nextOrderId w) \/
  (exists w1, deduct_materials rr rw (od_materials od) w = (inr tt, w1) /\
     r = inr (mkProductOrder (id_of "PO" (nextOrderId w)) (od_productId od) (od_productName od)
                (od_quantity od) (od_materials od) (od_status od) now now None) /\
     w' = mkWorld (raw_materials w1) (inventory_items w)
            (productOrders w ++ [mkProductOrder (id_of "PO" (nextOrderId w)) (od_productId od)
                (od_productName od) (od_quantity od) (od_materials od) (od_status od) now now None])
            (productOrderHistory w) (nextOrderId w + 1)).
Proof.
  unfold createProductOrder, catch, bind, get, put, ret, throw.
  pose proof (deduct_materials_frame rr rw (od_materials od) w) as Hf. cbn zeta in Hf.
  destruct (deduct_materials rr rw (od_materials od) w) as [[e|[]] w1] eqn:E; simpl in Hf.
  - intros H. injection H as <- <-. left. exists e. auto.
  - intros H. injection H as <- <-. right. exists w1. destruct Hf as [A [B [C D]]].
    split; [reflexivity|]. rewrite A, B, C, D. split; reflexivity.
Qed.

(** X1: after a successful status update, getProductOrderById finds exactly
    the record the update returned: the active entry for a non-completed
    status, the history entry after completion (ids being distinct across
    the two lists). *)
Theorem update_then_lookup ir iw w id status now o' w' :
  NoDup (map po_id (productOrders w ++ productOrderHistory w)) ->
  updateProductOrderStatus ir iw id status now w = (inr (Some o'), w') ->
  getProductOrderById id w' = Some o'.
Proof.
  intros Hnd H. apply update_status_cases in H as
    [[E _]|[l1 [o [l2 [Hl [Hid [Hf [[Hs [E ->]]|[[Hs [[e E] _]]|[Hs [E [w1 [Ec ->]]]]]]]]]]]]];
    try discriminate.
  - injection E as ->. unfold getProductOrderById. simpl.
    rewrite find_middle; [reflexivity|exact Hf|]. simpl. apply String.eqb_eq. exact Hid.
  - injection E as ->. rewrite Hl in Hnd. apply nodup_ids_middle in Hnd as [Ha Hh].
    apply credit_product_ok in Ec as [p [_ [_ [_ [Hact [Hhist _]]]]]].
    unfold getProductOrderById. simpl. rewrite Hid in Ha, Hh.
    rewrite find_forall_none by (apply not_in_ids_forall; exact Ha).
    rewrite Hhist. replace (productOrderHistory w ++ [completed_order o now])%list
      with (productOrderHistory w ++ completed_order o now :: [])%list by reflexivity.
    apply find_middle; [apply not_in_ids_forall; exact Hh|].
    simpl. apply String.eqb_eq. exact Hid.
Qed.

(** X2: createProductOrder keeps the order ids distinct across the active
    list and the history, each the id of a number below the counter, while
    the counter stays below 10000 (four-digit ids). *)
Theorem create_keeps_order_ids rr rw od now w :
  order_ids_ok w -> (0 <= nextOrderId w < 10000)%Z ->
  order_ids_ok (snd (createProductOrder rr rw od now w)).
Proof.
  intros [Hnd Hall] Hn.
  destruct (createProductOrder rr rw od now w) as [r w'] eqn:E. simpl.
  apply create_order_cases in E as [[e [_ [_ [A [B C]]]]]|[w1 [_ [_ ->]]]].
  - unfold order_ids_ok. rewrite A, B, C. split; [exact Hnd|exact Hall].
  - unfold order_ids_ok. cbn [productOrders productOrderHistory nextOrderId].
    set (n := mkProductOrder _ _ _ _ _ _ _ _ _).
    assert (Hperm : Permutation (map po_id ((productOrders w ++ [n]) ++ productOrderHistory w))
                                (po_id n :: map po_id (productOrders w ++ productOrderHistory w))).
    { rewrite <- app_assoc. cbn [app]. rewrite !map_app. cbn [map].
      apply Permutation_sym, Permutation_middle. }
    assert (Hfresh : ~ In (po_id n) (map po_id (productOrders w ++ productOrderHistory w))).
    { intros Hin. apply in_map_iff in Hin as [x [Ex Hx]].
      rewrite Forall_forall in Hall. destruct (Hall x Hx) as [k [Hk Ek]].
      rewrite Ex in Ek. simpl in Ek. apply id_of_PO_inj in Ek; lia. }
    split.
    + apply (Permutation_NoDup (Permutation_sym Hperm)). constructor; assumption.
    + apply (forall_ids_perm (fun s => exists k, (0 <= k < nextOrderId w + 1)%Z /\
                                                 s = id_of "PO" k)
               (n :: productOrders w ++ productOrderHistory w)).
      * cbn [map]. apply Permutation_sym. exact Hperm.
      * constructor; [exists (nextOrderId w); split; [lia|reflexivity]|].
        eapply Forall_impl; [|exact Hall]. intros x [k [Hk Ek]]. exists k. split; [lia|exact Ek].
Qed.

(** X3: updateProductOrderStatus and deleteProductOrder keep the order ids
    distinct across the active list and the history, and keep each the id
    of a number below the counter. *)
Theorem update_delete_keep_order_ids w :
  order_ids_ok w ->
  (forall ir iw id status now, order_ids_ok (snd (updateProductOrderStatus ir iw id status now w))) /\
  (forall id, order_ids_ok (snd (deleteProductOrder id w))).
Proof.
  intros [Hnd Hall]. split.
  - intros ir iw id status now.
    destruct (updateProductOrderStatus ir iw id status now w) as [r w'] eqn:E. simpl.
    apply update_status_cases in E as
      [[_ [-> _]]|[l1 [o [l2 [Hl [Hid [Hf [[Hs [_ ->]]|[[Hs [_ ->]]|[Hs [_ [w1 [Ec ->]]]]]]]]]]]]];
      try (split; assumption).
    + unfold order_ids_ok. cbn [set_orders productOrders productOrderHistory nextOrderId].
      assert (Hm : map po_id ((l1 ++ with_status o status now :: l2) ++ productOrderHistory w) =
                   map po_id (productOrders w ++ productOrderHistory w)).
      { rewrite Hl, !map_app. reflexivity. }
      rewrite Hm. split; [exact Hnd|].
      apply (forall_ids_perm (fun s => exists k, (0 <= k < nextOrderId w)%Z /\ s = id_of "PO" k)
               (productOrders w ++ productOrderHistory w)); [rewrite Hm; apply Permutation_refl|].
      exact Hall.
    + apply credit_product_ok in Ec as [p [_ [_ [_ [Hact [Hhist Hnext]]]]]].
      unfold order_ids_ok. cbn [set_orders productOrders productOrderHistory nextOrderId].
      rewrite Hhist, Hnext.
      assert (Hperm : Permutation (map po_id ((l1 ++ l2) ++ productOrderHistory w ++ [completed_order o now]))
                                  (map po_id (productOrders w ++ productOrderHistory w))).
      { rewrite Hl, !map_app. cbn [map]. change (po_id (completed_order o now)) with (po_id o).
        rewrite <- !app_assoc. apply Permutation_app_head. cbn [app].
        rewrite app_assoc. apply Permutation_sym, Permutation_cons_append. }
      split.
      * apply (Permutation_NoDup (Permutation_sym Hperm)). exact Hnd.
      * apply (forall_ids_perm (fun s => exists k, (0 <= k < nextOrderId w)%Z /\ s = id_of "PO" k)
                 (productOrders w ++ productOrderHistory w)); [apply Permutation_sym, Hperm|].
        exact Hall.
  - intros id. unfold deleteProductOrder, bind, get, put, ret.
    destruct (find_index (fun o => String.eqb (po_id o) id) (productOrders w)) as [i|] eqn:Ei;
      [|split; assumption].
    apply find_index_split in Ei as [l1 [x [l2 [Hl [<- _]]]]].
    unfold order_ids_ok. cbn [snd set_orders productOrders productOrderHistory nextOrderId].
    rewrite Hl, remove_nth_middle. rewrite Hl in Hnd, Hall. split.
    + rewrite <- app_assoc, map_app in Hnd |- *. cbn [app map] in Hnd.
      apply NoDup_remove_1 in Hnd. rewrite !map_app in *. exact Hnd.
    + apply Forall_forall. intros y Hy. rewrite Forall_forall in Hall. apply Hall.
      rewrite !in_app_iff in Hy |- *. simpl. tauto.
Qed.

(** X4: a successful createProductOrder returns the order with id
    PO-<counter> and the request's fields, appends it to the active list,
    advances the counter and leaves the history and the products alone; each
    raw material's stored quantity drops by the total quantity requested of
    it (a negative request raises it). *)
Theorem create_order_success rr rw od now w o w' :
  createProductOrder rr rw od now w = (inr o, w') ->
  po_id o = id_of "PO" (nextOrderId w) /\ po_productId o = od_productId od /\
  po_quantity o = od_quantity od /\ po_materials o = od_materials od /\
  po_status o = od_status od /\ po_completedAt o = None /\
  productOrders w' = (productOrders w ++ [o])%list /\
  productOrderHistory w' = productOrderHistory w /\ nextOrderId w' = nextOrderId w + 1 /\
  inventory_items w' = inventory_items w /\
  (forall id, raw_quantity id w' =
              option_map (fun q => q - requested id (od_materials od)) (raw_quantity id w)).
Proof.
  intros H. apply create_order_cases in H as [[e [E _]]|[w1 [Ed [E ->]]]]; [discriminate|].
  injection E as ->. repeat (split; [reflexivity|]).
  intros id. rewrite <- (deduct_materials_success rr rw _ w w1 Ed id). reflexivity.
Qed.

(** X5: deleteProductOrder returns false and changes nothing when no active
    order has the id; otherwise it removes the first active order with that
    id and returns true, leaving the history, the counter and both tables
    as they are: the raw materials deducted when the order was created are
    not given back. *)
Theorem delete_product_order_effect w id :
  (~ In id (map po_id (productOrders w)) -> deleteProductOrder id w = (inr false, w)) /\
  (In id (map po_id (productOrders w)) ->
   exists l1 o l2, productOrders w = (l1 ++ o :: l2)%list /\ po_id o = id /\
     ~ In id (map po_id l1) /\
     deleteProductOrder id w =
       (inr true, mkWorld (raw_materials w) (inventory_items w) (l1 ++ l2)
                          (productOrderHistory w) (nextOrderId w))).
Proof.
  unfold deleteProductOrder, bind, get, put, ret. split.
  - intros H. rewrite find_index_none_not_in by exact H. reflexivity.
  - intros H.
    destruct (find_index (fun o => String.eqb (po_id o) id) (productOrders w)) as [i|] eqn:Ei.
    + apply find_index_split in Ei as [l1 [x [l2 [Hl [<- [Hp Hf]]]]]].
      exists l1, x, l2. rewrite Hl, remove_nth_middle. apply String.eqb_eq in Hp.
      split; [reflexivity|]. split; [exact Hp|]. split; [apply not_in_ids_forall, Hf|].
      reflexivity.
    + apply find_index_none_forall, not_in_ids_forall in Ei. contradiction.
Qed.

(** X6: creating a work order and then deleting it restores both order
    lists but not the stock: the raw materials stay deducted by the
    requested quantities (the counter has moved on). *)
Theorem create_then_delete_keeps_deduction rr rw od now w o w1 :
  order_ids_ok w -> (0 <= nextOrderId w < 10000)%Z ->
  createProductOrder rr rw od now w = (inr o, w1) ->
  deleteProductOrder (po_id o) w1 =
    (inr true, mkWorld (raw_materials w1) (inventory_items w) (productOrders w)
                       (productOrderHistory w) (nextOrderId w + 1)) /\
  (forall id, raw_quantity id w1 =
              option_map (fun q => q - requested id (od_materials od)) (raw_quantity id w)).
Proof.
  intros [Hnd Hall] Hn H.
  pose proof H as H'. apply create_order_cases in H' as [[e [E _]]|[w2 [Ed [E ->]]]];
    [discriminate|].
  injection E as ->.
  split; [|intros id; rewrite <- (deduct_materials_success rr rw _ w w2 Ed id); reflexivity].
  set (n := mkProductOrder (id_of "PO" (nextOrderId w)) (od_productId od) (od_productName od)
              (od_quantity od) (od_materials od) (od_status od) now now None).
  assert (Hfresh : Forall (fun y => String.eqb (po_id y) (po_id n) = false) (productOrders w)).
  { apply Forall_forall. intros x Hx. apply String.eqb_neq. intros Ex.
    rewrite Forall_forall in Hall. destruct (Hall x (in_or_app _ _ _ (or_introl Hx))) as [k [Hk Ek]].
    rewrite Ex in Ek. simpl in Ek. apply id_of_PO_inj in Ek; lia. }
  unfold deleteProductOrder, bind, get, put, ret. cbn [productOrders].
  assert (Hfi : find_index (fun o => String.eqb (po_id o) (po_id n)) (productOrders w ++ [n]) =
                Some (List.length (productOrders w))).
  { clear -Hfresh. clearbody n. induction Hfresh as [|a l Ha Hl IH]; cbn [find_index app List.length].
    - rewrite String.eqb_refl. reflexivity.
    - rewrite Ha, IH. reflexivity. }
  rewrite Hfi. rewrite remove_nth_middle, app_nil_r. reflexivity.
Qed.

(* ------------------------------------------------------------------ *)
(** * Purchase-order store: reads, deletion and the key invariant *)

Lemma create_po_success_shape fo ho io dl supplier items s c s' :
  createPurchaseOrder fo ho io dl supplier items s = (Some c, s') ->
  c = (mkPORow (next_po_row_id s) (next_po_number (map por_po_number (purchase_orders s))) supplier,
       map (po_item_row (next_po_row_id s)) items) /\
  s' = mkPOStore (mkPORow (next_po_row_id s) (next_po_number (map por_po_number (purchase_orders s)))
                          supplier :: purchase_orders s)
                 (purchase_order_items s ++ map (po_item_row (next_po_row_id s)) items)
                 (next_po_row_id s + 1).
Proof.
  unfold createPurchaseOrder.
  destruct (fo s); [|discriminate]. destruct (ho s); [|discriminate]. cbn [negb].
  destruct (io _); [|destruct (dl _); discriminate].
  intros E. injection E as <- <-. split; reflexivity.
Qed.

Lemma create_po_failure_shape fo ho io dl supplier items s s' :
  createPurchaseOrder fo ho io dl supplier items s = (None, s') ->
  s' = s \/
  s' = mkPOStore (filter (fun r => negb (Z.eqb (por_id r) (next_po_row_id s)))
                    (mkPORow (next_po_row_id s) (next_po_number (map por_po_number (purchase_orders s)))
                             supplier :: purchase_orders s))
                 (purchase_order_items s) (next_po_row_id s + 1) \/
  s' = mkPOStore (mkPORow (next_po_row_id s) (next_po_number (map por_po_number (purchase_orders s)))
                          supplier :: purchase_orders s)
                 (purchase_order_items s) (next_po_row_id s + 1).
Proof.
  unfold createPurchaseOrder.
  destruct (fo s); cbn [negb]; [|intros E; injection E as <-; left; reflexivity].
  destruct (ho s); cbn [negb]; [|intros E; injection E as <-; left; reflexivity].
  destruct (io _); [discriminate|].
  destruct (dl _); intros E; injection E as <-; right; [left|right]; reflexivity.
Qed.

Lemma filter_po_item_rows_same n k items :
  Z.eqb n k = true ->
  filter (fun it => Z.eqb (poi_po_id it) k) (map (po_item_row n) items) = map (po_item_row n) items.
Proof.
  intros H. induction items as [|a r IH]; [reflexivity|].
  cbn [map filter]. unfold po_item_row at 1. cbn [poi_po_id]. rewrite H, IH. reflexivity.
Qed.

Lemma filter_po_item_rows_other n k items :
  Z.eqb n k = false ->
  filter (fun it => Z.eqb (poi_po_id it) k) (map (po_item_row n) items) = [].
Proof.
  intros H. induction items as [|a r IH]; [reflexivity|].
  cbn [map filter]. unfold po_item_row at 1. cbn [poi_po_id]. rewrite H, IH. reflexivity.
Qed.

Lemma filter_all_false {A} (f : A -> bool) l :
  (forall x, In x l -> f x = false) -> filter f l = [].
Proof.
  induction l as [|a r IH]; intros H; [reflexivity|].
  cbn. rewrite H by (left; reflexivity). apply IH. intros x Hx. apply H. right. exact Hx.
Qed.

Lemma filter_all_true {A} (f : A -> bool) l :
  (forall x, In x l -> f x = true) -> filter f l = l.
Proof.
  induction l as [|a r IH]; intros H; [reflexivity|].
  cbn. rewrite H by (left; reflexivity). f_equal. apply IH. intros x Hx. apply H. right. exact Hx.
Qed.

Lemma filter_filter_implied {A} (f g : A -> bool) l :
  (forall x, f x = true -> g x = true) -> filter f (filter g l) = filter f l.
Proof.
  intros H. induction l as [|a r IH]; [reflexivity|].
  cbn. destruct (g a) eqn:Eg; cbn.
  - destruct (f a); [f_equal|]; exact IH.
  - destruct (f a) eqn:Ef; [rewrite (H a Ef) in Eg; discriminate|exact IH].
Qed.

Lemma nodup_map_filter {A B} (f : A -> B) (g : A -> bool) l :
  NoDup (map f l) -> NoDup (map f (filter g l)).
Proof.
  induction l as [|a r IH]; intros H; [constructor|].
  cbn in H. apply NoDup_cons_iff in H as [Hn Hd]. cbn. destruct (g a); [|apply IH, Hd].
  cbn. constructor; [|apply IH, Hd].
  intros Hin. apply Hn. apply in_map_iff in Hin as [x [Hx Hin]]. apply filter_In in Hin as [Hin _].
  rewrite <- Hx. apply in_map, Hin.
Qed.

Lemma forall_filter {A} (P : A -> Prop) (g : A -> bool) l :
  Forall P l -> Forall P (filter g l).
Proof.
  rewrite !Forall_forall. intros H x Hx. apply filter_In in Hx as [Hx _]. apply H, Hx.
Qed.

Lemma below_not_eqb (k n : Z) : k < n -> Z.eqb k n = false.
Proof. intros H. apply Z.eqb_neq. lia. Qed.

Lemma po_store_ok_after_header s num supplier items :
  po_store_ok s ->
  po_store_ok (mkPOStore (mkPORow (next_po_row_id s) num supplier :: purchase_orders s)
                         (purchase_order_items s ++ map (po_item_row (next_po_row_id s)) items)
                         (next_po_row_id s + 1)).
Proof.
  intros [Hnd [Hh Hi]]. unfold po_store_ok. cbn [purchase_orders purchase_order_items next_po_row_id].
  split; [|split].
  - cbn [map por_id]. constructor; [|exact Hnd].
    intros Hin. apply in_map_iff in Hin as [r [Hr Hin]]. rewrite Forall_forall in Hh.
    specialize (Hh r Hin). lia.
  - constructor; [cbn; lia|]. eapply Forall_impl; [|exact Hh]. intros r Hr; cbn in Hr |- *; lia.
  - apply Forall_app. split.
    + eapply Forall_impl; [|exact Hi]. intros r Hr; cbv beta in *; lia.
    + apply Forall_forall. intros it Hit. apply in_map_iff in Hit as [x [<- _]]. cbn. lia.
Qed.

Lemma po_store_ok_create fo ho io dl supplier items s :
  po_store_ok s -> po_store_ok (snd (createPurchaseOrder fo ho io dl supplier items s)).
Proof.
  intros Hok. destruct (createPurchaseOrder fo ho io dl supplier items s) as [[c|] s'] eqn:E; cbn [snd].
  - apply create_po_success_shape in E as [_ ->]. apply po_store_ok_after_header, Hok.
  - apply create_po_failure_shape in E as [->|[->| ->]]; [exact Hok| |].
    + pose proof (po_store_ok_after_header s (next_po_number (map por_po_number (purchase_orders s)))
                    supplier [] Hok) as H.
      destruct Hok as [Hnd [Hh Hi]]. unfold po_store_ok in *.
      cbn [purchase_orders purchase_order_items next_po_row_id filter por_id] in *.
      rewrite Z.eqb_refl. cbn [negb].
      rewrite filter_all_true.
      * split; [exact Hnd|]. split.
        -- eapply Forall_impl; [|exact Hh]. intros r Hr; cbv beta in *; lia.
        -- eapply Forall_impl; [|exact Hi]. intros r Hr; cbv beta in *; lia.
      * intros r Hr. rewrite Forall_forall in Hh. rewrite below_not_eqb by (apply Hh, Hr). reflexivity.
    + pose proof (po_store_ok_after_header s (next_po_number (map por_po_number (purchase_orders s)))
                    supplier [] Hok) as H.
      cbn [map] in H. rewrite app_nil_r in H. exact H.
Qed.

Lemma po_store_ok_delete dl id s :
  po_store_ok s -> po_store_ok (snd (deletePurchaseOrder dl id s)).
Proof.
  intros Hok. unfold deletePurchaseOrder. destruct (dl s); [|exact Hok].
  destruct Hok as [Hnd [Hh Hi]]. cbn. split; [|split].
  - apply nodup_map_filter, Hnd.
  - apply forall_filter, Hh.
  - apply forall_filter, Hi.
Qed.

(** ** Created purchase orders can be read back *)

(** X7: after a successful createPurchaseOrder, the order is read back by
    id with exactly its items, and the listing is the new order followed by
    the previous listing. *)
Theorem create_po_then_read fo ho io dl supplier items s h its s' :
  po_store_ok s ->
  createPurchaseOrder fo ho io dl supplier items s = (Some (h, its), s') ->
  getPurchaseOrderById store_ok store_ok (por_id h) s' = Some (h, its) /\
  getPurchaseOrders store_ok store_ok2 s' = (h, its) :: getPurchaseOrders store_ok store_ok2 s.
Proof.
  intros [Hnd [Hh Hi]] E. apply create_po_success_shape in E as [E ->].
  injection E as -> ->. rewrite Forall_forall in Hh, Hi.
  assert (Hold : filter (fun it => Z.eqb (poi_po_id it) (next_po_row_id s)) (purchase_order_items s) = []).
  { apply filter_all_false. intros it Hit. apply below_not_eqb, Hi, Hit. }
  split.
  - unfold getPurchaseOrderById. cbn [store_ok negb purchase_orders purchase_order_items por_id filter].
    rewrite Z.eqb_refl.
    rewrite (filter_all_false _ (purchase_orders s)).
    2:{ intros r Hr. apply below_not_eqb, Hh, Hr. }
    rewrite filter_app, Hold, filter_po_item_rows_same by apply Z.eqb_refl. reflexivity.
  - unfold getPurchaseOrders. cbn [store_ok store_ok2 negb purchase_orders purchase_order_items map por_id].
    rewrite filter_app, Hold, filter_po_item_rows_same by apply Z.eqb_refl. cbn [app].
    f_equal. apply map_ext_in. intros r Hr.
    rewrite filter_app, filter_po_item_rows_other, app_nil_r; [reflexivity|].
    apply Z.eqb_neq. specialize (Hh r Hr). lia.
Qed.

(** X8: deleting a purchase order right after creating it gives back the
    tables as they were; only the SERIAL counter has moved on. *)
Theorem create_then_delete_po fo ho io dl dok supplier items s h its s' :
  po_store_ok s ->
  createPurchaseOrder fo ho io dl supplier items s = (Some (h, its), s') ->
  dok s' = true ->
  deletePurchaseOrder dok (por_id h) s' =
    (true, mkPOStore (purchase_orders s) (purchase_order_items s) (next_po_row_id s + 1)).
Proof.
  intros [Hnd [Hh Hi]] E Hd. apply create_po_success_shape in E as [E ->].
  injection E as -> ->. unfold deletePurchaseOrder. rewrite Hd.
  cbn [purchase_orders purchase_order_items next_po_row_id por_id filter].
  rewrite Z.eqb_refl. cbn [negb]. rewrite Forall_forall in Hh, Hi.
  rewrite filter_all_true.
  2:{ intros r Hr. rewrite below_not_eqb by (apply Hh, Hr). reflexivity. }
  rewrite filter_app, filter_all_true.
  2:{ intros it Hit. rewrite below_not_eqb by (apply Hi, Hit). reflexivity. }
  rewrite filter_all_false, app_nil_r; [reflexivity|].
  intros it Hit. apply in_map_iff in Hit as [x [<- _]]. cbn. rewrite Z.eqb_refl. reflexivity.
Qed.

(** X9: after a successful deletePurchaseOrder the id reads as missing,
    every other id reads as before, and the listing is the previous one
    without that order. *)
Theorem delete_po_then_read dok id s :
  dok s = true ->
  let s' := snd (deletePurchaseOrder dok id s) in
  getPurchaseOrderById store_ok store_ok id s' = None /\
  (forall id', id' <> id ->
     getPurchaseOrderById store_ok store_ok id' s' = getPurchaseOrderById store_ok store_ok id' s) /\
  getPurchaseOrders store_ok store_ok2 s' =
    filter (fun c => negb (Z.eqb (por_id (fst c)) id)) (getPurchaseOrders store_ok store_ok2 s).
Proof.
  intros Hd s'. subst s'. unfold deletePurchaseOrder. rewrite Hd. cbn [snd].
  split; [|split].
  - unfold getPurchaseOrderById. cbn [store_ok negb purchase_orders purchase_order_items].
    rewrite filter_all_false; [reflexivity|].
    intros r Hr. apply filter_In in Hr as [_ Hr]. destruct (Z.eqb (por_id r) id); [discriminate|reflexivity].
  - intros id' Hne. unfold getPurchaseOrderById. cbn [store_ok negb purchase_orders purchase_order_items].
    assert (Himp : forall z, Z.eqb z id' = true -> negb (Z.eqb z id) = true).
    { intros z Hz. apply Z.eqb_eq in Hz. subst z. apply Z.eqb_neq in Hne. rewrite Hne. reflexivity. }
    rewrite (filter_filter_implied (fun r => Z.eqb (por_id r) id')).
    2:{ intros r. apply Himp. }
    rewrite (filter_filter_implied (fun it => Z.eqb (poi_po_id it) id')).
    2:{ intros it. apply Himp. }
    reflexivity.
  - unfold getPurchaseOrders. cbn [store_ok store_ok2 negb purchase_orders purchase_order_items].
    induction (purchase_orders s) as [|r rs IH]; [reflexivity|].
    cbn [filter map fst]. destruct (Z.eqb (por_id r) id) eqn:Er; cbn [negb]; [exact IH|].
    cbn [map]. rewrite IH. f_equal. f_equal.
    apply filter_filter_implied. intros it Hit. apply Z.eqb_eq in Hit. rewrite Hit, Er. reflexivity.
Qed.

(* ------------------------------------------------------------------ *)
(** * Purchase orders for low stock *)

Lemma fold_group_none L : fold_left group_step L None = None.
Proof. induction L as [|a r IH]; [reflexivity|exact IH]. Qed.

Lemma nodup_snoc {A} (l : list A) a : NoDup l -> ~ In a l -> NoDup (l ++ [a]).
Proof.
  intros Hd Hn. apply Permutation_NoDup with (a :: l); [apply Permutation_cons_append|].
  constructor; assumption.
Qed.

Lemma grouped_nil : grouped [] [].
Proof.
  split; [constructor|]. split; [intros k l []|]. split; [intros i []|]. intros k [].
Qed.

Lemma group_step_some P acc x acc1 :
  grouped P acc -> group_step (Some acc) x = Some acc1 -> grouped (P ++ [x]) acc1.
Proof.
  intros [Hnd [Hent [Hcov Hproto]]]. unfold group_step.
  set (sx := js_str_or (rmo_supplier x) "Unknown Supplier").
  assert (Hfx : forall k, filter (fun i => String.eqb (js_str_or (rmo_supplier i) "Unknown Supplier") k)
                                 (P ++ [x]) =
                          (filter (fun i => String.eqb (js_str_or (rmo_supplier i) "Unknown Supplier") k) P
                           ++ (if String.eqb sx k then [x] else []))%list).
  { intros k. rewrite filter_app. reflexivity. }
  destruct (existsb (String.eqb sx) (map fst acc)) eqn:Eown.
  - intros E. injection E as <-.
    assert (Hkeys : map fst (map (fun e => if String.eqb (fst e) sx then (fst e, (snd e ++ [x])%list) else e) acc)
                    = map fst acc).
    { rewrite map_map. apply map_ext. intros [k l]. cbn. destruct (String.eqb k sx); reflexivity. }
    split; [rewrite Hkeys; exact Hnd|]. split; [|split].
    + intros k l Hin. apply in_map_iff in Hin as [[k0 l0] [Heq Hin]]. cbn in Heq.
      destruct (Hent k0 l0 Hin) as [Hl0 Hne]. rewrite Hfx.
      destruct (String.eqb k0 sx) eqn:Ek.
      * injection Heq as <- <-. apply String.eqb_eq in Ek. subst k0. rewrite String.eqb_refl.
        split; [rewrite Hl0; reflexivity|]. destruct l0; discriminate.
      * injection Heq as <- <-. assert (Ek' : String.eqb sx k0 = false).
        { rewrite String.eqb_sym. exact Ek. }
        rewrite Ek', app_nil_r. split; [exact Hl0|exact Hne].
    + intros i Hi. rewrite Hkeys. apply in_app_iff in Hi as [Hi|[<-|[]]]; [apply Hcov, Hi|].
      apply existsb_exists in Eown as [k [Hk Ek]]. apply String.eqb_eq in Ek. subst k. exact Hk.
    + rewrite Hkeys. exact Hproto.
  - destruct (existsb (String.eqb sx) object_prototype_keys) eqn:Epro; [discriminate|].
    intros E. injection E as <-.
    assert (Hnot : ~ In sx (map fst acc)).
    { intros Hin. assert (existsb (String.eqb sx) (map fst acc) = true) as H'.
      { apply existsb_exists. exists sx. split; [exact Hin|apply String.eqb_refl]. }
      rewrite H' in Eown. discriminate. }
    unfold grouped. rewrite map_app. cbn [map fst]. split; [apply nodup_snoc; assumption|]. split; [|split].
    + intros k l Hin. apply in_app_iff in Hin as [Hin|[Heq|[]]].
      * destruct (Hent k l Hin) as [Hl Hne]. rewrite Hfx.
        assert (Ek : String.eqb sx k = false).
        { apply String.eqb_neq. intros ->. apply Hnot. apply in_map_iff. exists (k, l). auto. }
        rewrite Ek, app_nil_r. split; assumption.
      * injection Heq as <- <-. rewrite Hfx, String.eqb_refl.
        rewrite filter_all_false; [split; [reflexivity|discriminate]|].
        intros i Hi. apply String.eqb_neq. intros Heq. apply Hnot. rewrite <- Heq. apply Hcov, Hi.
    + intros i Hi. apply in_app_iff. apply in_app_iff in Hi as [Hi|[<-|[]]].
      * left. apply Hcov, Hi.
      * right. left. reflexivity.
    + intros k Hk. apply in_app_iff in Hk as [Hk|[<-|[]]]; [apply Hproto, Hk|].
      intros Hin. assert (existsb (String.eqb sx) object_prototype_keys = true) as H'.
      { apply existsb_exists. exists sx. split; [exact Hin|apply String.eqb_refl]. }
      rewrite H' in Epro. discriminate.
Qed.

Lemma group_fold_some L P acc acc' :
  grouped P acc -> fold_left group_step L (Some acc) = Some acc' -> grouped (P ++ L) acc'.
Proof.
  revert P acc. induction L as [|x L IH]; intros P acc Hg E.
  - cbn in E. injection E as <-. rewrite app_nil_r. exact Hg.
  - cbn [fold_left] in E. destruct (group_step (Some acc) x) as [acc1|] eqn:Ex.
    + replace (P ++ x :: L)%list with ((P ++ [x]) ++ L)%list by (rewrite <- app_assoc; reflexivity).
      apply (IH (P ++ [x])%list acc1); [apply (group_step_some P acc x acc1 Hg Ex)|exact E].
    + rewrite fold_group_none in E. discriminate.
Qed.

Lemma group_fold_proto L P acc :
  grouped P acc ->
  (exists x, In x L /\ In (js_str_or (rmo_supplier x) "Unknown Supplier") object_prototype_keys) ->
  fold_left group_step L (Some acc) = None.
Proof.
  revert P acc. induction L as [|x L IH]; intros P acc Hg [y [Hy Hp]]; [destruct Hy|].
  cbn [fold_left]. destruct Hy as [->|Hy].
  - assert (E : group_step (Some acc) y = None).
    { destruct Hg as [_ [_ [_ Hproto]]]. unfold group_step.
      destruct (existsb _ (map fst acc)) eqn:Eown.
      - apply existsb_exists in Eown as [k [Hk Ek]]. apply String.eqb_eq in Ek. subst k.
        exfalso. exact (Hproto _ Hk Hp).
      - replace (existsb _ object_prototype_keys) with true; [reflexivity|].
        symmetry. apply existsb_exists. eexists. split; [exact Hp|apply String.eqb_refl]. }
    rewrite E. apply fold_group_none.
  - destruct (group_step (Some acc) x) as [acc1|] eqn:Ex; [|apply fold_group_none].
    apply (IH (P ++ [x])%list acc1); [apply (group_step_some P acc x acc1 Hg Ex)|].
    exists y. split; assumption.
Qed.

Lemma insert_by_index_perm {B} (e : string * B) l : Permutation (insert_by_index e l) (e :: l).
Proof.
  induction l as [|x r IH]; [reflexivity|]. cbn.
  destruct (Z.ltb _ _); [reflexivity|].
  transitivity (x :: e :: r); [apply perm_skip, IH|apply perm_swap].
Qed.

Lemma filter_split_perm {A} (f : A -> bool) l :
  Permutation (filter f l ++ filter (fun x => negb (f x)) l) l.
Proof.
  induction l as [|a r IH]; [reflexivity|]. cbn. destruct (f a); cbn.
  - apply perm_skip, IH.
  - rewrite <- Permutation_middle. apply perm_skip, IH.
Qed.

Lemma object_entries_perm {B} (props : list (string * B)) : Permutation (object_entries props) props.
Proof.
  unfold object_entries.
  assert (H : forall l : list (string * B), Permutation (fold_right insert_by_index [] l) l).
  { induction l as [|a r IH]; [reflexivity|]. cbn [fold_right].
    rewrite insert_by_index_perm. apply perm_skip, IH. }
  rewrite H. apply (filter_split_perm (fun e => is_array_index (fst e))).
Qed.

Lemma create_for_suppliers_shape fo ho io dl pend E s :
  (forall c, In c (fst (create_for_suppliers fo ho io dl pend E s)) ->
     exists l, In (por_supplier (fst c), l) E /\
               snd c = map (po_item_row (por_id (fst c))) (map low_stock_item_input l)) /\
  (NoDup (map fst E) ->
   NoDup (map (fun c => por_supplier (fst c)) (fst (create_for_suppliers fo ho io dl pend E s)))).
Proof.
  revert s. induction E as [|[k l] rest IH]; intros s.
  - cbn. split; [intros c []|constructor].
  - cbn [create_for_suppliers]. destruct (pend s k).
    + destruct (IH s) as [H1 H2]. split.
      * intros c Hc. destruct (H1 c Hc) as [l' [Hin Hs]]. exists l'. split; [right; exact Hin|exact Hs].
      * intros Hnd. apply H2. cbn in Hnd. apply NoDup_cons_iff in Hnd as [_ Hnd]. exact Hnd.
    + destruct (createPurchaseOrder fo ho io dl k (map low_stock_item_input l) s) as [co s1] eqn:Ec.
      destruct (IH s1) as [H1 H2].
      destruct (create_for_suppliers fo ho io dl pend rest s1) as [others s2] eqn:Er.
      cbn [fst] in H1, H2 |- *. destruct co as [c|].
      * pose proof Ec as Ec'. apply create_po_success_shape in Ec' as [Hc _]. subst c. split.
        -- intros c [<-|Hc].
           ++ exists l. split; [left; reflexivity|reflexivity].
           ++ destruct (H1 c Hc) as [l' [Hin Hs]]. exists l'. split; [right; exact Hin|exact Hs].
        -- intros Hnd. cbn in Hnd. apply NoDup_cons_iff in Hnd as [Hk Hnd].
           cbn [map fst por_supplier]. constructor; [|apply H2, Hnd].
           intros Hin. apply in_map_iff in Hin as [c [Hcs Hin]]. destruct (H1 c Hin) as [l' [Hin' _]].
           apply Hk. apply in_map_iff. exists (k, l'). split; [reflexivity|]. cbn in Hcs. rewrite <- Hcs. exact Hin'.
      * split.
        -- intros c Hc. destruct (H1 c Hc) as [l' [Hin Hs]]. exists l'. split; [right; exact Hin|exact Hs].
        -- intros Hnd. apply H2. cbn in Hnd. apply NoDup_cons_iff in Hnd as [_ Hnd]. exact Hnd.
Qed.

Lemma generated_orders_shape fo ho io dl pend rawMaterials s :
  NoDup (map (fun c => por_supplier (fst c))
             (fst (generatePurchaseOrdersForLowStock fo ho io dl pend rawMaterials s))) /\
  Forall (fun c =>
      snd c <> [] /\
      snd c = map (po_item_row (por_id (fst c)))
                (map low_stock_item_input
                   (filter (fun i => String.eqb (js_str_or (rmo_supplier i) "Unknown Supplier")
                                                (por_supplier (fst c)))
                      (filter (fun item => is_low_or_out (rmo_status item)) rawMaterials))))
    (fst (generatePurchaseOrdersForLowStock fo ho io dl pend rawMaterials s)).
Proof.
  unfold generatePurchaseOrdersForLowStock.
  set (low := filter (fun item => is_low_or_out (rmo_status item)) rawMaterials).
  destruct (Nat.eqb (List.length low) 0); [split; constructor|].
  destruct (fold_left group_step low (Some [])) as [g|] eqn:Eg; [|split; constructor].
  pose proof (group_fold_some low [] [] g grouped_nil Eg) as [Hnd [Hent _]].
  cbn [app] in Hent.
  pose proof (object_entries_perm g) as Hperm.
  destruct (create_for_suppliers_shape fo ho io dl pend (object_entries g) s) as [H1 H2]. split.
  - apply H2. apply Permutation_NoDup with (map fst g); [|exact Hnd].
    apply Permutation_map. symmetry. exact Hperm.
  - apply Forall_forall. intros c Hc. destruct (H1 c Hc) as [l [Hin Hs]].
    apply (Permutation_in _ Hperm) in Hin. destruct (Hent _ _ Hin) as [Hl Hne].
    split.
    + rewrite Hs. destruct l; [contradiction|discriminate].
    + rewrite Hs, Hl. reflexivity.
Qed.

Lemma create_po_read_back fo ho io dl supplier items s h its s' :
  po_store_ok s ->
  createPurchaseOrder fo ho io dl supplier items s = (Some (h, its), s') ->
  getPurchaseOrderById store_ok store_ok (por_id h) s' = Some (h, its).
Proof.
  intros [Hnd [Hh Hi]] E. apply create_po_success_shape in E as [E ->].
  injection E as -> ->. rewrite Forall_forall in Hh, Hi.
  unfold getPurchaseOrderById. cbn [store_ok negb purchase_orders purchase_order_items por_id filter].
  rewrite Z.eqb_refl.
  rewrite (filter_all_false _ (purchase_orders s)).
  2:{ intros r Hr. apply below_not_eqb, Hh, Hr. }
  rewrite filter_app, filter_po_item_rows_same by apply Z.eqb_refl.
  rewrite filter_all_false; [reflexivity|].
  intros it Hit. apply below_not_eqb, Hi, Hit.
Qed.

Lemma read_some_below s id r :
  po_store_ok s -> getPurchaseOrderById store_ok store_ok id s = Some r -> id < next_po_row_id s.
Proof.
  intros [_ [Hh _]] E. unfold getPurchaseOrderById in E. cbn [store_ok negb] in E.
  destruct (filter (fun r => Z.eqb (por_id r) id) (purchase_orders s)) as [|o [|o' rest]] eqn:Ef;
    try discriminate.
  assert (Ho : In o (filter (fun r => Z.eqb (por_id r) id) (purchase_orders s))) by (rewrite Ef; left; reflexivity).
  apply filter_In in Ho as [Ho Hid]. apply Z.eqb_eq in Hid. rewrite Forall_forall in Hh.
  rewrite <- Hid. apply Hh, Ho.
Qed.

Lemma create_po_keeps_read fo ho io dl supplier items s id r :
  po_store_ok s -> getPurchaseOrderById store_ok store_ok id s = Some r ->
  getPurchaseOrderById store_ok store_ok id (snd (createPurchaseOrder fo ho io dl supplier items s)) = Some r.
Proof.
  intros Hok E. pose proof (read_some_below s id r Hok E) as Hlt.
  destruct Hok as [Hnd [Hh Hi]]. rewrite Forall_forall in Hh.
  assert (Hn : Z.eqb (next_po_row_id s) id = false) by (apply Z.eqb_neq; lia).
  destruct (createPurchaseOrder fo ho io dl supplier items s) as [[c|] s'] eqn:Ec; cbn [snd].
  - apply create_po_success_shape in Ec as [_ ->]. rewrite <- E. unfold getPurchaseOrderById.
    cbn [store_ok negb purchase_orders purchase_order_items filter por_id]. rewrite Hn.
    rewrite filter_app, filter_po_item_rows_other, app_nil_r by exact Hn. reflexivity.
  - apply create_po_failure_shape in Ec as [->|[->| ->]]; [exact E| |];
      rewrite <- E; unfold getPurchaseOrderById;
      cbn [store_ok negb purchase_orders purchase_order_items filter por_id].
    + assert (Hf : filter (fun r => negb (Z.eqb (por_id r) (next_po_row_id s))) (purchase_orders s)
                   = purchase_orders s).
      { apply filter_all_true. intros x Hx. rewrite below_not_eqb by (apply Hh, Hx). reflexivity. }
      rewrite Z.eqb_refl. cbn [negb]. rewrite Hf. reflexivity.
    + rewrite Hn. reflexivity.
Qed.

Lemma create_for_suppliers_invariants fo ho io dl pend E s :
  po_store_ok s ->
  po_store_ok (snd (create_for_suppliers fo ho io dl pend E s)) /\
  (forall id r, getPurchaseOrderById store_ok store_ok id s = Some r ->
     getPurchaseOrderById store_ok store_ok id (snd (create_for_suppliers fo ho io dl pend E s)) = Some r) /\
  (forall c, In c (fst (create_for_suppliers fo ho io dl pend E s)) ->
     getPurchaseOrderById store_ok store_ok (por_id (fst c))
       (snd (create_for_suppliers fo ho io dl pend E s)) = Some c).
Proof.
  revert s. induction E as [|[k l] rest IH]; intros s Hok.
  - cbn. split; [exact Hok|]. split; [intros id r E; exact E|intros c []].
  - cbn [create_for_suppliers]. destruct (pend s k); [apply IH, Hok|].
    destruct (createPurchaseOrder fo ho io dl k (map low_stock_item_input l) s) as [co s1] eqn:Ec.
    assert (Hok1 : po_store_ok s1).
    { pose proof (po_store_ok_create fo ho io dl k (map low_stock_item_input l) s Hok) as H.
      rewrite Ec in H. exact H. }
    assert (Hkeep1 : forall id r, getPurchaseOrderById store_ok store_ok id s = Some r ->
                                  getPurchaseOrderById store_ok store_ok id s1 = Some r).
    { intros id r Er. pose proof (create_po_keeps_read fo ho io dl k (map low_stock_item_input l) s id r Hok Er) as H.
      rewrite Ec in H. exact H. }
    destruct (IH s1 Hok1) as [Hok2 [Hkeep2 Hnew2]].
    destruct (create_for_suppliers fo ho io dl pend rest s1) as [others s2] eqn:Er.
    cbn [fst snd] in *. split; [exact Hok2|]. split.
    + intros id r E0. apply Hkeep2, Hkeep1, E0.
    + destruct co as [[h its]|]; [|exact Hnew2].
      intros c [<-|Hc]; [|apply Hnew2, Hc].
      apply Hkeep2. cbn [fst]. apply (create_po_read_back fo ho io dl k (map low_stock_item_input l) s h its s1 Hok Ec).
Qed.

Lemma filter_map_comm {A B} (f : B -> bool) (g : A -> B) l :
  filter f (map g l) = map g (filter (fun x => f (g x)) l).
Proof.
  induction l as [|a r IH]; [reflexivity|]. cbn. destruct (f (g a)); cbn; rewrite IH; reflexivity.
Qed.

Lemma low_stock_item_of_row r :
  low_stock_item_input (raw_material_of_row r) =
  mkPOItemInput (rr_id r) (rr_name r)
    (Z.max (js_or_default (rr_reorder_level r) 10 * 2 - rr_quantity r)
           (js_or_default (rr_reorder_level r) 10))
    (rr_cost_per_unit r).
Proof.
  unfold low_stock_item_input, raw_material_of_row, po_quantityNeeded. cbn [rmo_id rmo_name rmo_reorder_level rmo_quantity rmo_cost_per_unit].
  assert (Hid : forall z, js_or_default (Some z) 0 = z).
  { intros z. cbn. destruct (Z.eqb z 0) eqn:Ez; [apply Z.eqb_eq in Ez; lia|reflexivity]. }
  assert (Hlvl : js_or_default (Some (js_or_default (rr_reorder_level r) 10)) 20 =
                 js_or_default (rr_reorder_level r) 10).
  { destruct (rr_reorder_level r) as [n|]; cbn; [|reflexivity].
    destruct (Z.eqb n 0) eqn:En; [reflexivity|rewrite En; reflexivity]. }
  rewrite Hlvl, !Hid. reflexivity.
Qed.

(** X10: generatePurchaseOrdersForLowStock creates nothing and leaves the
    store untouched when no material is low or out of stock, and also when a
    low-stock material's supplier (or "Unknown Supplier") is named like a
    property inherited from Object.prototype: the grouping then throws and
    the error is caught. *)
Theorem generate_returns_nothing fo ho io dl pend rawMaterials s :
  (Forall (fun i => is_low_or_out (rmo_status i) = false) rawMaterials ->
   generatePurchaseOrdersForLowStock fo ho io dl pend rawMaterials s = ([], s)) /\
  ((exists i, In i rawMaterials /\ is_low_or_out (rmo_status i) = true /\
              In (js_str_or (rmo_supplier i) "Unknown Supplier") object_prototype_keys) ->
   generatePurchaseOrdersForLowStock fo ho io dl pend rawMaterials s = ([], s)).
Proof.
  unfold generatePurchaseOrdersForLowStock. split.
  - intros H. rewrite filter_all_false; [reflexivity|].
    intros x Hx. rewrite Forall_forall in H. apply H, Hx.
  - intros [i [Hin [Hlow Hp]]].
    destruct (Nat.eqb _ 0); [reflexivity|].
    rewrite (group_fold_proto _ [] [] grouped_nil); [reflexivity|].
    exists i. split; [apply filter_In; split; assumption|exact Hp].
Qed.

(** X11: the purchase orders generatePurchaseOrdersForLowStock returns
    have distinct suppliers; each has at least one item, and its items are,
    in input order, exactly the low- or out-of-stock materials of that
    supplier, each ordered in the reorder quantity at its cost per unit. *)
Theorem generated_orders_by_supplier fo ho io dl pend rawMaterials s :
  NoDup (map (fun c => por_supplier (fst c))
             (fst (generatePurchaseOrdersForLowStock fo ho io dl pend rawMaterials s))) /\
  Forall (fun c =>
      snd c <> [] /\
      snd c = map (po_item_row (por_id (fst c)))
                (map low_stock_item_input
                   (filter (fun i => String.eqb (js_str_or (rmo_supplier i) "Unknown Supplier")
                                                (por_supplier (fst c)))
                      (filter (fun item => is_low_or_out (rmo_status item)) rawMaterials))))
    (fst (generatePurchaseOrdersForLowStock fo ho io dl pend rawMaterials s)).
Proof. apply generated_orders_shape. Qed.

(** X12: on the materials as getRawMaterials returns them (the path of
    the orders page), each generated item orders
    max(2 * level - quantity, level) with level = [reorder_level || 10] of
    the stored row, at the stored cost: the default 20 of the generator is
    never used. *)
Theorem generated_orders_from_rows fo ho io dl pend rows s :
  Forall (fun c =>
      snd c <> [] /\
      snd c = map (fun r =>
                     let level := js_or_default (rr_reorder_level r) 10 in
                     let q := Z.max (level * 2 - rr_quantity r) level in
                     mkPOItemRow (por_id (fst c)) (rr_id r) (rr_name r) q (rr_cost_per_unit r)
                                 (q * rr_cost_per_unit r))
                (filter (fun r => String.eqb (js_str_or (rr_supplier r) "Unknown Supplier")
                                             (por_supplier (fst c)))
                   (filter (fun r => is_low_or_out (rr_status r)) rows)))
    (fst (generatePurchaseOrdersForLowStock fo ho io dl pend (map raw_material_of_row rows) s)).
Proof.
  destruct (generated_orders_shape fo ho io dl pend (map raw_material_of_row rows) s) as [_ H].
  eapply Forall_impl; [|exact H]. intros c [Hne Hc]. split; [exact Hne|].
  rewrite Hc, !filter_map_comm, !map_map. apply map_ext_in. intros r _.
  rewrite low_stock_item_of_row. reflexivity.
Qed.

(** X13: createPurchaseOrder (whatever its outcome, including the
    compensating delete), deletePurchaseOrder and
    generatePurchaseOrdersForLowStock keep the purchase-order tables keyed
    below the SERIAL counter, with distinct header ids and no item of an id
    not yet handed out. *)
Theorem po_store_invariant_kept s :
  po_store_ok s ->
  (forall fo ho io dl supplier items,
     po_store_ok (snd (createPurchaseOrder fo ho io dl supplier items s))) /\
  (forall dok id, po_store_ok (snd (deletePurchaseOrder dok id s))) /\
  (forall fo ho io dl pend rawMaterials,
     po_store_ok (snd (generatePurchaseOrdersForLowStock fo ho io dl pend rawMaterials s))).
Proof.
  intros Hok. split; [|split].
  - intros. apply po_store_ok_create, Hok.
  - intros. apply po_store_ok_delete, Hok.
  - intros. unfold generatePurchaseOrdersForLowStock.
    destruct (Nat.eqb _ 0); [exact Hok|].
    destruct (fold_left _ _ _); [|exact Hok].
    apply create_for_suppliers_invariants, Hok.
Qed.

(** X14: every purchase order generatePurchaseOrdersForLowStock returns
    is stored afterwards: getPurchaseOrderById on its id gives it back with
    exactly its items; and every order readable before reads the same. *)
Theorem generated_orders_stored fo ho io dl pend rawMaterials s :
  po_store_ok s ->
  let '(created, s') := generatePurchaseOrdersForLowStock fo ho io dl pend rawMaterials s in
  (forall c, In c created -> getPurchaseOrderById store_ok store_ok (por_id (fst c)) s' = Some c) /\
  (forall id r, getPurchaseOrderById store_ok store_ok id s = Some r ->
                getPurchaseOrderById store_ok store_ok id s' = Some r).
Proof.
  intros Hok. unfold generatePurchaseOrdersForLowStock.
  destruct (Nat.eqb _ 0); [split; [intros c []|auto]|].
  destruct (fold_left _ _ _) as [g|]; [|split; [intros c []|auto]].
  destruct (create_for_suppliers_invariants fo ho io dl pend (object_entries g) s Hok) as [_ [Hk Hn]].
  destruct (create_for_suppliers fo ho io dl pend (object_entries g) s) as [created s'].
  split; [exact Hn|exact Hk].
Qed.

(* ------------------------------------------------------------------ *)
(** * Reports *)

Lemma count_status_partition (l : list Status) :
  count_status InStock l + count_status LowStock l + count_status OutOfStock l = Z.of_nat (List.length l).
Proof.
  unfold count_status. induction l as [|s r IH]; [reflexivity|].
  destruct s; cbn [filter Status_eqb List.length]; rewrite ?Nat2Z.inj_succ; lia.
Qed.

Lemma fold_left_sum {A} (f : A -> Z) (l : list A) (a : Z) :
  fold_left (fun sum item => sum + f item) l a = a + fold_right Z.add 0 (map f l).
Proof.
  revert a. induction l as [|x r IH]; intros a; cbn; [lia|]. rewrite IH. lia.
Qed.

(** X15: in each part of the inventory summary the in-stock, low-stock
    and out-of-stock counts add up to [total_items], which is the number of
    listed items, and [total_value] is the sum of the listed item values. *)
Theorem inventory_summary_consistent products rawMaterials :
  let '(p, r) := generateInventorySummary products rawMaterials in
  in_stock p + low_stock p + out_of_stock p = total_items p /\
  total_items p = Z.of_nat (List.length (summary_items p)) /\
  total_value p = fold_right Z.add 0 (map si_value (summary_items p)) /\
  in_stock r + low_stock r + out_of_stock r = total_items r /\
  total_items r = Z.of_nat (List.length (summary_items r)) /\
  total_value r = fold_right Z.add 0 (map si_value (summary_items r)).
Proof.
  cbn [generateInventorySummary products_summary raw_materials_summary
       in_stock low_stock out_of_stock total_items total_value summary_items].
  rewrite !count_status_partition, !length_map, !map_map.
  rewrite (fold_left_sum (fun item => ir_price item * ir_stock item)).
  rewrite (fold_left_sum (fun item => rmo_cost_per_unit item * rmo_quantity item)).
  cbn [si_value]. repeat split; lia.
Qed.

(** X16: when every product's stored status is the one the
    [update_inventory_status] trigger sets, both low-stock reports list
    exactly the products with stock at most 20, in order; orders-utils.ts
    suggests restocking each to 40 (stock + reorder_needed = 40),
    reports-utils.ts, the one the reports page shows, to 20. *)
Theorem low_stock_report_products products rawMaterials :
  Forall (fun p => ir_status p = update_inventory_status_trigger (ir_stock p)) products ->
  fst (generateLowStockReport products rawMaterials) =
    map low_stock_product_entry (filter (fun p => Z.leb (ir_stock p) 20) products) /\
  Forall (fun e => lsp_current_stock e + lsp_reorder_needed e = 40)
         (fst (generateLowStockReport products rawMaterials)) /\
  fst (ReportsUtils.generateLowStockReport products rawMaterials) =
    map ReportsUtils.low_stock_product_entry (filter (fun p => Z.leb (ir_stock p) 20) products) /\
  Forall (fun e => ReportsUtils.lsp_current_stock e + ReportsUtils.lsp_reorder_needed e = 20)
         (fst (ReportsUtils.generateLowStockReport products rawMaterials)).
Proof.
  intros H. rewrite Forall_forall in H.
  assert (Hf : filter (fun item => is_low_or_out (ir_status item)) products =
               filter (fun p => Z.leb (ir_stock p) 20) products).
  { apply filter_ext_in. intros p Hp. rewrite (H p Hp). apply trigger_listed_product. }
  cbn [generateLowStockReport ReportsUtils.generateLowStockReport fst]. rewrite Hf.
  split; [reflexivity|]. split; [|split; [reflexivity|]].
  - apply Forall_map, Forall_forall. intros p Hp. apply filter_In in Hp as [_ Hp].
    apply Z.leb_le in Hp. cbn [low_stock_product_entry lsp_current_stock lsp_reorder_needed].
    unfold report_product_reorder_needed. lia.
  - apply Forall_map, Forall_forall. intros p Hp. apply filter_In in Hp as [_ Hp].
    apply Z.leb_le in Hp.
    cbn [ReportsUtils.low_stock_product_entry ReportsUtils.lsp_current_stock ReportsUtils.lsp_reorder_needed]. lia.
Qed.

Lemma trigger_listed_raw q rl :
  (forall n, rl = Some n -> 0 <= n) ->
  is_low_or_out (update_raw_materials_status_trigger q rl) =
  (Z.leb q (match rl with Some n => n | None => 10 end)).
Proof.
  intros Hrl. unfold update_raw_materials_status_trigger.
  destruct (Z.eqb q 0) eqn:E0.
  - apply Z.eqb_eq in E0. subst q. symmetry. apply Z.leb_le.
    destruct rl as [n|]; [apply (Hrl n eq_refl)|lia].
  - destruct (Z.leb q _); reflexivity.
Qed.

Lemma reorder_level_of_row r :
  js_or_default (rmo_reorder_level (raw_material_of_row r)) 10 = js_or_default (rr_reorder_level r) 10 /\
  js_or_default (rr_reorder_level r) 10 <> 0.
Proof.
  cbn [raw_material_of_row rmo_reorder_level].
  destruct (rr_reorder_level r) as [n|]; cbn; [|split; [reflexivity|discriminate]].
  destruct (Z.eqb n 0) eqn:En; [split; [reflexivity|discriminate]|].
  rewrite En. split; [reflexivity|]. apply Z.eqb_neq, En.
Qed.

(** X17: on the materials as getRawMaterials returns them, when each
    stored status is the one the [update_raw_materials_status] trigger sets
    and reorder levels are non-negative, both low-stock reports list exactly
    the materials with quantity at most COALESCE(reorder_level, 10), in
    order, and for each quantity + reorder_needed = 2 * the reorder level
    shown ([reorder_level || 10]). *)
Theorem low_stock_report_raw_from_rows products rows :
  Forall (fun r => (forall n, rr_reorder_level r = Some n -> 0 <= n) /\
                   rr_status r = update_raw_materials_status_trigger (rr_quantity r) (rr_reorder_level r))
         rows ->
  snd (generateLowStockReport products (map raw_material_of_row rows)) =
    map (fun r => low_stock_raw_entry (raw_material_of_row r))
        (filter (fun r => Z.leb (rr_quantity r) (match rr_reorder_level r with Some n => n | None => 10 end))
                rows) /\
  Forall (fun e => lsr_current_quantity e + lsr_reorder_needed e = 2 * lsr_reorder_level e)
         (snd (generateLowStockReport products (map raw_material_of_row rows))) /\
  snd (ReportsUtils.generateLowStockReport products (map raw_material_of_row rows)) =
    map (fun r => ReportsUtils.low_stock_raw_entry (raw_material_of_row r))
        (filter (fun r => Z.leb (rr_quantity r) (match rr_reorder_level r with Some n => n | None => 10 end))
                rows) /\
  Forall (fun e => ReportsUtils.lsr_current_quantity e + ReportsUtils.lsr_reorder_needed e =
                   2 * ReportsUtils.lsr_reorder_level e)
         (snd (ReportsUtils.generateLowStockReport products (map raw_material_of_row rows))).
Proof.
  intros H. rewrite Forall_forall in H.
  assert (Hf : filter (fun r => is_low_or_out (rmo_status (raw_material_of_row r))) rows =
               filter (fun r => Z.leb (rr_quantity r) (match rr_reorder_level r with Some n => n | None => 10 end))
                      rows).
  { apply filter_ext_in. intros r Hr. destruct (H r Hr) as [Hrl Hs].
    cbn [raw_material_of_row rmo_status]. rewrite Hs. apply trigger_listed_raw, Hrl. }
  assert (Hq : forall r, rmo_quantity (raw_material_of_row r) = rr_quantity r).
  { intros r. cbn. destruct (Z.eqb (rr_quantity r) 0) eqn:E; [apply Z.eqb_eq in E; lia|reflexivity]. }
  (* For a listed row the shown level covers the quantity. *)
  assert (Hlvl : forall r, In r rows ->
            rr_quantity r <= match rr_reorder_level r with Some n => n | None => 10 end ->
            0 <= js_or_default (rr_reorder_level r) 10 * 2 - rr_quantity r).
  { intros r Hr Hle. destruct (H r Hr) as [Hrl _].
    destruct (rr_reorder_level r) as [n|] eqn:El; cbn [js_or_default]; [|lia].
    specialize (Hrl n eq_refl). destruct (Z.eqb n 0) eqn:En; [apply Z.eqb_eq in En|]; lia. }
  cbn [generateLowStockReport ReportsUtils.generateLowStockReport snd].
  rewrite !filter_map_comm, !map_map, Hf.
  split; [reflexivity|]. split; [|split; [reflexivity|]].
  - apply Forall_map, Forall_forall. intros r Hr. apply filter_In in Hr as [Hr Hle].
    apply Z.leb_le in Hle. specialize (Hlvl r Hr Hle).
    destruct (reorder_level_of_row r) as [E Hne].
    unfold low_stock_raw_entry, report_raw_reorder_needed.
    cbn [lsr_current_quantity lsr_reorder_needed lsr_reorder_level]. rewrite E, Hq. lia.
  - apply Forall_map, Forall_forall. intros r Hr. apply filter_In in Hr as [Hr Hle].
    apply Z.leb_le in Hle. specialize (Hlvl r Hr Hle).
    destruct (reorder_level_of_row r) as [E Hne].
    unfold ReportsUtils.low_stock_raw_entry.
    cbn [ReportsUtils.lsr_current_quantity ReportsUtils.lsr_reorder_needed ReportsUtils.lsr_reorder_level].
    rewrite E, Hq. lia.
Qed.

(* ------------------------------------------------------------------ *)
(** * The seed hash of the stock-movement report *)

Lemma to_int32_decomp x : exists k, ReportsUtils.to_int32 x = x - k * 4294967296.
Proof.
  unfold ReportsUtils.to_int32. rewrite Z.mod_eq by lia.
  destruct (Z.leb 2147483648 _); [exists (x / 4294967296 + 1)|exists (x / 4294967296)]; lia.
Qed.

Lemma to_int32_sub_mul x k : ReportsUtils.to_int32 (x - k * 4294967296) = ReportsUtils.to_int32 x.
Proof.
  unfold ReportsUtils.to_int32.
  replace (x - k * 4294967296) with (x + (- k) * 4294967296) by lia.
  rewrite Z_mod_plus_full. reflexivity.
Qed.

Lemma to_int32_range x : -2147483648 <= ReportsUtils.to_int32 x < 2147483648.
Proof.
  unfold ReportsUtils.to_int32.
  pose proof (Z.mod_pos_bound x 4294967296 ltac:(lia)).
  destruct (Z.leb 2147483648 _) eqn:E; [apply Z.leb_le in E|apply Z.leb_gt in E]; lia.
Qed.

Lemma hash_fold_poly l h P :
  h = ReportsUtils.to_int32 P ->
  fold_left ReportsUtils.hash_step l h = ReportsUtils.to_int32 (fold_left (fun h c => 31 * h + c) l P).
Proof.
  revert h P. induction l as [|c r IH]; intros h P Hh; [exact Hh|].
  cbn [fold_left]. apply IH. unfold ReportsUtils.hash_step.
  destruct (to_int32_decomp h) as [k1 E1]. rewrite E1.
  destruct (to_int32_decomp ((h - k1 * 4294967296) * 32)) as [k2 E2]. rewrite E2.
  destruct (to_int32_decomp P) as [k3 E3]. rewrite E3 in Hh. subst h.
  rewrite <- (to_int32_sub_mul (31 * P + c) (31 * k3 + 32 * k1 + k2)).
  f_equal. lia.
Qed.

(** X18: deterministicHash is the absolute value of the 32-bit
    two's-complement polynomial hash [sum c_i * 31^(n-1-i)] of the code
    units (Java's String.hashCode), so it lies in [0, 2^31]; 2^31 itself is
    reached, one more than any 32-bit integer. *)
Theorem deterministicHash_poly input :
  ReportsUtils.deterministicHash input = Z.abs (ReportsUtils.to_int32 (poly_hash input)) /\
  0 <= ReportsUtils.deterministicHash input <= 2147483648.
Proof.
  unfold ReportsUtils.deterministicHash, poly_hash.
  rewrite (hash_fold_poly input 0 0) by reflexivity.
  split; [reflexivity|].
  pose proof (to_int32_range (fold_left (fun h c => 31 * h + c) input 0)). lia.
Qed.

(* ------------------------------------------------------------------ *)
(** * Users and passwords *)

Lemma authenticate_some_inv c n p st u :
  authenticateUser c n p st = Some u ->
  c = true /\ In u (users st) /\ u_username u = n /\ u_status u = "active" /\
  password_rows (u_id u) st = 1%nat /\ In (mkPasswordRow (u_id u) p) (user_passwords st).
Proof.
  unfold authenticateUser, password_rows. destruct c; [|discriminate]. cbn [negb].
  destruct (filter _ (users st)) as [|u0 [|u1 rest]] eqn:Eu; try discriminate.
  destruct (filter _ (user_passwords st)) as [|pd [|pd1 rest]] eqn:Ep; try discriminate.
  destruct (String.eqb (pw_hash pd) p) eqn:Eh; [|discriminate].
  intros E. injection E as <-.
  assert (Hu : In u0 (filter (fun u => String.eqb (u_username u) n && String.eqb (u_status u) "active")
                             (users st))) by (rewrite Eu; left; reflexivity).
  apply filter_In in Hu as [Hu Hc]. apply andb_prop in Hc as [Hn Hs].
  assert (Hp : In pd (filter (fun q => String.eqb (pw_user_id q) (u_id u0)) (user_passwords st)))
    by (rewrite Ep; left; reflexivity).
  apply filter_In in Hp as [Hp Hid].
  apply String.eqb_eq in Hn, Hs, Hid, Eh.
  destruct pd as [pid ph]. cbn in Hid, Eh. subst.
  split; [reflexivity|]. split; [exact Hu|]. split; [reflexivity|]. split; [exact Hs|].
  split; [rewrite Ep; reflexivity|exact Hp].
Qed.

Lemma password_rows_app uid st rows :
  password_rows uid (mkAuthStore (users st) (user_passwords st ++ rows)) =
  (password_rows uid st + List.length (filter (fun p => String.eqb (pw_user_id p) uid) rows))%nat.
Proof. unfold password_rows. cbn [user_passwords]. rewrite filter_app, length_app. reflexivity. Qed.

Lemma password_rows_map uid st f :
  (forall p, pw_user_id (f p) = pw_user_id p) ->
  password_rows uid (mkAuthStore (users st) (map f (user_passwords st))) = password_rows uid st.
Proof.
  intros Hf. unfold password_rows. cbn [user_passwords].
  induction (user_passwords st) as [|q r IH]; [reflexivity|].
  cbn [map filter]. rewrite Hf. destruct (String.eqb (pw_user_id q) uid); cbn [List.length]; lia.
Qed.

(** X19: authenticateUser only ever returns a stored user with the given
    username whose status is "active", and only when that user has exactly
    one password row and it holds the given password. *)
Theorem authenticate_sound c n p st u :
  authenticateUser c n p st = Some u ->
  In u (users st) /\ u_username u = n /\ u_status u = "active" /\
  password_rows (u_id u) st = 1%nat /\ In (mkPasswordRow (u_id u) p) (user_passwords st).
Proof.
  intros H. apply authenticate_some_inv in H as [_ H]. exact H.
Qed.

(** X20: for the only active user with a given username, a successful
    addUserPassword on a user without a password row lets that user log in
    with that password and with no other. *)
Theorem add_password_then_login io n u p st :
  filter (fun v => String.eqb (u_username v) n && String.eqb (u_status v) "active") (users st) = [u] ->
  password_rows (u_id u) st = 0%nat ->
  io st = true ->
  forall p', authenticateUser true n p' (snd (addUserPassword io (u_id u) p st)) =
             if String.eqb p p' then Some u else None.
Proof.
  intros Hu H0 Hio p'. unfold addUserPassword. rewrite Hio. cbn [snd].
  unfold authenticateUser. cbn [negb users user_passwords]. rewrite Hu.
  unfold password_rows in H0. apply length_zero_iff_nil in H0.
  rewrite filter_app, H0. cbn. rewrite String.eqb_refl. reflexivity.
Qed.

(** X21: for the only active user with a given username and exactly one
    password row, a successful updateUserPassword makes the new password
    the only one that logs the user in. *)
Theorem update_password_then_login ro uo io n u p st :
  filter (fun v => String.eqb (u_username v) n && String.eqb (u_status v) "active") (users st) = [u] ->
  password_rows (u_id u) st = 1%nat ->
  ro st = true -> uo st = true ->
  forall p', authenticateUser true n p' (snd (updateUserPassword ro uo io (u_id u) p st)) =
             if String.eqb p p' then Some u else None.
Proof.
  intros Hu H1 Hro Huo p'. unfold password_rows in H1.
  destruct (filter (fun q => String.eqb (pw_user_id q) (u_id u)) (user_passwords st))
    as [|x [|y rest]] eqn:Ex; try discriminate.
  assert (Hx : In x (filter (fun q => String.eqb (pw_user_id q) (u_id u)) (user_passwords st)))
    by (rewrite Ex; left; reflexivity).
  apply filter_In in Hx as [_ Hx]. apply String.eqb_eq in Hx.
  unfold updateUserPassword. rewrite Hro, Ex, Huo. cbn [snd].
  unfold authenticateUser. cbn [negb users user_passwords]. rewrite Hu.
  rewrite filter_map_comm.
  rewrite (filter_ext_in _ (fun q => String.eqb (pw_user_id q) (u_id u))).
  2:{ intros q _. cbv beta. destruct (String.eqb (pw_user_id q) (u_id u)) eqn:E;
      cbn [pw_user_id]; rewrite E; reflexivity. }
  rewrite Ex. cbn [map]. rewrite Hx, String.eqb_refl. cbn [pw_hash]. reflexivity.
Qed.

(** X22: a user with two or more password rows can never log in, and
    neither addUserPassword nor updateUserPassword (for any user, whatever
    the outcome of their store calls) brings the count back below two; a
    failed read in updateUserPassword on a user with one row adds the
    second row. *)
Theorem duplicate_password_rows_lock_out uid st :
  ((2 <= password_rows uid st)%nat ->
   (forall c n p u, authenticateUser c n p st = Some u -> u_id u <> uid) /\
   (forall io userId p, (2 <= password_rows uid (snd (addUserPassword io userId p st)))%nat) /\
   (forall ro uo io userId p,
      (2 <= password_rows uid (snd (updateUserPassword ro uo io userId p st)))%nat)) /\
  (forall ro uo io p, password_rows uid st = 1%nat -> ro st = false -> io st = true ->
     password_rows uid (snd (updateUserPassword ro uo io uid p st)) = 2%nat).
Proof.
  assert (Hadd : forall io userId p,
            (password_rows uid st <= password_rows uid (snd (addUserPassword io userId p st)))%nat).
  { intros io userId p. unfold addUserPassword. destruct (io st); cbn [snd]; [|lia].
    rewrite password_rows_app. lia. }
  split.
  - intros H2. split; [|split].
    + intros c n p u Hs Heq. subst uid. apply authenticate_some_inv in Hs as [_ [_ [_ [_ [H1 _]]]]]. lia.
    + intros io userId p. specialize (Hadd io userId p). lia.
    + intros ro uo io userId p. unfold updateUserPassword.
      destruct (if ro st then _ else []) as [|x [|y rest]].
      * specialize (Hadd io userId p). lia.
      * destruct (uo st); cbn [snd]; [|exact H2].
        rewrite password_rows_map; [exact H2|].
        intros q. destruct (String.eqb (pw_user_id q) userId); reflexivity.
      * specialize (Hadd io userId p). lia.
  - intros ro uo io p H1 Hro Hio. unfold updateUserPassword. rewrite Hro.
    unfold addUserPassword. rewrite Hio. cbn [snd]. rewrite password_rows_app, H1.
    cbn. rewrite String.eqb_refl. reflexivity.
Qed.

(** X23: after a deleteUser that reports success no password row of
    that id is left and no login returns a user with that id. *)
Theorem delete_user_effect pdo udo id st :
  fst (deleteUser pdo udo id st) = true ->
  password_rows id (snd (deleteUser pdo udo id st)) = 0%nat /\
  (forall c n p u, authenticateUser c n p (snd (deleteUser pdo udo id st)) = Some u -> u_id u <> id).
Proof.
  unfold deleteUser. destruct (udo _); cbn [fst snd]; [intros _|discriminate].
  split.
  - unfold password_rows. cbn [user_passwords]. apply length_zero_iff_nil.
    apply filter_all_false. intros q Hq. apply filter_In in Hq as [_ Hq].
    destruct (String.eqb (pw_user_id q) id); [discriminate|reflexivity].
  - intros c n p u Hs Hid. apply authenticate_some_inv in Hs as [_ [Hin _]].
    cbn [users] in Hin. apply filter_In in Hin as [_ Hin]. rewrite Hid, String.eqb_refl in Hin.
    discriminate.
Qed.

(* ------------------------------------------------------------------ *)
(** * Instances of the work-order properties *)

Lemma update_then_lookup_witness :
  NoDup (map po_id (productOrders (world_P7 "pending") ++ productOrderHistory (world_P7 "pending"))) /\
  getProductOrderById "PO-0001" world_P7_completed = Some (completed_order (order_P7 "pending") "t1").
Proof.
  split.
  - cbn. constructor; [intros []|constructor].
  - apply (update_then_lookup store_ok store_ok2 (world_P7 "pending") "PO-0001" "completed" "t1").
    + cbn. constructor; [intros []|constructor].
    + vm_compute. reflexivity.
Defined.

Lemma create_keeps_order_ids_witness :
  order_ids_ok (world_P7 "pending") /\ (0 <= nextOrderId (world_P7 "pending") < 10000)%Z /\
  order_ids_ok world_P3_created.
Proof.
  assert (H : order_ids_ok (world_P7 "pending")).
  { split; cbn.
    - constructor; [intros []|constructor].
    - constructor; [|constructor]. exists 1%Z. split; [lia|vm_compute; reflexivity]. }
  split; [exact H|]. split; [cbn; lia|].
  apply (create_keeps_order_ids store_ok store_ok2 order_P3_A2 "t2" (world_P7 "pending") H).
  cbn; lia.
Defined.

Lemma update_delete_keep_order_ids_witness :
  order_ids_ok (world_P7 "pending") /\ order_ids_ok world_P7_completed /\
  order_ids_ok (snd (deleteProductOrder "PO-0001" (world_P7 "pending"))).
Proof.
  assert (H : order_ids_ok (world_P7 "pending")).
  { split; cbn.
    - constructor; [intros []|constructor].
    - constructor; [|constructor]. exists 1%Z. split; [lia|vm_compute; reflexivity]. }
  destruct (update_delete_keep_order_ids (world_P7 "pending") H) as [U D].
  split; [exact H|]. split; [apply U|apply D].
Defined.

Lemma create_order_success_witness :
  createProductOrder store_ok store_ok2 order_P3_A2 "t2" (world_P7 "pending") =
    (inr created_P3, world_P3_created) /\
  po_id created_P3 = id_of "PO" 2 /\
  productOrders world_P3_created = (productOrders (world_P7 "pending") ++ [created_P3])%list /\
  raw_quantity 1 world_P3_created =
    option_map (fun q => q - requested 1 [(1, 2)]) (raw_quantity 1 (world_P7 "pending")).
Proof.
  assert (E : createProductOrder store_ok store_ok2 order_P3_A2 "t2" (world_P7 "pending") =
                (inr created_P3, world_P3_created)) by (vm_compute; reflexivity).
  destruct (create_order_success store_ok store_ok2 order_P3_A2 "t2" (world_P7 "pending")
              created_P3 world_P3_created E)
    as [Hid [_ [_ [_ [_ [_ [Hact [_ [_ [_ Hq]]]]]]]]]].
  split; [exact E|]. split; [exact Hid|]. split; [exact Hact|]. apply Hq.
Defined.

Lemma create_then_delete_keeps_deduction_witness :
  order_ids_ok (world_P7 "pending") /\ (0 <= nextOrderId (world_P7 "pending") < 10000)%Z /\
  createProductOrder store_ok store_ok2 order_P3_A2 "t2" (world_P7 "pending") =
    (inr created_P3, world_P3_created) /\
  deleteProductOrder "PO-0002" world_P3_created =
    (inr true, mkWorld (raw_materials world_P3_created) (inventory_items (world_P7 "pending"))
                       (productOrders (world_P7 "pending")) [] 3) /\
  raw_quantity 1 world_P3_created = Some 3%Z.
Proof.
  assert (H : order_ids_ok (world_P7 "pending")).
  { split; cbn.
    - constructor; [intros []|constructor].
    - constructor; [|constructor]. exists 1%Z. split; [lia|vm_compute; reflexivity]. }
  assert (E : createProductOrder store_ok store_ok2 order_P3_A2 "t2" (world_P7 "pending") =
                (inr created_P3, world_P3_created)) by (vm_compute; reflexivity).
  assert (Hn : (0 <= nextOrderId (world_P7 "pending") < 10000)%Z) by (cbn; lia).
  destruct (create_then_delete_keeps_deduction store_ok store_ok2 order_P3_A2 "t2"
              (world_P7 "pending") created_P3 world_P3_created H Hn E) as [D Q].
  split; [exact H|]. split; [exact Hn|]. split; [exact E|]. split; [exact D|].
  rewrite Q. vm_compute. reflexivity.
Defined.

(* ------------------------------------------------------------------ *)
(** * Instances of the purchase-order properties *)

Lemma create_po_then_read_witness :
  po_store_ok po_store_empty /\
  createPurchaseOrder store_ok store_ok store_ok store_ok "Textile Co." [cotton_item] po_store_empty =
    (Some (po_row_one, [po_item_row 1 cotton_item]), po_store_one) /\
  getPurchaseOrderById store_ok store_ok 1 po_store_one = Some (po_row_one, [po_item_row 1 cotton_item]) /\
  getPurchaseOrders store_ok store_ok2 po_store_one =
    (po_row_one, [po_item_row 1 cotton_item]) :: getPurchaseOrders store_ok store_ok2 po_store_empty.
Proof.
  assert (H : po_store_ok po_store_empty) by (split; [constructor|split; constructor]).
  assert (E : createPurchaseOrder store_ok store_ok store_ok store_ok "Textile Co." [cotton_item]
                po_store_empty = (Some (po_row_one, [po_item_row 1 cotton_item]), po_store_one))
    by (vm_compute; reflexivity).
  destruct (create_po_then_read store_ok store_ok store_ok store_ok "Textile Co." [cotton_item]
              po_store_empty po_row_one [po_item_row 1 cotton_item] po_store_one H E) as [R L].
  split; [exact H|]. split; [exact E|]. split; [exact R|exact L].
Defined.

Lemma create_then_delete_po_witness :
  po_store_ok po_store_empty /\
  createPurchaseOrder store_ok store_ok store_ok store_ok "Textile Co." [cotton_item] po_store_empty =
    (Some (po_row_one, [po_item_row 1 cotton_item]), po_store_one) /\
  store_ok po_store_one = true /\
  deletePurchaseOrder store_ok 1 po_store_one = (true, mkPOStore [] [] 2).
Proof.
  assert (H : po_store_ok po_store_empty) by (split; [constructor|split; constructor]).
  assert (E : createPurchaseOrder store_ok store_ok store_ok store_ok "Textile Co." [cotton_item]
                po_store_empty = (Some (po_row_one, [po_item_row 1 cotton_item]), po_store_one))
    by (vm_compute; reflexivity).
  split; [exact H|]. split; [exact E|]. split; [reflexivity|].
  exact (create_then_delete_po store_ok store_ok store_ok store_ok store_ok "Textile Co." [cotton_item]
           po_store_empty po_row_one [po_item_row 1 cotton_item] po_store_one H E eq_refl).
Defined.

Lemma delete_po_then_read_witness :
  store_ok po_store_one = true /\
  getPurchaseOrderById store_ok store_ok 1 (snd (deletePurchaseOrder store_ok 1 po_store_one)) = None /\
  getPurchaseOrders store_ok store_ok2 (snd (deletePurchaseOrder store_ok 1 po_store_one)) = [].
Proof.
  destruct (delete_po_then_read store_ok 1 po_store_one eq_refl) as [R [_ L]].
  split; [reflexivity|]. split; [exact R|]. rewrite L. vm_compute. reflexivity.
Defined.

Lemma generate_returns_nothing_witness :
  In mat_toString [mat_cotton; mat_toString] /\ is_low_or_out (rmo_status mat_toString) = true /\
  In (js_str_or (rmo_supplier mat_toString) "Unknown Supplier") object_prototype_keys /\
  generatePurchaseOrdersForLowStock store_ok store_ok store_ok store_ok (fun _ _ => false)
    [mat_cotton; mat_toString] po_store_empty = ([], po_store_empty).
Proof.
  assert (Hin : In mat_toString [mat_cotton; mat_toString]) by (right; left; reflexivity).
  assert (Hl : is_low_or_out (rmo_status mat_toString) = true) by reflexivity.
  assert (Hp : In (js_str_or (rmo_supplier mat_toString) "Unknown Supplier") object_prototype_keys)
    by (vm_compute; tauto).
  split; [exact Hin|]. split; [exact Hl|]. split; [exact Hp|].
  apply (generate_returns_nothing store_ok store_ok store_ok store_ok (fun _ _ => false)
           [mat_cotton; mat_toString] po_store_empty).
  exists mat_toString. split; [exact Hin|]. split; [exact Hl|exact Hp].
Defined.

Lemma po_store_invariant_kept_witness :
  po_store_ok po_store_empty /\ po_store_ok po_store_one /\
  po_store_ok (snd (generatePurchaseOrdersForLowStock store_ok store_ok store_ok store_ok
                      (fun _ _ => false) [mat_cotton] po_store_empty)).
Proof.
  assert (H : po_store_ok po_store_empty) by (split; [constructor|split; constructor]).
  destruct (po_store_invariant_kept po_store_empty H) as [C [_ G]].
  split; [exact H|]. split; [apply C|apply G].
Defined.

Lemma generated_orders_stored_witness :
  po_store_ok po_store_empty /\
  getPurchaseOrderById store_ok store_ok 1
    (snd (generatePurchaseOrdersForLowStock store_ok store_ok store_ok store_ok (fun _ _ => false)
            [mat_cotton] po_store_empty)) =
    Some (po_row_one, [po_item_row 1 (low_stock_item_input mat_cotton)]).
Proof.
  assert (H : po_store_ok po_store_empty) by (split; [constructor|split; constructor]).
  split; [exact H|].
  pose proof (generated_orders_stored store_ok store_ok store_ok store_ok (fun _ _ => false)
                [mat_cotton] po_store_empty H) as G.
  assert (E : generatePurchaseOrdersForLowStock store_ok store_ok store_ok store_ok (fun _ _ => false)
                [mat_cotton] po_store_empty =
              ([(po_row_one, [po_item_row 1 (low_stock_item_input mat_cotton)])],
               snd (generatePurchaseOrdersForLowStock store_ok store_ok store_ok store_ok
                      (fun _ _ => false) [mat_cotton] po_store_empty)))
    by (vm_compute; reflexivity).
  rewrite E in G |- *. cbn [snd]. destruct G as [G _].
  apply (G (po_row_one, [po_item_row 1 (low_stock_item_input mat_cotton)])). left. reflexivity.
Defined.

(* ------------------------------------------------------------------ *)
(** * Instances of the report properties *)

Lemma low_stock_report_products_witness :
  Forall (fun p => ir_status p = update_inventory_status_trigger (ir_stock p)) products_two /\
  fst (generateLowStockReport products_two []) =
    map low_stock_product_entry (filter (fun p => Z.leb (ir_stock p) 20) products_two) /\
  map ReportsUtils.lsp_reorder_needed (fst (ReportsUtils.generateLowStockReport products_two [])) = [17].
Proof.
  assert (H : Forall (fun p => ir_status p = update_inventory_status_trigger (ir_stock p)) products_two)
    by (repeat constructor).
  destruct (low_stock_report_products products_two [] H) as [A [_ [B _]]].
  split; [exact H|]. split; [exact A|]. rewrite B. vm_compute. reflexivity.
Defined.

Lemma low_stock_report_raw_from_rows_witness :
  Forall (fun r => (forall n, rr_reorder_level r = Some n -> 0 <= n) /\
                   rr_status r = update_raw_materials_status_trigger (rr_quantity r) (rr_reorder_level r))
         raw_rows_three /\
  map (fun e => (lsr_current_quantity e, lsr_reorder_level e, lsr_reorder_needed e))
      (snd (generateLowStockReport [] (map raw_material_of_row raw_rows_three))) =
    [(0, 10, 20); (4, 5, 6)].
Proof.
  assert (H : Forall (fun r => (forall n, rr_reorder_level r = Some n -> 0 <= n) /\
                   rr_status r = update_raw_materials_status_trigger (rr_quantity r) (rr_reorder_level r))
                raw_rows_three).
  { unfold raw_rows_three.
    repeat (apply Forall_cons;
            [split; [intros n Hn; cbn in Hn; first [discriminate | injection Hn as <-; lia]
                    | reflexivity] |]).
    apply Forall_nil. }
  destruct (low_stock_report_raw_from_rows [] raw_rows_three H) as [A _].
  split; [exact H|]. rewrite A. vm_compute. reflexivity.
Defined.

(* ------------------------------------------------------------------ *)
(** * Instances of the user and password properties *)

Lemma authenticate_sound_witness :
  authenticateUser true "alice" "pw" auth_store_one = Some user_alice /\
  password_rows "u1" auth_store_one = 1%nat /\
  authenticateUser true "bob" "pw" auth_store_one = None.
Proof.
  assert (E : authenticateUser true "alice" "pw" auth_store_one = Some user_alice) by reflexivity.
  destruct (authenticate_sound true "alice" "pw" auth_store_one user_alice E) as [_ [_ [_ [H1 _]]]].
  split; [exact E|]. split; [exact H1|reflexivity].
Defined.

Lemma add_password_then_login_witness :
  filter (fun v => String.eqb (u_username v) "alice" && String.eqb (u_status v) "active")
         (users auth_store_nopw) = [user_alice] /\
  password_rows "u1" auth_store_nopw = 0%nat /\ store_ok auth_store_nopw = true /\
  authenticateUser true "alice" "pw" (snd (addUserPassword store_ok "u1" "pw" auth_store_nopw)) =
    Some user_alice /\
  authenticateUser true "alice" "other" (snd (addUserPassword store_ok "u1" "pw" auth_store_nopw)) = None.
Proof.
  assert (Hu : filter (fun v => String.eqb (u_username v) "alice" && String.eqb (u_status v) "active")
                      (users auth_store_nopw) = [user_alice]) by reflexivity.
  assert (H0 : password_rows (u_id user_alice) auth_store_nopw = 0%nat) by reflexivity.
  pose proof (add_password_then_login store_ok "alice" user_alice "pw" auth_store_nopw Hu H0 eq_refl) as L.
  split; [exact Hu|]. split; [exact H0|]. split; [reflexivity|].
  split; [exact (L "pw")|exact (L "other")].
Defined.

Lemma update_password_then_login_witness :
  filter (fun v => String.eqb (u_username v) "alice" && String.eqb (u_status v) "active")
         (users auth_store_one) = [user_alice] /\
  password_rows "u1" auth_store_one = 1%nat /\
  authenticateUser true "alice" "new"
    (snd (updateUserPassword store_ok store_ok store_ok "u1" "new" auth_store_one)) = Some user_alice /\
  authenticateUser true "alice" "pw"
    (snd (updateUserPassword store_ok store_ok store_ok "u1" "new" auth_store_one)) = None.
Proof.
  assert (Hu : filter (fun v => String.eqb (u_username v) "alice" && String.eqb (u_status v) "active")
                      (users auth_store_one) = [user_alice]) by reflexivity.
  assert (H1 : password_rows (u_id user_alice) auth_store_one = 1%nat) by reflexivity.
  pose proof (update_password_then_login store_ok store_ok store_ok "alice" user_alice "new"
                auth_store_one Hu H1 eq_refl eq_refl) as L.
  split; [exact Hu|]. split; [exact H1|]. split; [exact (L "new")|exact (L "pw")].
Defined.

Lemma duplicate_password_rows_lock_out_witness :
  (2 <= password_rows "u1" auth_store_dup)%nat /\
  (2 <= password_rows "u1"
          (snd (updateUserPassword store_ok store_ok store_ok "u1" "new" auth_store_dup)))%nat /\
  password_rows "u1"
    (snd (updateUserPassword (fun _ => false) store_ok store_ok "u1" "new" auth_store_one)) = 2%nat.
Proof.
  assert (H2 : (2 <= password_rows "u1" auth_store_dup)%nat) by (vm_compute; lia).
  destruct (duplicate_password_rows_lock_out "u1" auth_store_dup) as [A _].
  destruct (duplicate_password_rows_lock_out "u1" auth_store_one) as [_ B].
  destruct (A H2) as [_ [_ U]].
  split; [exact H2|]. split; [apply U|].
  apply B; reflexivity.
Defined.

Lemma delete_user_effect_witness :
  fst (deleteUser store_ok store_ok "u1" auth_store_one) = true /\
  password_rows "u1" (snd (deleteUser store_ok store_ok "u1" auth_store_one)) = 0%nat.
Proof.
  assert (E : fst (deleteUser store_ok store_ok "u1" auth_store_one) = true) by reflexivity.
  destruct (delete_user_effect store_ok store_ok "u1" auth_store_one E) as [H _].
  split; [exact E|exact H].
Defined.
